(** * Craigslist car-listing pipeline: a shallow embedding and its properties

    The development follows the Python sources module by module:
    - [PyStr], [Re], [PyFloat], [PyDatetime]: the parts of the language and
      of its library that the code calls ([str] methods, the two regular
      expressions, [float] and its arithmetic, [datetime]);
    - [CarListing], [MarketAnalysis], [Session]: the tables of [models.py]
      and a database session with staged rows, commit and rollback;
    - [DatabaseManager]: [_extract_year], [_extract_make], [_extract_model],
      [get_existing_urls], [add_listings] and [update_market_analysis] of
      [database_manager.py];
    - [Utils]: [clean_price] and [parse_posting_time] of [utils.py];
    - [Scraper]: the skip decisions of [scrape_craigslist] and the listing
      it builds from a result;
    - [AppDb]: the deal status computed in [get_recent_listings];
    - [SheetsManager]: [generate_kbb_lookup_url];
    - [MainDb]: the ordering of a scraped batch in [main_db.py];
    - [PlaywrightScraper]: the loop over the results of
      [scrape_craigslist_with_playwright];
    - [MigrateData]: the batch that [migrate_data] makes of the sheet.
    The definitions come first, the examples and theorems after them.

    Python strings are modelled as Rocq [string]s, that is as sequences of
    8-bit characters: the bytes of the text in UTF-8, a surrogate code
    point that stands alone in a Python string being kept as the three
    bytes [ED A0..BF 80..BF].  Case mapping, white space, digits and word
    characters are the ASCII ones, and bytes above 127 have no case and
    are neither digits, word characters nor white space.  An exception is
    an [option] or a sum in the model; the clock ([datetime.now()]) is a
    parameter. *)

From Stdlib Require Import ZArith List Bool Ascii String Lia.
From Stdlib Require Import SpecFloat Permutation Sorted.
From stdpp Require Import gmap strings.

Import ListNotations.
Local Open Scope string_scope.
Local Open Scope Z_scope.

(* ===================================================================== *)
(** ** Python [str] methods *)
(* ===================================================================== *)

Module PyStr.

Definition code (c : ascii) : nat := nat_of_ascii c.

Definition is_upper (c : ascii) : bool :=
  ((65 <=? code c) && (code c <=? 90))%nat.
Definition is_lower (c : ascii) : bool :=
  ((97 <=? code c) && (code c <=? 122))%nat.
Definition is_alpha (c : ascii) : bool := is_upper c || is_lower c.
Definition is_digit (c : ascii) : bool :=
  ((48 <=? code c) && (code c <=? 57))%nat.
(** [str.isspace] on one character: tab, LF, VT, FF, CR, the four
    separators 0x1c-0x1f and the space. *)
Definition is_space (c : ascii) : bool :=
  (((9 <=? code c) && (code c <=? 13))
   || ((28 <=? code c) && (code c <=? 31))
   || (code c =? 32))%nat.

Definition lower_char (c : ascii) : ascii :=
  if is_upper c then ascii_of_nat (code c + 32) else c.
Definition upper_char (c : ascii) : ascii :=
  if is_lower c then ascii_of_nat (code c - 32) else c.

(** [s.lower()] *)
Fixpoint lower (s : string) : string :=
  match s with
  | EmptyString => EmptyString
  | String c r => String (lower_char c) (lower r)
  end.

(** [s.startswith(p)] *)
Fixpoint startswith (p s : string) : bool :=
  match p, s with
  | EmptyString, _ => true
  | String a p', String b s' => Ascii.eqb a b && startswith p' s'
  | String _ _, EmptyString => false
  end.

(** [sub in s] *)
Fixpoint contains (sub s : string) : bool :=
  startswith sub s ||
  match s with
  | EmptyString => false
  | String _ r => contains sub r
  end.

(** [s.find(sub)], with -1 when [sub] does not occur. *)
Fixpoint find_from (i : Z) (sub s : string) : Z :=
  if startswith sub s then i
  else match s with
       | EmptyString => -1
       | String _ r => find_from (i + 1) sub r
       end.
Definition find (sub s : string) : Z := find_from 0 sub s.

Definition len (s : string) : Z := Z.of_nat (String.length s).

(** [s[i:]] for [0 <= i]. *)
Fixpoint drop (n : nat) (s : string) : string :=
  match n, s with
  | O, _ => s
  | S n', String _ r => drop n' r
  | S _, EmptyString => EmptyString
  end.
Definition slice_from (i : Z) (s : string) : string := drop (Z.to_nat i) s.

(** [s[:n]] for [0 <= n]. *)
Fixpoint take (n : nat) (s : string) : string :=
  match n, s with
  | S n', String c r => String c (take n' r)
  | _, _ => EmptyString
  end.

Fixpoint lstrip (s : string) : string :=
  match s with
  | String c r => if is_space c then lstrip r else s
  | EmptyString => EmptyString
  end.

Fixpoint rstrip (s : string) : string :=
  match s with
  | EmptyString => EmptyString
  | String c r =>
      match rstrip r with
      | EmptyString => if is_space c then EmptyString else String c EmptyString
      | r' => String c r'
      end
  end.

(** [s.strip()] *)
Definition strip (s : string) : string := rstrip (lstrip s).

(** [s.split()]: the maximal runs of non-whitespace characters.
    [cur] is the word being read, in reverse. *)
Fixpoint split_go (cur : list ascii) (s : string) : list string :=
  let flush := match cur with
               | [] => []
               | _ => [string_of_list_ascii (rev cur)]
               end in
  match s with
  | EmptyString => flush
  | String c r =>
      if is_space c then (flush ++ split_go [] r)%list
      else split_go (c :: cur) r
  end.
Definition split (s : string) : list string := split_go [] s.

(** [s.title()]: a cased character is upper-cased when the character
    before it is not cased, lower-cased otherwise. *)
Fixpoint title_go (prev_cased : bool) (s : string) : string :=
  match s with
  | EmptyString => EmptyString
  | String c r =>
      String (if prev_cased then lower_char c else upper_char c)
             (title_go (is_alpha c) r)
  end.
Definition title (s : string) : string := title_go false s.

(** [s.replace(c, '')] for a one-character [c]. *)
Fixpoint remove_char (x : ascii) (s : string) : string :=
  match s with
  | EmptyString => EmptyString
  | String c r => if Ascii.eqb c x then remove_char x r
                  else String c (remove_char x r)
  end.

(** [s.strip(chars)]: the characters of [chars] are dropped at both
    ends. *)
Definition among (chars : string) (c : ascii) : bool :=
  contains (String c EmptyString) chars.

Fixpoint lstrip_chars (chars s : string) : string :=
  match s with
  | String c r => if among chars c then lstrip_chars chars r else s
  | EmptyString => EmptyString
  end.

Fixpoint rstrip_chars (chars s : string) : string :=
  match s with
  | EmptyString => EmptyString
  | String c r =>
      match rstrip_chars chars r with
      | EmptyString => if among chars c then EmptyString else String c EmptyString
      | r' => String c r'
      end
  end.

Definition strip_chars (chars s : string) : string :=
  rstrip_chars chars (lstrip_chars chars s).

(** The text holds a surrogate code point (U+D800 to U+DFFF): the byte
    [ED] followed by a byte from [A0] to [BF].  Such a text has no UTF-8
    encoding: [s.encode('utf-8')] raises [UnicodeEncodeError]. *)
Fixpoint has_surrogate (s : string) : bool :=
  match s with
  | EmptyString => false
  | String c r =>
      ((code c =? 237)%nat
       && match r with
          | String d _ => ((160 <=? code d) && (code d <=? 191))%nat
          | EmptyString => false
          end)
      || has_surrogate r
  end.

(** Truth value of a string: [not s] is [true] on the empty string. *)
Definition truthy (s : string) : bool :=
  match s with EmptyString => false | _ => true end.

(** Truth value of an optional string ([None] and [''] are falsy). *)
Definition otruthy (o : option string) : bool :=
  match o with Some s => truthy s | None => false end.

End PyStr.

(* ===================================================================== *)
(** ** Regular-expression fragments used by the extractors *)
(* ===================================================================== *)

Module Re.

(** [\w] *)
Definition is_word (c : ascii) : bool :=
  PyStr.is_alpha c || PyStr.is_digit c || Ascii.eqb c "_".

Definition in_range (lo hi c : ascii) : bool :=
  ((nat_of_ascii lo <=? nat_of_ascii c) && (nat_of_ascii c <=? nat_of_ascii hi))%nat.

(** [19[a-9][0-9]|20[0-2][0-9]], where [a] is the first decade digit
    accepted in the twentieth century. *)
Definition year_digits (a : ascii) (c1 c2 c3 c4 : ascii) : bool :=
  (Ascii.eqb c1 "1" && Ascii.eqb c2 "9" && in_range a "9" c3 && PyStr.is_digit c4)
  || (Ascii.eqb c1 "2" && Ascii.eqb c2 "0" && in_range "0" "2" c3 && PyStr.is_digit c4).

(** The pattern [(19[a-9][0-9]|20[0-2][0-9])\b] matched at the head of [s]. *)
Definition year_here (a : ascii) (s : string) : bool :=
  match s with
  | String c1 (String c2 (String c3 (String c4 r))) =>
      year_digits a c1 c2 c3 c4
      && match r with
         | EmptyString => true
         | String c _ => negb (is_word c)
         end
  | _ => false
  end.

(** [re.search(r'\b(19[a-9][0-9]|20[0-2][0-9])\b', s)]: the leftmost
    match, as the matched four characters.  [prev_word] tells whether the
    character before [s] is a word character. *)
Fixpoint search_year_from (a : ascii) (prev_word : bool) (s : string) : option string :=
  match s with
  | EmptyString => None
  | String c r =>
      if negb prev_word && year_here a s then Some (PyStr.take 4 s)
      else search_year_from a (is_word c) r
  end.
Definition search_year (a : ascii) (s : string) : option string :=
  search_year_from a false s.

End Re.

(** [int(s)] on a string of decimal digits. *)
Definition digit_val (c : ascii) : Z := Z.of_nat (nat_of_ascii c) - 48.

Fixpoint int_of_digits_from (acc : Z) (s : string) : Z :=
  match s with
  | EmptyString => acc
  | String c r => int_of_digits_from (10 * acc + digit_val c) r
  end.
Definition int_of_digits (s : string) : Z := int_of_digits_from 0 s.


(* ===================================================================== *)
(** ** Python [float]: IEEE 754 binary64 *)
(* ===================================================================== *)

(** Floats are the values of the specification of binary64 in the
    standard library ([spec_float] with precision 53 and maximal exponent
    1024); every operation below rounds to nearest, ties to even, as the
    hardware does. *)
Module PyFloat.

Definition float : Type := spec_float.

Definition prec : Z := 53.
Definition emax : Z := 1024.

Definition mul : float -> float -> float := SFmul prec emax.
Definition add : float -> float -> float := SFadd prec emax.
Definition div : float -> float -> float := SFdiv prec emax.

(** [x < y], [x <= y], [x == y]; all three are [false] on a NaN. *)
Definition ltb : float -> float -> bool := SFltb.
Definition leb : float -> float -> bool := SFleb.
Definition eqb : float -> float -> bool := SFeqb.

Definition is_nan (x : float) : bool :=
  match x with S754_nan => true | _ => false end.

(** The float nearest to the rational [n / d], for [0 <= n] and [0 < d],
    with the sign [neg]. *)
Definition of_ratio (neg : bool) (n d : Z) : float :=
  match n with
  | Z0 => S754_zero neg
  | _ => let '(q, e, l) := SFdiv_core_binary prec emax n 0 d 0 in
         binary_round_aux prec emax neg q e l
  end.

(** [float(n)] for an integer [n]. *)
Definition of_Z (n : Z) : float := of_ratio (n <? 0) (Z.abs n) 1.

(** *** [float(s)] on a string

    The grammar is that of the language reference: optional white space
    around, an optional sign, then [inf], [infinity] or [nan] in any
    case, or a decimal number with an optional fraction and an optional
    exponent, where single underscores may separate digits. *)

(** [digit (["_"] digit)*] after its first digit: the digits read and
    the rest of the string. *)
Fixpoint digits_tail (s : string) : string * string :=
  match s with
  | String c r =>
      if PyStr.is_digit c then
        let '(ds, rest) := digits_tail r in (String c ds, rest)
      else if Ascii.eqb c "_" then
        match r with
        | String c2 r2 =>
            if PyStr.is_digit c2 then
              let '(ds, rest) := digits_tail r2 in (String c2 ds, rest)
            else (EmptyString, s)
        | EmptyString => (EmptyString, s)
        end
      else (EmptyString, s)
  | EmptyString => (EmptyString, s)
  end.

(** [digitpart], when [s] starts with one. *)
Definition digitpart (s : string) : option (string * string) :=
  match s with
  | String c r =>
      if PyStr.is_digit c then
        let '(ds, rest) := digits_tail r in Some (String c ds, rest)
      else None
  | EmptyString => None
  end.

(** [number ::= [digitpart] "." digitpart | digitpart ["."]]: the digits
    before and after the point, and the rest. *)
Definition number (s : string) : option (string * string * string) :=
  match digitpart s with
  | Some (ip, String "." r) =>
      match digitpart r with
      | Some (fp, rest) => Some (ip, fp, rest)
      | None => Some (ip, EmptyString, r)
      end
  | Some (ip, rest) => Some (ip, EmptyString, rest)
  | None =>
      match s with
      | String "." r =>
          match digitpart r with
          | Some (fp, rest) => Some (EmptyString, fp, rest)
          | None => None
          end
      | _ => None
      end
  end.

(** An optional sign: [true] for a minus. *)
Definition sign (s : string) : bool * string :=
  match s with
  | String "+" r => (false, r)
  | String "-" r => (true, r)
  | _ => (false, s)
  end.

(** [exponent ::= ("e" | "E") [sign] digitpart], up to the end of the
    string; no exponent is the exponent 0. *)
Definition exponent (s : string) : option Z :=
  match s with
  | EmptyString => Some 0
  | String c r =>
      if Ascii.eqb (PyStr.lower_char c) "e" then
        let '(neg, r') := sign r in
        match digitpart r' with
        | Some (ds, EmptyString) =>
            Some (if neg then - int_of_digits ds else int_of_digits ds)
        | _ => None
        end
      else None
  end.

(** The value of [mantissa * 10 ^ e10]. *)
Definition of_decimal (neg : bool) (mantissa e10 : Z) : float :=
  if 0 <=? e10 then of_ratio neg (mantissa * 10 ^ e10) 1
  else of_ratio neg mantissa (10 ^ (- e10)).

(** [float(s)]; [None] stands for [ValueError]. *)
Definition of_string (s : string) : option float :=
  let '(neg, body) := sign (PyStr.strip s) in
  let word := PyStr.lower body in
  if String.eqb word "inf" || String.eqb word "infinity" then Some (S754_infinity neg)
  else if String.eqb word "nan" then Some S754_nan
  else
    match number body with
    | Some (ip, fp, rest) =>
        match exponent rest with
        | Some e =>
            Some (of_decimal neg (int_of_digits (ip ++ fp)) (e - PyStr.len fp))
        | None => None
        end
    | None => None
    end.

(** *** Float literals of the sources *)
Definition lit_0_85 : float := of_decimal false 85 (-2).
Definition lit_0_95 : float := of_decimal false 95 (-2).
Definition lit_1_05 : float := of_decimal false 105 (-2).

(** *** [sum], [min], [max], [sorted] on lists of floats *)

(** [sum(l)]: additions from left to right, from the integer 0.  (The
    compensated summation of recent interpreters returns the same float
    whenever these additions are exact, as they are on whole prices.) *)
Definition sum (l : list float) : float := fold_left add l (of_Z 0).

(** [min(l)] keeps the first element until a smaller one shows up;
    [None] on the empty list, where Python raises. *)
Definition min (l : list float) : option float :=
  match l with
  | [] => None
  | x :: r => Some (fold_left (fun m y => if ltb y m then y else m) r x)
  end.

Definition max (l : list float) : option float :=
  match l with
  | [] => None
  | x :: r => Some (fold_left (fun m y => if ltb m y then y else m) r x)
  end.

(** One step of a stable insertion sort: [x] goes after the elements
    that are not greater than it. *)
Fixpoint insert (x : float) (l : list float) : list float :=
  match l with
  | [] => [x]
  | y :: r => if ltb x y then x :: l else y :: insert x r
  end.

(** [sorted(l)]: a stable sort that compares with [<] only.  On a list
    without NaN every stable sort returns this list. *)
Definition sorted (l : list float) : list float :=
  fold_left (fun acc x => insert x acc) l [].

End PyFloat.

(* ===================================================================== *)
(** ** Python [datetime]: construction, [strptime], [fromisoformat],
       [strftime] *)
(* ===================================================================== *)

(** A [datetime] is kept as its six calendar fields; the microsecond and
    the UTC offset that [fromisoformat] may read are checked and dropped,
    since the sources only ever print a datetime with
    ["%Y-%m-%d %H:%M:%S"].  [None] stands for [ValueError]. *)
Module PyDatetime.

Record datetime : Type := mk_datetime {
  year : Z; month : Z; day : Z; hour : Z; minute : Z; second : Z
}.

Definition is_leap (y : Z) : bool :=
  (y mod 4 =? 0) && (negb (y mod 100 =? 0) || (y mod 400 =? 0)).

Definition days_in_month (y m : Z) : Z :=
  if m =? 2 then (if is_leap y then 29 else 28)
  else if (m =? 4) || (m =? 6) || (m =? 9) || (m =? 11) then 30
  else 31.

Definition valid_fields (y m d hh mi ss : Z) : bool :=
  (1 <=? y) && (y <=? 9999) && (1 <=? m) && (m <=? 12)
  && (1 <=? d) && (d <=? days_in_month y m)
  && (0 <=? hh) && (hh <=? 23) && (0 <=? mi) && (mi <=? 59)
  && (0 <=? ss) && (ss <=? 59).

(** [datetime(y, m, d, hh, mi, ss)] *)
Definition make (y m d hh mi ss : Z) : option datetime :=
  if valid_fields y m d hh mi ss then Some (mk_datetime y m d hh mi ss) else None.

(** [dt.replace(year=y)] *)
Definition replace_year (dt : datetime) (y : Z) : option datetime :=
  make y (month dt) (day dt) (hour dt) (minute dt) (second dt).

(** *** Printing *)

Definition digit_char (n : Z) : ascii := ascii_of_nat (48 + Z.to_nat n).

Definition pad2 (n : Z) : string :=
  String (digit_char (n / 10 mod 10)) (String (digit_char (n mod 10)) EmptyString).

Definition pad4 (n : Z) : string :=
  String (digit_char (n / 1000 mod 10))
    (String (digit_char (n / 100 mod 10)) (pad2 n)).

(** [%Y] in [strftime], for the years 1 to 9999 of a datetime: the year
    in decimal.  The interpreter hands the format to the [strftime] of
    the C library, and the one of Linux does not pad the year: the year
    987 is printed ["987"], not ["0987"].  ([strptime] and
    [fromisoformat] read a year of four digits only.) *)
Definition year_text (y : Z) : string :=
  if y <? 10 then String (digit_char y) EmptyString
  else if y <? 100 then pad2 y
  else if y <? 1000 then String (digit_char (y / 100 mod 10)) (pad2 y)
  else pad4 y.

(** [dt.strftime("%Y-%m-%d %H:%M:%S")] *)
Definition strftime_canonical (dt : datetime) : string :=
  year_text (year dt) ++ "-" ++ pad2 (month dt) ++ "-" ++ pad2 (day dt) ++ " "
  ++ pad2 (hour dt) ++ ":" ++ pad2 (minute dt) ++ ":" ++ pad2 (second dt).

(** [datetime.now().strftime("%Y-%m-%d")]: the date of the clock, whose
    year has four digits. *)
Definition strftime_date (dt : datetime) : string :=
  pad4 (year dt) ++ "-" ++ pad2 (month dt) ++ "-" ++ pad2 (day dt).

(** *** Comparison: by year, month, day, hour, minute, second *)

Definition fields (dt : datetime) : list Z :=
  [year dt; month dt; day dt; hour dt; minute dt; second dt].

Fixpoint compare_fields (a b : list Z) : comparison :=
  match a, b with
  | x :: a', y :: b' =>
      match x ?= y with
      | Eq => compare_fields a' b'
      | c => c
      end
  | [], [] => Eq
  | [], _ :: _ => Lt
  | _ :: _, [] => Gt
  end.

Definition compare (a b : datetime) : comparison :=
  compare_fields (fields a) (fields b).

(** [a < b] *)
Definition ltb (a b : datetime) : bool :=
  match compare a b with Lt => true | _ => false end.

(** *** Reading digits *)

(** Exactly [n] decimal digits at the head of [s]. *)
Fixpoint read_digits_from (acc : Z) (n : nat) (s : string) : option (Z * string) :=
  match n with
  | O => Some (acc, s)
  | S n' =>
      match s with
      | String c r =>
          if PyStr.is_digit c then read_digits_from (10 * acc + digit_val c) n' r
          else None
      | EmptyString => None
      end
  end.
Definition read_digits (n : nat) (s : string) : option (Z * string) :=
  read_digits_from 0 n s.

(** *** [datetime.strptime] *)

Inductive directive : Type :=
| D_Y | D_y | D_m | D_d | D_H | D_M | D_S | D_b | D_B
| D_space                 (* a run of white space in the format: [\s+] *)
| D_lit (c : ascii).

(** The format compiled as [_strptime] does: [%x] is a directive, a run
    of white space is one [\s+], anything else stands for itself.
    [None] on a directive the sources never use. *)
Fixpoint compile (in_space : bool) (fmt : string) : option (list directive) :=
  match fmt with
  | EmptyString => Some []
  | String c r =>
      if PyStr.is_space c then
        if in_space then compile true r
        else option_map (cons D_space) (compile true r)
      else if Ascii.eqb c "%" then
        match r with
        | String x r' =>
            let d := if Ascii.eqb x "Y" then Some D_Y
                     else if Ascii.eqb x "y" then Some D_y
                     else if Ascii.eqb x "m" then Some D_m
                     else if Ascii.eqb x "d" then Some D_d
                     else if Ascii.eqb x "H" then Some D_H
                     else if Ascii.eqb x "M" then Some D_M
                     else if Ascii.eqb x "S" then Some D_S
                     else if Ascii.eqb x "b" then Some D_b
                     else if Ascii.eqb x "B" then Some D_B
                     else None in
            match d, compile false r' with
            | Some d, Some ds => Some (d :: ds)
            | _, _ => None
            end
        | EmptyString => None
        end
      else option_map (cons (D_lit c)) (compile false r)
  end.

(** The fields read so far; [p_year] stays [None] without [%Y] or [%y]. *)
Record partial : Type := mk_partial {
  p_year : option Z; p_month : Z; p_day : Z;
  p_hour : Z; p_minute : Z; p_second : Z
}.

Definition partial0 : partial := mk_partial None 1 1 0 0 0.

Definition set_field (d : directive) (v : Z) (p : partial) : partial :=
  match d with
  | D_Y => mk_partial (Some v) (p_month p) (p_day p) (p_hour p) (p_minute p) (p_second p)
  | D_y => mk_partial (Some (if v <=? 68 then 2000 + v else 1900 + v))
                      (p_month p) (p_day p) (p_hour p) (p_minute p) (p_second p)
  | D_m | D_b | D_B =>
      mk_partial (p_year p) v (p_day p) (p_hour p) (p_minute p) (p_second p)
  | D_d => mk_partial (p_year p) (p_month p) v (p_hour p) (p_minute p) (p_second p)
  | D_H => mk_partial (p_year p) (p_month p) (p_day p) v (p_minute p) (p_second p)
  | D_M => mk_partial (p_year p) (p_month p) (p_day p) (p_hour p) v (p_second p)
  | D_S => mk_partial (p_year p) (p_month p) (p_day p) (p_hour p) (p_minute p) v
  | D_space | D_lit _ => p
  end.

(** Two digits [c1 c2] with [c1] in [lo1..hi1] and [c2] in [lo2..hi2]. *)
Definition two (lo1 hi1 lo2 hi2 : ascii) (s : string) : list (Z * string) :=
  match s with
  | String c1 (String c2 r) =>
      if Re.in_range lo1 hi1 c1 && Re.in_range lo2 hi2 c2
      then [(10 * digit_val c1 + digit_val c2, r)] else []
  | _ => []
  end.

(** One digit in [lo..hi]. *)
Definition one (lo hi : ascii) (s : string) : list (Z * string) :=
  match s with
  | String c r => if Re.in_range lo hi c then [(digit_val c, r)] else []
  | EmptyString => []
  end.

Definition month_abbr : list string :=
  [ "jan"; "feb"; "mar"; "apr"; "may"; "jun";
    "jul"; "aug"; "sep"; "oct"; "nov"; "dec" ].
Definition month_name : list string :=
  [ "january"; "february"; "march"; "april"; "may"; "june";
    "july"; "august"; "september"; "october"; "november"; "december" ].

(** The month names that [s] starts with, in any case, as (number, rest).
    No name is the beginning of another one, so at most one matches and
    the order of the alternatives does not matter. *)
Fixpoint names_at (i : Z) (names : list string) (s : string) : list (Z * string) :=
  match names with
  | [] => []
  | n :: ns =>
      (if PyStr.startswith n (PyStr.lower s)
       then [(i, PyStr.drop (String.length n) s)] else [])
      ++ names_at (i + 1) ns s
  end.

(** The ways [\s+] can match at the head of [s], longest first. *)
Fixpoint spaces (s : string) : list string :=
  match s with
  | String c r => if PyStr.is_space c then spaces r ++ [r] else []
  | EmptyString => []
  end.

(** The ways one directive can match at the head of [s], in the order
    the regular expression of [_strptime] tries them. *)
Definition alternatives (d : directive) (s : string) : list (Z * string) :=
  match d with
  | D_Y => match read_digits 4 s with Some m => [m] | None => [] end
  | D_y => match read_digits 2 s with Some m => [m] | None => [] end
  | D_m => two "1" "1" "0" "2" s ++ two "0" "0" "1" "9" s ++ one "1" "9" s
  | D_d => two "3" "3" "0" "1" s ++ two "1" "2" "0" "9" s ++ two "0" "0" "1" "9" s
           ++ one "1" "9" s
           ++ match s with
              | String " " r => one "1" "9" r
              | _ => []
              end
  | D_H => two "2" "2" "0" "3" s ++ two "0" "1" "0" "9" s ++ one "0" "9" s
  | D_M => two "0" "5" "0" "9" s ++ one "0" "9" s
  | D_S => two "6" "6" "0" "1" s ++ two "0" "5" "0" "9" s ++ one "0" "9" s
  | D_b => names_at 1 month_abbr s
  | D_B => names_at 1 month_name s
  | D_space => map (fun r => (0, r)) (spaces s)
  | D_lit c =>
      match s with
      | String x r =>
          if Ascii.eqb (PyStr.lower_char x) (PyStr.lower_char c) then [(0, r)] else []
      | EmptyString => []
      end
  end.

(** All the matches of the compiled format at the head of [s], in the
    order a backtracking matcher finds them. *)
Fixpoint matches (ds : list directive) (p : partial) (s : string) : list (partial * string) :=
  match ds with
  | [] => [(p, s)]
  | d :: ds' =>
      flat_map (fun '(v, r) => matches ds' (set_field d v p) r) (alternatives d s)
  end.

(** [datetime.strptime(s, fmt)]: the first match must end where the
    string ends, and the fields must make a date; a missing year is 1900. *)
Definition strptime (s fmt : string) : option datetime :=
  match compile false fmt with
  | Some ds =>
      match matches ds partial0 s with
      | (p, EmptyString) :: _ =>
          make (default 1900 (p_year p)) (p_month p) (p_day p)
               (p_hour p) (p_minute p) (p_second p)
      | _ => None
      end
  | None => None
  end.

(** *** [datetime.fromisoformat]

    The documented format
    [YYYY-MM-DD[*HH[:MM[:SS[.fff[fff]]]][+HH:MM[:SS[.ffffff]]]]], where
    [*] is any one character.  Later interpreters read further ISO 8601
    forms as well. *)

(** [.fff[fff]] up to the end of [s], or nothing. *)
Definition iso_fraction (s : string) : bool :=
  match s with
  | EmptyString => true
  | String "." r =>
      match read_digits 3 r with
      | Some (_, EmptyString) => true
      | Some (_, r') =>
          match read_digits 3 r' with
          | Some (_, EmptyString) => true
          | _ => false
          end
      | None => false
      end
  | _ => false
  end.

(** [HH[:MM[:SS[.fff[fff]]]]] covering the whole of [s]. *)
Definition iso_hh_mm_ss (s : string) : option (Z * Z * Z) :=
  match read_digits 2 s with
  | Some (hh, EmptyString) => Some (hh, 0, 0)
  | Some (hh, String ":" r) =>
      match read_digits 2 r with
      | Some (mi, EmptyString) => Some (hh, mi, 0)
      | Some (mi, String ":" r') =>
          match read_digits 2 r' with
          | Some (ss, f) => if iso_fraction f then Some (hh, mi, ss) else None
          | None => None
          end
      | _ => None
      end
  | _ => None
  end.

(** The time and the offset are split at the first sign. *)
Fixpoint split_at_sign (s : string) : string * option string :=
  match s with
  | EmptyString => (EmptyString, None)
  | String c r =>
      if Ascii.eqb c "+" || Ascii.eqb c "-" then (EmptyString, Some r)
      else let '(t, z) := split_at_sign r in (String c t, z)
  end.

(** An offset [HH:MM[:SS[.ffffff]]] strictly below 24 hours. *)
Definition iso_offset (z : string) : bool :=
  let n := String.length z in
  ((n =? 5) || (n =? 8) || (n =? 15))%nat
  && match iso_hh_mm_ss z with
     | Some (hh, mi, ss) => (hh * 3600 + mi * 60 + ss <? 86400)
     | None => false
     end.

Definition iso_time (s : string) : option (Z * Z * Z) :=
  let '(t, z) := split_at_sign s in
  match iso_hh_mm_ss t, z with
  | Some hms, None => Some hms
  | Some hms, Some z => if iso_offset z then Some hms else None
  | None, _ => None
  end.

Definition fromisoformat (s : string) : option datetime :=
  match read_digits 4 s with
  | Some (y, String "-" r1) =>
      match read_digits 2 r1 with
      | Some (m, String "-" r2) =>
          match read_digits 2 r2 with
          | Some (d, EmptyString) => make y m d 0 0 0
          | Some (d, String _ t) =>
              match iso_time t with
              | Some (hh, mi, ss) => make y m d hh mi ss
              | None => None
              end
          | None => None
          end
      | _ => None
      end
  | _ => None
  end.

End PyDatetime.

(* ===================================================================== *)
(** ** models.py: the two tables *)
(* ===================================================================== *)

(** The columns that the code reads or writes.  The columns of
    [CarListing] that nothing ever sets ([description], [vin], [odometer],
    the [market_value] group) and the serial keys are left out; a [None]
    is the SQL [NULL]. *)
Module CarListing.
Record t : Type := mk {
  title : string;
  price : option string;
  url : string;
  location : option string;
  posting_time : option PyDatetime.datetime;
  scraped_at : option PyDatetime.datetime;
  year : option Z;
  make : option string;
  model : option string
}.
End CarListing.

Module MarketAnalysis.
Record t : Type := mk {
  make : string;
  model : string;
  year_from : option Z;
  year_to : option Z;
  avg_price : PyFloat.float;
  median_price : PyFloat.float;
  min_price : PyFloat.float;
  max_price : PyFloat.float;
  sample_size : Z;
  created_at : PyDatetime.datetime
}.
End MarketAnalysis.

(** What is committed in the database. *)
Record database : Type := mk_database {
  car_listings : list CarListing.t;
  market_analysis : list MarketAnalysis.t
}.

(** ** A session on the database, and the exceptions of the code *)

(** The code runs against a session: [db.session.add] stages a row,
    [commit] makes the staged rows durable all at once, [rollback] drops
    them.  A query and a commit are round trips to the server, and any
    round trip may fail: [faults k] tells whether the [k]-th round trip of
    a run raises. *)
Module Session.

Inductive exn : Type :=
| OperationalError      (* a round trip to the database failed *)
| TypeError.            (* a value of the wrong type reached a library call *)

Record world : Type := mk_world {
  store : database;
  pending : list CarListing.t;
  trips : nat
}.

Inductive outcome (A : Type) : Type :=
| Returns (a : A)
| Raises (e : exn).
Arguments Returns {A} a.
Arguments Raises {A} e.

Definition M (A : Type) : Type := world -> outcome A * world.

Definition ret {A} (a : A) : M A := fun w => (Returns a, w).
Definition raise {A} (e : exn) : M A := fun w => (Raises e, w).
Definition bind {A B} (m : M A) (k : A -> M B) : M B :=
  fun w => match m w with
           | (Returns a, w') => k a w'
           | (Raises e, w') => (Raises e, w')
           end.
(** [try: m  except Exception: h] *)
Definition try_except {A} (m : M A) (h : exn -> M A) : M A :=
  fun w => match m w with
           | (Returns a, w') => (Returns a, w')
           | (Raises e, w') => h e w'
           end.

Section Faults.
Variable faults : nat -> bool.

(** One round trip: it fails when the oracle says so. *)
Definition round_trip : M unit :=
  fun w =>
    let w' := mk_world (store w) (pending w) (S (trips w)) in
    if faults (trips w) then (Raises OperationalError, w') else (Returns tt, w').

(** [CarListing.query.filter_by(url=url).first()]: the session flushes
    before it queries, so the staged rows are seen too. *)
Definition first_by_url (u : string) : M (option CarListing.t) :=
  bind round_trip (fun _ w =>
    (Returns (List.find (fun l => String.eqb (CarListing.url l) u)
                        (car_listings (store w) ++ pending w)), w)).

(** [db.session.add(row)] *)
Definition add (row : CarListing.t) : M unit :=
  fun w => (Returns tt, mk_world (store w) (pending w ++ [row]) (trips w)).

(** [db.session.commit()] *)
Definition commit : M unit :=
  bind round_trip (fun _ w =>
    (Returns tt,
     mk_world (mk_database (car_listings (store w) ++ pending w)
                           (market_analysis (store w)))
              [] (trips w))).

(** [db.session.rollback()] *)
Definition rollback : M unit :=
  fun w => (Returns tt, mk_world (store w) [] (trips w)).
End Faults.

End Session.

Notation "x <- m ;; k" := (Session.bind m (fun x => k))
  (at level 100, m at next level, right associativity).
(* ===================================================================== *)
(** ** database_manager.py: attribute extraction *)
(* ===================================================================== *)

Module DatabaseManager.

(** [_extract_year] *)
Definition _extract_year (title : string) : option Z :=
  match Re.search_year "7" title with
  | Some g => Some (int_of_digits g)
  | None => None
  end.

Definition common_makes : list string :=
  [ "Toyota"; "Honda"; "Ford"; "Chevrolet"; "Chevy"; "Nissan"; "Hyundai";
    "Kia"; "Mazda"; "Subaru"; "Volkswagen"; "VW"; "Jeep"; "BMW";
    "Mercedes"; "Lexus"; "Acura"; "Audi" ].

(** The normalisation applied to the make that matched. *)
Definition normalize_make (make : string) : string :=
  if String.eqb (PyStr.lower make) "chevy" then "Chevrolet"
  else if String.eqb (PyStr.lower make) "vw" then "Volkswagen"
  else make.

(** The loop of [_extract_make] over the remaining makes. *)
Fixpoint first_make (title_lower : string) (makes : list string) : option string :=
  match makes with
  | [] => None
  | make :: rest =>
      if PyStr.contains (PyStr.lower make) title_lower
      then Some (normalize_make make)
      else first_make title_lower rest
  end.

(** [_extract_make] *)
Definition _extract_make (title : string) : option string :=
  first_make (PyStr.lower title) common_makes.

Definition model_dict : gmap string (list string) :=
  list_to_map
    [ ("toyota", ["corolla"; "camry"; "rav4"; "highlander"; "4runner"; "tacoma"; "tundra"; "prius"; "sienna"]);
      ("honda", ["civic"; "accord"; "cr-v"; "pilot"; "odyssey"; "fit"; "hr-v"]);
      ("ford", ["f-150"; "f150"; "escape"; "explorer"; "focus"; "fusion"; "mustang"]);
      ("chevrolet", ["silverado"; "equinox"; "tahoe"; "malibu"; "suburban"; "colorado"; "camaro"]);
      ("nissan", ["altima"; "rogue"; "sentra"; "murano"; "pathfinder"; "frontier"; "maxima"]);
      ("hyundai", ["elantra"; "sonata"; "tucson"; "santa fe"; "kona"; "palisade"]);
      ("kia", ["forte"; "optima"; "sorento"; "sportage"; "telluride"; "soul"]);
      ("mazda", ["mazda3"; "mazda6"; "cx-5"; "cx-9"; "mx-5"; "miata"]);
      ("subaru", ["outback"; "forester"; "impreza"; "crosstrek"; "legacy"; "ascent"]);
      ("volkswagen", ["jetta"; "passat"; "tiguan"; "atlas"; "golf"; "beetle"]);
      ("jeep", ["wrangler"; "grand cherokee"; "cherokee"; "compass"; "renegade"]);
      ("bmw", ["3 series"; "5 series"; "x3"; "x5"; "328i"; "530i"; "m3"; "m5"]);
      ("mercedes", ["c-class"; "e-class"; "s-class"; "gla"; "glc"; "gle"]);
      ("lexus", ["rx"; "es"; "nx"; "is"; "gx"; "lx"; "rc"]);
      ("acura", ["mdx"; "rdx"; "tlx"; "ilx"; "rlx"]);
      ("audi", ["a4"; "a6"; "q5"; "q7"; "a3"; "tt"; "r8"]) ].

(** The loop over the models of the make. *)
Fixpoint first_model (title_lower : string) (models : list string) : option string :=
  match models with
  | [] => None
  | model :: rest =>
      if PyStr.contains (PyStr.lower model) title_lower
      then Some (PyStr.title model)
      else first_model title_lower rest
  end.

(** The fallback of [_extract_model]: the first word after the make.
    [after_make.split()[0]] raises [IndexError] on an empty split, which
    the [except] clause turns into [None]. *)
Definition model_after_make (title_lower make_lower : string) : option string :=
  let make_index := PyStr.find make_lower title_lower in
  if 0 <=? make_index then
    let after_make :=
      PyStr.strip (PyStr.slice_from (make_index + PyStr.len make_lower) title_lower) in
    match PyStr.split after_make with
    | [] => None
    | w :: _ =>
        let model_candidate := PyStr.strip w in
        if PyStr.truthy model_candidate && (1 <? PyStr.len model_candidate)
        then Some (PyStr.title model_candidate)
        else None
    end
  else None.

(** [_extract_model] *)
Definition _extract_model (title : string) (make : option string) : option string :=
  if negb (PyStr.otruthy make) then None
  else
    let make := default "" make in
    let title_lower := PyStr.lower title in
    let make_lower := PyStr.lower make in
    match
      match model_dict !! make_lower with
      | Some models => first_model title_lower models
      | None => None
      end
    with
    | Some m => Some m
    | None => model_after_make title_lower make_lower
    end.


(** *** [add_listings] *)

(** A listing dictionary: its keys are strings, its values strings or
    [None]. *)
Definition listing_dict : Type := gmap string (option string).

(** [d.get(k, dflt)] and [d.get(k)] *)
Definition get_default (d : listing_dict) (k dflt : string) : option string :=
  match d !! k with Some v => v | None => Some dflt end.
Definition get (d : listing_dict) (k : string) : option string :=
  match d !! k with Some v => v | None => None end.

Definition canonical_format : string := "%Y-%m-%d %H:%M:%S".

(** The [posting_time] column: a parsed canonical timestamp, or [NULL]
    when the field is missing, empty, ["N/A"] or in another format. *)
Definition posting_time_of (d : listing_dict) : option PyDatetime.datetime :=
  match get d "posting_time" with
  | Some s =>
      if PyStr.truthy s && negb (String.eqb s "N/A")
      then PyDatetime.strptime s canonical_format
      else None
  | None => None
  end.

(** The [scraped_at] column: the parsed field, or the current time. *)
Definition scraped_at_of (now : PyDatetime.datetime) (d : listing_dict)
  : PyDatetime.datetime :=
  match get d "scraped_at" with
  | Some s =>
      if PyStr.truthy s && negb (String.eqb s "N/A")
      then default now (PyDatetime.strptime s canonical_format)
      else now
  | None => now
  end.

Section AddListings.
Variable faults : nat -> bool.
Variable now : PyDatetime.datetime.

(** One turn of the loop of [add_listings].  A title that is [None]
    makes [re.search] raise [TypeError]. *)
Definition add_one (listing_data : listing_dict) : Session.M unit :=
  let title := get_default listing_data "title" "" in
  let price := get_default listing_data "price" "" in
  let url := get_default listing_data "url" "" in
  let location := get_default listing_data "location" "" in
  if negb (PyStr.otruthy url) then Session.ret tt
  else
    let url := default "" url in
    existing <- Session.first_by_url faults url ;;
    match existing with
    | Some _ => Session.ret tt
    | None =>
        let posting_time := posting_time_of listing_data in
        match title with
        | None => Session.raise Session.TypeError
        | Some title =>
            let year := _extract_year title in
            let make := _extract_make title in
            let model := _extract_model title make in
            let scraped_at := scraped_at_of now listing_data in
            Session.add
              (CarListing.mk title price url location posting_time
                             (Some scraped_at) year make model)
        end
    end.

Fixpoint add_all (listings : list listing_dict) : Session.M unit :=
  match listings with
  | [] => Session.ret tt
  | listing_data :: rest => _ <- add_one listing_data ;; add_all rest
  end.

(** The body of the [try]: the loop, then one commit. *)
Definition add_listings_try (listings : list listing_dict) : Session.M unit :=
  _ <- add_all listings ;; Session.commit faults.

(** [add_listings]: the handler logs the error and rolls back; it
    does not raise again. *)
Definition add_listings (listings : list listing_dict) : Session.M unit :=
  match listings with
  | [] => Session.ret tt
  | _ => Session.try_except (add_listings_try listings)
                            (fun _ => Session.rollback)
  end.
End AddListings.

(** *** [get_existing_urls] *)

Section ExistingUrls.
Variable faults : nat -> bool.

(** The links of all the rows, as a set; the empty set when the query
    fails. *)
Definition get_existing_urls : Session.M (gset string) :=
  Session.try_except
    (_ <- Session.round_trip faults ;;
     fun w =>
       (Session.Returns
          (list_to_set
             (map CarListing.url (car_listings (Session.store w) ++ Session.pending w))),
        w))
    (fun _ => Session.ret ∅).
End ExistingUrls.

(** *** [update_market_analysis] *)

Definition opt_eqb (a b : option string) : bool :=
  match a, b with
  | Some x, Some y => String.eqb x y
  | None, None => true
  | _, _ => false
  end.

Definition group_key : Type := option string * option string.

Definition key_of (l : CarListing.t) : group_key :=
  (CarListing.make l, CarListing.model l).

Definition key_eqb (k1 k2 : group_key) : bool :=
  opt_eqb (fst k1) (fst k2) && opt_eqb (snd k1) (snd k2).

(** [GROUP BY make, model]: the distinct keys, in the order they first
    show up. *)
Fixpoint distinct_keys (seen : list group_key) (ls : list CarListing.t) : list group_key :=
  match ls with
  | [] => []
  | l :: r =>
      if existsb (key_eqb (key_of l)) seen then distinct_keys seen r
      else key_of l :: distinct_keys (key_of l :: seen) r
  end.

Definition count_group (ls : list CarListing.t) (k : group_key) : Z :=
  Z.of_nat (length (List.filter (fun l => key_eqb (key_of l) k) ls)).

(** The first query: the groups of at least three listings, with their
    sizes. *)
Definition make_model_counts (ls : list CarListing.t)
  : list (option string * option string * Z) :=
  List.filter (fun g => 3 <=? snd g)
         (map (fun k => (fst k, snd k, count_group ls k)) (distinct_keys [] ls)).

(** The second query: the listings of one make and model whose price is
    not [NULL]. *)
Definition priced_listings (ls : list CarListing.t) (make model : string)
  : list CarListing.t :=
  List.filter (fun l => opt_eqb (CarListing.make l) (Some make)
                   && opt_eqb (CarListing.model l) (Some model)
                   && match CarListing.price l with Some _ => true | None => false end)
         ls.

(** [float(price.replace('$', '').replace(',', ''))] *)
Definition price_number (price : string) : option PyFloat.float :=
  PyFloat.of_string (PyStr.remove_char "," (PyStr.remove_char "$" price)).

(** The prices that parse, in the order of the listings. *)
Fixpoint parse_prices (listings : list CarListing.t) : list PyFloat.float :=
  match listings with
  | [] => []
  | l :: r =>
      match CarListing.price l with
      | Some p =>
          match price_number p with
          | Some x => x :: parse_prices r
          | None => parse_prices r
          end
      | None => parse_prices r
      end
  end.

(** [[listing.year for listing in listings if listing.year]] *)
Fixpoint years_of (listings : list CarListing.t) : list Z :=
  match listings with
  | [] => []
  | l :: r =>
      match CarListing.year l with
      | Some y => if y =? 0 then years_of r else y :: years_of r
      | None => years_of r
      end
  end.

(** [min(years)] and [max(years)] when there is a year, else [None]. *)
Definition min_year (years : list Z) : option Z :=
  match years with
  | [] => None
  | y :: r => Some (fold_left Z.min r y)
  end.
Definition max_year (years : list Z) : option Z :=
  match years with
  | [] => None
  | y :: r => Some (fold_left Z.max r y)
  end.

(** The statistics of one group; [None] when fewer than three prices
    parse.  [now] is the time stamp [created_at] of the row: the code
    takes it from [datetime.now()] when it updates a row, and leaves it
    to the default of the column, the clock of the database server,
    when it adds one; the model has one clock for both. *)
Definition analyse (now : PyDatetime.datetime) (make model : string)
    (listings : list CarListing.t) : option MarketAnalysis.t :=
  let prices := parse_prices listings in
  let n := Z.of_nat (length prices) in
  if n <? 3 then None
  else
    let avg_price := PyFloat.div (PyFloat.sum prices) (PyFloat.of_Z n) in
    let median_price := nth (Z.to_nat (n / 2)) (PyFloat.sorted prices) S754_nan in
    let min_price := default S754_nan (PyFloat.min prices) in
    let max_price := default S754_nan (PyFloat.max prices) in
    let years := years_of listings in
    Some (MarketAnalysis.mk make model (min_year years) (max_year years)
            avg_price median_price min_price max_price n now).

(** One turn of the loop: the row it writes, if any. *)
Definition analyse_group (now : PyDatetime.datetime) (ls : list CarListing.t)
    (g : option string * option string * Z) : option MarketAnalysis.t :=
  let '(make, model, _) := g in
  if negb (PyStr.otruthy make) || negb (PyStr.otruthy model) then None
  else
    let make := default "" make in
    let model := default "" model in
    analyse now make model (priced_listings ls make model).

(** The rows that one run writes, in the order of the loop. *)
Definition rows_written (now : PyDatetime.datetime) (ls : list CarListing.t)
  : list MarketAnalysis.t :=
  omap (analyse_group now ls) (make_model_counts ls).

(** The row of a make and model is updated in place when there is one,
    added otherwise. *)
Fixpoint upsert (a : MarketAnalysis.t) (table : list MarketAnalysis.t)
  : list MarketAnalysis.t :=
  match table with
  | [] => [a]
  | r :: rest =>
      if String.eqb (MarketAnalysis.make r) (MarketAnalysis.make a)
         && String.eqb (MarketAnalysis.model r) (MarketAnalysis.model a)
      then a :: rest
      else r :: upsert a rest
  end.

(** [update_market_analysis], when the database answers. *)
Definition update_market_analysis (now : PyDatetime.datetime) (d : database)
  : database :=
  mk_database (car_listings d)
    (fold_left (fun table a => upsert a table)
               (rows_written now (car_listings d)) (market_analysis d)).

(** *** [update_market_analysis] against the session

    The same loop with its round trips: the query for the groups, then
    for every group that has a make and a model the query for its priced
    listings and, when three prices parse, the query for its row; at the
    end one commit.  The rows written wait in the session until the
    commit, and the handler of the [try] rolls them back. *)
Section UpdateMarketAnalysis.
Variable faults : nat -> bool.
Variable now : PyDatetime.datetime.

(** The loop; [table] is the analysis table as the session sees it. *)
Fixpoint update_groups (ls : list CarListing.t)
    (groups : list (option string * option string * Z))
    (table : list MarketAnalysis.t) : Session.M (list MarketAnalysis.t) :=
  match groups with
  | [] => Session.ret table
  | (make, model, _) :: rest =>
      if negb (PyStr.otruthy make) || negb (PyStr.otruthy model)
      then update_groups ls rest table
      else
        let make := default "" make in
        let model := default "" model in
        _ <- Session.round_trip faults ;;
        match analyse now make model (priced_listings ls make model) with
        | None => update_groups ls rest table
        | Some a =>
            _ <- Session.round_trip faults ;;
            update_groups ls rest (upsert a table)
        end
  end.

(** The body of the [try]. *)
Definition update_market_analysis_try : Session.M unit :=
  _ <- Session.round_trip faults ;;
  fun w =>
    let ls := car_listings (Session.store w) in
    (table <- update_groups ls (make_model_counts ls) (market_analysis (Session.store w)) ;;
     _ <- Session.round_trip faults ;;
     fun w' =>
       (Session.Returns tt,
        Session.mk_world (mk_database (car_listings (Session.store w')) table)
                         (Session.pending w') (Session.trips w'))) w.

(** [update_market_analysis] with its handler: the error is logged, the
    session rolled back, and nothing is raised. *)
Definition update_market_analysis_session : Session.M unit :=
  Session.try_except update_market_analysis_try (fun _ => Session.rollback).
End UpdateMarketAnalysis.

End DatabaseManager.

(* ===================================================================== *)
(** ** utils.py: [parse_posting_time] *)
(* ===================================================================== *)

Module Utils.

(** [re.sub(r'[^\d]', '', s)]: the decimal digits of [s], in order. *)
Fixpoint digits_only (s : string) : string :=
  match s with
  | EmptyString => EmptyString
  | String c r => if PyStr.is_digit c then String c (digits_only r) else digits_only r
  end.

(** [clean_price]; the argument is [None] for Python's [None], and a
    string otherwise, as everywhere the sources call it. *)
Definition clean_price (price_text : option string) : option string :=
  match price_text with
  | None => None
  | Some price_text =>
      if negb (PyStr.truthy price_text) then None
      else
        let digits := digits_only price_text in
        if negb (PyStr.truthy digits) then None else Some digits
  end.

(** [time_string.split('+')[0]] *)
Fixpoint before_plus (s : string) : string :=
  match s with
  | EmptyString => EmptyString
  | String c r => if Ascii.eqb c "+" then EmptyString else String c (before_plus r)
  end.

Definition slash_formats : list string :=
  [ "%m/%d/%Y"; "%m/%d/%Y %H:%M"; "%m/%d/%y"; "%m/%d/%y %H:%M" ].

Definition text_formats : list string :=
  [ "%b %d"; "%B %d"; "%b %d, %Y"; "%B %d, %Y";
    "%b %d, %Y %H:%M"; "%B %d, %Y %H:%M"; "%b %d %H:%M"; "%B %d %H:%M" ].

(** The loop over the slash formats: the first format that parses. *)
Fixpoint try_slash (time_string : string) (formats : list string)
  : option PyDatetime.datetime :=
  match formats with
  | [] => None
  | fmt :: rest =>
      match PyDatetime.strptime time_string fmt with
      | Some dt => Some dt
      | None => try_slash time_string rest
      end
  end.

(** The loop over the month-name formats.  A format without a year gets
    the current year; a [ValueError] of [replace] moves on to the next
    format like one of [strptime]. *)
Fixpoint try_text (current_year : Z) (time_string : string) (formats : list string)
  : option PyDatetime.datetime :=
  match formats with
  | [] => None
  | fmt :: rest =>
      match PyDatetime.strptime time_string fmt with
      | Some parsed_dt =>
          if negb (PyStr.contains "/%Y" fmt) && negb (PyStr.contains ", %Y" fmt) then
            match PyDatetime.replace_year parsed_dt current_year with
            | Some dt => Some dt
            | None => try_text current_year time_string rest
            end
          else Some parsed_dt
      | None => try_text current_year time_string rest
      end
  end.

(** The datetime that the inner [try] block reaches, if any; [None]
    covers both the exceptions that the inner handler catches and the
    exit of the last loop without a match, which all return
    [time_string]. *)
Definition parse_datetime (current_year : Z) (time_string : string)
  : option PyDatetime.datetime :=
  if PyStr.contains "T" time_string then PyDatetime.fromisoformat time_string
  else if PyStr.contains "-" time_string && PyStr.contains ":" time_string
  then PyDatetime.fromisoformat time_string
  else if PyStr.contains "/" time_string then try_slash time_string slash_formats
  else try_text current_year time_string text_formats.

(** [parse_posting_time]; [current_year] is [datetime.now().year], and
    the argument is [None] for Python's [None]. *)
Definition parse_posting_time (current_year : Z) (time_string : option string)
  : string :=
  match time_string with
  | None => "N/A"
  | Some time_string =>
      if negb (PyStr.truthy time_string) then "N/A"
      else
        let time_string :=
          if PyStr.contains "+" time_string then before_plus time_string
          else time_string in
        match parse_datetime current_year time_string with
        | Some dt => PyDatetime.strftime_canonical dt
        | None => time_string
        end
  end.

End Utils.

(* ===================================================================== *)
(** ** craigslist_scraper.py: which results are skipped *)
(* ===================================================================== *)

Module Scraper.

(** The three [continue] statements that follow the extraction of the
    title and of the link of a result: [true] when the result is
    skipped.  [title] and [url] are [None] when the page gave none. *)
Definition skipped (title url : option string) (existing_urls : gset string)
    (filter_keywords : list string) : bool :=
  if negb (PyStr.otruthy title) || negb (PyStr.otruthy url) then true
  else
    let title := default "" title in
    let url := default "" url in
    if bool_decide (url ∈ existing_urls) then true
    else if existsb (fun keyword =>
                       PyStr.contains (PyStr.lower keyword) (PyStr.lower title))
                    filter_keywords
    then true
    else false.

(** What the page gives for one result: the stripped title and the link
    of the result, the text of its price and location elements, and the
    [datetime] attribute found on the page of the listing.  A field is
    [None] when the element or the attribute is missing; the [datetime]
    attribute is also [None] when it is empty or when the page of the
    listing could not be fetched. *)
Record result : Type := mk_result {
  title : option string;
  url : option string;
  price_text : option string;
  location_text : option string;
  datetime_value : option string
}.

(** The posting time of a listing: the parsed attribute, or the current
    date when there is none. *)
Definition posting_time (current_year : Z) (today : PyDatetime.datetime)
    (datetime_value : option string) : string :=
  let posting_time :=
    match datetime_value with
    | Some v => Utils.parse_posting_time current_year (Some v)
    | None => "N/A"
    end in
  if String.eqb posting_time "N/A" then PyDatetime.strftime_date today
  else posting_time.

(** One turn of the loop over the results: the dictionary appended to
    the listings, or [None] when the result is skipped.  [current_time]
    is the time at which the scrape started, [today] and [current_year]
    the date and the year when the result is processed. *)
Definition listing (existing_urls : gset string) (filter_keywords : list string)
    (current_time today : PyDatetime.datetime) (current_year : Z) (r : result)
  : option DatabaseManager.listing_dict :=
  if skipped (title r) (url r) existing_urls filter_keywords then None
  else
    let title := default "" (title r) in
    let url := default "" (url r) in
    let price :=
      match price_text r with
      | Some t => Utils.clean_price (Some t)
      | None => None
      end in
    let location :=
      match location_text r with
      | Some t => PyStr.strip_chars "()" t
      | None => "N/A"
      end in
    Some (<[ "title" := Some title ]>
          (<[ "price" := price ]>
           (<[ "url" := Some url ]>
            (<[ "location" := Some location ]>
             (<[ "posting_time" :=
                   Some (posting_time current_year today (datetime_value r)) ]>
              (<[ "scraped_at" :=
                    Some (PyDatetime.strftime_canonical current_time) ]> ∅)))))).

(** The loop: the listings of the results that are not skipped, in the
    order of the page. *)
Definition listings (existing_urls : gset string) (filter_keywords : list string)
    (current_time today : PyDatetime.datetime) (current_year : Z)
    (results : list result) : list DatabaseManager.listing_dict :=
  omap (listing existing_urls filter_keywords current_time today current_year) results.

End Scraper.

(* ===================================================================== *)
(** ** app_db.py: the deal status of a listing *)
(* ===================================================================== *)

Module AppDb.

(** [f"{make}_{model}".lower()] *)
Definition key (make model : string) : string :=
  PyStr.lower (make ++ "_" ++ model).

(** The dictionary of the analyses by key; a later row replaces an
    earlier one under the same key. *)
Definition analysis_dict (analyses : list MarketAnalysis.t)
  : gmap string MarketAnalysis.t :=
  fold_left (fun d analysis =>
               <[ key (MarketAnalysis.make analysis) (MarketAnalysis.model analysis)
                  := analysis ]> d)
            analyses ∅.

(** The comparison of a price with the average of the market. *)
Definition compare_to_average (price avg_price : PyFloat.float) : string * string :=
  if PyFloat.ltb price (PyFloat.mul avg_price PyFloat.lit_0_85)
  then ("Great Deal", "deal-great")
  else if PyFloat.ltb price (PyFloat.mul avg_price PyFloat.lit_0_95)
  then ("Good Deal", "deal-fair")
  else if PyFloat.ltb price (PyFloat.mul avg_price PyFloat.lit_1_05)
  then ("Fair Price", "")
  else ("Above Market", "deal-poor").

(** [deal_status] and [deal_class] of one listing, as the loop of
    [get_recent_listings] sets them.  A [NULL] price raises
    [AttributeError], an unreadable one [ValueError]: both end in
    "Price Unknown". *)
Definition deal (analyses : gmap string MarketAnalysis.t) (listing : CarListing.t)
  : string * string :=
  if PyStr.otruthy (CarListing.make listing) && PyStr.otruthy (CarListing.model listing)
  then
    match analyses !! key (default "" (CarListing.make listing))
                          (default "" (CarListing.model listing)) with
    | Some analysis =>
        match CarListing.price listing with
        | Some price_text =>
            match DatabaseManager.price_number price_text with
            | Some price => compare_to_average price (MarketAnalysis.avg_price analysis)
            | None => ("Price Unknown", "")
            end
        | None => ("Price Unknown", "")
        end
    | None => ("Unknown", "")
    end
  else ("Unknown", "").

Definition deal_status (analyses : gmap string MarketAnalysis.t)
    (listing : CarListing.t) : string :=
  fst (deal analyses listing).

End AppDb.

(* ===================================================================== *)
(** ** sheets_manager.py: [generate_kbb_lookup_url] *)
(* ===================================================================== *)

Module SheetsManager.

(** [urllib.parse.quote_from_bytes]: letters, digits and [_.-~/] stay,
    every other byte becomes [%XX]. *)
Definition is_safe (c : ascii) : bool :=
  PyStr.is_alpha c || PyStr.is_digit c
  || Ascii.eqb c "_" || Ascii.eqb c "." || Ascii.eqb c "-" || Ascii.eqb c "~"
  || Ascii.eqb c "/".

Definition hex_digit (n : nat) : ascii :=
  if (n <? 10)%nat then ascii_of_nat (48 + n) else ascii_of_nat (55 + n).

Fixpoint quote_from_bytes (s : string) : string :=
  match s with
  | EmptyString => EmptyString
  | String c r =>
      if is_safe c then String c (quote_from_bytes r)
      else String "%" (String (hex_digit (nat_of_ascii c / 16))
                         (String (hex_digit (nat_of_ascii c mod 16))
                                 (quote_from_bytes r)))
  end.

(** [urllib.parse.quote(s)]: the text is encoded in UTF-8, strictly, and
    the bytes are quoted.  [None] stands for the [UnicodeEncodeError]
    that the encoding raises on a text with a surrogate. *)
Definition quote (s : string) : option string :=
  if PyStr.has_surrogate s then None else Some (quote_from_bytes s).

(** [re.sub(r'(\$[\d,]+|\d{4}|\(|\))', '', s)].  The scan is in one of
    three states: looking for a match, inside the run [[\d,]+] that
    follows a dollar sign, or dropping the rest of a four-digit match. *)
Inductive mode : Type := Scan | Run | Skip (n : nat).

Definition digit_or_comma (c : ascii) : bool :=
  PyStr.is_digit c || Ascii.eqb c ",".

Definition four_digits (s : string) : bool :=
  match s with
  | String c1 (String c2 (String c3 (String c4 _))) =>
      PyStr.is_digit c1 && PyStr.is_digit c2 && PyStr.is_digit c3 && PyStr.is_digit c4
  | _ => false
  end.

Fixpoint sub_noise (m : mode) (s : string) : string :=
  match s with
  | EmptyString => EmptyString
  | String c r =>
      let scan (_ : unit) :=
        if Ascii.eqb c "$"
           && match r with String d _ => digit_or_comma d | EmptyString => false end
        then sub_noise Run r
        else if four_digits s then sub_noise (Skip 3) r
        else if Ascii.eqb c "(" || Ascii.eqb c ")" then sub_noise Scan r
        else String c (sub_noise Scan r) in
      match m with
      | Scan | Skip O => scan tt
      | Skip (S n) => sub_noise (Skip n) r
      | Run => if digit_or_comma c then sub_noise Run r else scan tt
      end
  end.

Definition common_makes : list string :=
  [ "Toyota"; "Honda"; "Ford"; "Chevrolet"; "Chevy"; "Nissan"; "Hyundai";
    "Kia"; "Mazda"; "Subaru"; "Volkswagen"; "VW"; "Jeep"; "BMW";
    "Mercedes"; "Lexus"; "Acura"; "Audi" ].

(** The loop that looks for a make; [""] when it finds none. *)
Fixpoint find_make (title_lower : string) (makes : list string) : string :=
  match makes with
  | [] => ""
  | potential_make :: rest =>
      if PyStr.contains (PyStr.lower potential_make) title_lower then
        if String.eqb (PyStr.lower potential_make) "chevy" then "Chevrolet"
        else if String.eqb (PyStr.lower potential_make) "vw" then "Volkswagen"
        else potential_make
      else find_make title_lower rest
  end.

(** The model: the first word after the make, once prices, four-digit
    numbers and parentheses are removed.  [None] stands for the
    [IndexError] of [split()[0]]. *)
Definition find_model (title make : string) : option string :=
  if PyStr.truthy make && PyStr.contains make title then
    let make_index := PyStr.find (PyStr.lower make) (PyStr.lower title) in
    if 0 <=? make_index then
      let after_make :=
        PyStr.strip (PyStr.slice_from (make_index + PyStr.len make) title) in
      let model := PyStr.strip (sub_noise Scan after_make) in
      if PyStr.truthy model then
        match PyStr.split model with
        | w :: _ => Some w
        | [] => None
        end
      else Some ""
    else Some ""
  else Some "".

Definition search_url : string := "https://www.kbb.com/cars-for-sale/all?search=".

(** The body of the [try]: [None] when it raises. *)
Definition generate_kbb_lookup_url_try (title : string) : option string :=
  let year := default "" (Re.search_year "9" title) in
  let make := find_make (PyStr.lower title) common_makes in
  match find_model title make with
  | None => None
  | Some model =>
      if PyStr.truthy year && PyStr.truthy make then
        if PyStr.truthy model then
          match quote year, quote (PyStr.lower make), quote (PyStr.lower model) with
          | Some year_clean, Some make_clean, Some model_clean =>
              Some ("https://www.kbb.com/cars-for-sale/year-" ++ year_clean
                    ++ "/make-" ++ make_clean ++ "/model-" ++ model_clean ++ "/")
          | _, _, _ => None
          end
        else
          match quote year, quote (PyStr.lower make) with
          | Some year_clean, Some make_clean =>
              Some ("https://www.kbb.com/cars-for-sale/year-" ++ year_clean
                    ++ "/make-" ++ make_clean ++ "/")
          | _, _ => None
          end
      else
        match quote (PyStr.remove_char "," (PyStr.remove_char "$" title)) with
        | Some search_clean => Some (search_url ++ search_clean)
        | None => None
        end
  end.

(** [generate_kbb_lookup_url]: an exception in the body falls back to
    the search for the raw title, which is quoted in the handler.
    [None] stands for the [UnicodeEncodeError] that leaves the handler,
    and so the function. *)
Definition generate_kbb_lookup_url (title : string) : option string :=
  match generate_kbb_lookup_url_try title with
  | Some url => Some url
  | None =>
      match quote title with
      | Some search_clean => Some (search_url ++ search_clean)
      | None => None
      end
  end.

End SheetsManager.

(* ===================================================================== *)
(** ** main_db.py: the order in which a scraped batch is stored *)
(* ===================================================================== *)

Module MainDb.

Definition epoch : PyDatetime.datetime := PyDatetime.mk_datetime 1970 1 1 0 0 0.

(** The key of the sort.  [None] stands for an exception of the lambda:
    [KeyError] without a posting time, [TypeError] on [len(None)],
    [ValueError] when [strptime] rejects the text. *)
Definition sort_key (x : DatabaseManager.listing_dict) : option PyDatetime.datetime :=
  match x !! "posting_time" with
  | Some (Some posting_time) =>
      if negb (String.eqb posting_time "N/A") && (10 <=? PyStr.len posting_time)
      then PyDatetime.strptime posting_time DatabaseManager.canonical_format
      else Some epoch
  | _ => None
  end.

(** The keys of all the listings, computed before anything is moved. *)
Fixpoint keyed (listings : list DatabaseManager.listing_dict)
  : option (list (PyDatetime.datetime * DatabaseManager.listing_dict)) :=
  match listings with
  | [] => Some []
  | x :: rest =>
      match sort_key x, keyed rest with
      | Some k, Some krest => Some ((k, x) :: krest)
      | _, _ => None
      end
  end.

(** One step of a stable sort from the newest to the oldest: [x] goes
    before the first listing that is older than it, hence after the
    listings of the same time. *)
Fixpoint insert_desc (x : PyDatetime.datetime * DatabaseManager.listing_dict)
    (l : list (PyDatetime.datetime * DatabaseManager.listing_dict))
  : list (PyDatetime.datetime * DatabaseManager.listing_dict) :=
  match l with
  | [] => [x]
  | y :: r => if PyDatetime.ltb (fst y) (fst x) then x :: l else y :: insert_desc x r
  end.

(** [sorted(l, key=..., reverse=True)] on the keyed listings: the sort
    is stable, so the result is this one whatever the algorithm. *)
Definition sorted_desc (l : list (PyDatetime.datetime * DatabaseManager.listing_dict))
  : list (PyDatetime.datetime * DatabaseManager.listing_dict) :=
  fold_left (fun acc x => insert_desc x acc) l [].

(** The batch as [main] hands it to [add_listings]: sorted, or as it was
    scraped when the sort raised. *)
Definition ordered (new_listings : list DatabaseManager.listing_dict)
  : list DatabaseManager.listing_dict :=
  match keyed new_listings with
  | Some l => map snd (sorted_desc l)
  | None => new_listings
  end.

End MainDb.

(* ===================================================================== *)
(** ** craigslist_playwright_scraper.py: the loop over the results *)
(* ===================================================================== *)

Module PlaywrightScraper.

(** The [continue] statements of the loop of
    [scrape_craigslist_with_playwright]: [true] when the result is
    skipped.  [url] is [None] when the result has no link or a link
    without address, [title] when it has no title element: the title is
    then "N/A", and the result is not skipped for that. *)
Definition skipped (title url : option string) (existing_urls : gset string)
    (filter_keywords : list string) : bool :=
  if negb (PyStr.otruthy url) then true
  else
    let url := default "" url in
    if bool_decide (url ∈ existing_urls) then true
    else
      let title := default "N/A" title in
      existsb (fun keyword => PyStr.contains (PyStr.lower keyword) (PyStr.lower title))
              filter_keywords.

(** The price of the listing: the cleaned text of the price element, or
    of "N/A" without one. *)
Definition price (price_text : option string) : option string :=
  Utils.clean_price (Some (default "N/A" price_text)).

(** At most fifty results of a page are processed. *)
Definition processed {A : Type} (listings_results : list A) : list A :=
  firstn (Nat.min 50 (length listings_results)) listings_results.

(** The page of a listing, as far as the posting time goes: the
    [datetime] attribute of the element of the posting information
    ([None] without the element or without the attribute), and the
    [datetime] attributes of the [time] elements of the page, in the
    order of the page. *)
Record page : Type := mk_page {
  posting_info : option string;
  time_elements : list (option string)
}.

(** What the browser gives for one result: the address of its link, the
    texts of its title, price and location elements, and the visit of
    the page of the listing.  A text is [None] when the element is
    missing; the visit is [None] when the browser raises in it, from
    the opening of the page to the reading of its details (a time out
    of the navigation or of the wait for the network, a page that goes
    away under a query). *)
Record result : Type := mk_result {
  title : option string;
  url : option string;
  price_text : option string;
  location_text : option string;
  visit : option page
}.

(** The first [datetime] attribute of the [time] elements that is there
    and not empty. *)
Fixpoint first_datetime (attrs : list (option string)) : option string :=
  match attrs with
  | [] => None
  | datetime_value :: rest =>
      if PyStr.otruthy datetime_value then datetime_value else first_datetime rest
  end.

(** The posting time: the parsed attribute of the posting information;
    while that is "N/A", the parsed attribute of a [time] element;
    while that is "N/A", the current date. *)
Definition posting_time (current_year : Z) (today : PyDatetime.datetime) (p : page)
  : string :=
  let posting_time :=
    if PyStr.otruthy (posting_info p)
    then Utils.parse_posting_time current_year (posting_info p)
    else "N/A" in
  let posting_time :=
    if String.eqb posting_time "N/A" then
      match first_datetime (time_elements p) with
      | Some datetime_value => Utils.parse_posting_time current_year (Some datetime_value)
      | None => "N/A"
      end
    else posting_time in
  if String.eqb posting_time "N/A" then PyDatetime.strftime_date today
  else posting_time.

(** One turn of the loop over the results: the dictionary appended to
    the listings, or [None] when the turn ends without one: in one of
    the [continue] statements, or in the handler of the turn, which
    logs the error of the visit and goes on with the next result.  The
    entry [additional_details] of the dictionary, which nothing reads,
    is left out. *)
Definition listing (existing_urls : gset string) (filter_keywords : list string)
    (current_time today : PyDatetime.datetime) (current_year : Z) (r : result)
  : option DatabaseManager.listing_dict :=
  if skipped (title r) (url r) existing_urls filter_keywords then None
  else
    match visit r with
    | None => None
    | Some p =>
        Some (<[ "title" := Some (default "N/A" (title r)) ]>
              (<[ "price" := price (price_text r) ]>
               (<[ "url" := Some (default "" (url r)) ]>
                (<[ "location" := Some (default "N/A" (location_text r)) ]>
                 (<[ "posting_time" := Some (posting_time current_year today p) ]>
                  (<[ "scraped_at" :=
                        Some (PyDatetime.strftime_canonical current_time) ]> ∅))))))
    end.

(** The loop: the listings of the first fifty results that are neither
    skipped nor dropped, in the order of the page. *)
Definition listings (existing_urls : gset string) (filter_keywords : list string)
    (current_time today : PyDatetime.datetime) (current_year : Z)
    (listings_results : list result) : list DatabaseManager.listing_dict :=
  omap (listing existing_urls filter_keywords current_time today current_year)
       (processed listings_results).

End PlaywrightScraper.

(* ===================================================================== *)
(** ** migrate_data.py: the listings made of the rows of the sheet *)
(* ===================================================================== *)

Module MigrateData.

(** [headers.index(name)] *)
Fixpoint index (name : string) (headers : list string) : option nat :=
  match headers with
  | [] => None
  | h :: rest => if String.eqb h name then Some O else option_map S (index name rest)
  end.

(** [headers.index(name) if name in headers else dflt] *)
Definition column (name : string) (dflt : nat) (headers : list string) : nat :=
  default dflt (index name headers).

(** One turn of the loop over the data rows: the listing made of the
    row, or [None] when the row is skipped. *)
Definition listing (existing_urls : gset string) (headers row : list string)
  : option DatabaseManager.listing_dict :=
  let title_idx := column "Title" 0 headers in
  let price_idx := column "Price" 1 headers in
  let url_idx := column "URL" 2 headers in
  let location_idx := column "Location" 3 headers in
  let posting_time_idx := column "Posting Time" 4 headers in
  let scraped_at_idx := column "Scraped At" 5 headers in
  if (length row
      <=? Nat.max title_idx (Nat.max price_idx (Nat.max url_idx (Nat.max location_idx
            (Nat.max posting_time_idx scraped_at_idx)))))%nat
  then None
  else
    let title := nth title_idx row "" in
    let price := nth price_idx row "" in
    let url := nth url_idx row "" in
    if negb (PyStr.truthy url) || bool_decide (url ∈ existing_urls) then None
    else
      let location := nth location_idx row "" in
      let posting_time := nth posting_time_idx row "" in
      let scraped_at := nth scraped_at_idx row "" in
      Some (<[ "title" := Some title ]>
            (<[ "price" := Some price ]>
             (<[ "url" := Some url ]>
              (<[ "location" := Some location ]>
               (<[ "posting_time" := Some posting_time ]>
                (<[ "scraped_at" := Some scraped_at ]> ∅)))))).

(** The batch handed to [add_listings]: nothing when the sheet has no
    row under its header. *)
Definition listings (existing_urls : gset string) (all_rows : list (list string))
  : list DatabaseManager.listing_dict :=
  match all_rows with
  | [] | [_] => []
  | headers :: data_rows => omap (listing existing_urls headers) data_rows
  end.

End MigrateData.

Import DatabaseManager.
(* ===================================================================== *)
(** ** Statements of the specification that the code does not meet *)
(* ===================================================================== *)

(** Extraction as the specification states it: any known make and any
    model keyword of that make that occur in the title are the pair
    returned, whatever else occurs in it. *)
Definition extracts_any_known_pair : Prop :=
  forall (title make model : string) (models : list string),
    In make common_makes ->
    PyStr.contains (PyStr.lower make) (PyStr.lower title) = true ->
    model_dict !! PyStr.lower (normalize_make make) = Some models ->
    In model models ->
    PyStr.contains (PyStr.lower model) (PyStr.lower title) = true ->
    _extract_make title = Some (normalize_make make)
    /\ _extract_model title (_extract_make title) = Some (PyStr.title model).

(** ** Notions of the specification *)

Fixpoint all_digits (s : string) : bool :=
  match s with
  | EmptyString => true
  | String c r => PyStr.is_digit c && all_digits r
  end.

(** Only white space. *)
Fixpoint all_space (s : string) : bool :=
  match s with
  | EmptyString => true
  | String c r => PyStr.is_space c && all_space r
  end.

(** Whether the text [pre] ends on a word character; [prev] answers for
    the empty text. *)
Fixpoint ends_on_word (prev : bool) (pre : string) : bool :=
  match pre with
  | EmptyString => prev
  | String c r => ends_on_word (Re.is_word c) r
  end.

Definition starts_on_word (post : string) : bool :=
  match post with
  | EmptyString => false
  | String c _ => Re.is_word c
  end.

(** The title contains a four-digit year between [lo] and [hi] standing
    on its own: no letter, digit or underscore touches it. *)
Definition has_year (lo hi : Z) (title : string) : Prop :=
  exists pre g post,
    title = pre ++ g ++ post
    /\ String.length g = 4%nat /\ all_digits g = true
    /\ lo <= int_of_digits g <= hi
    /\ ends_on_word false pre = false /\ starts_on_word post = false.

(** The title contains one of the known makes, in any case. *)
Definition has_known_make (title : string) : Prop :=
  exists make, In make SheetsManager.common_makes
               /\ PyStr.contains (PyStr.lower make) (PyStr.lower title) = true.

(** A canonical timestamp: nineteen characters [YYYY-MM-DD HH:MM:SS], all
    fields decimal digits, that name a date of the calendar and a time of
    the day. *)
Definition num2 (c1 c2 : ascii) : Z := 10 * digit_val c1 + digit_val c2.
Definition num4 (c1 c2 c3 c4 : ascii) : Z :=
  1000 * digit_val c1 + 100 * digit_val c2 + 10 * digit_val c3 + digit_val c4.

(** The text [y1 y2 y3 y4 - m1 m2 - d1 d2 _ h1 h2 : i1 i2 : s1 s2]. *)
Definition timestamp_text (y1 y2 y3 y4 m1 m2 d1 d2 h1 h2 i1 i2 s1 s2 : ascii) : string :=
  string_of_list_ascii
    [y1; y2; y3; y4; "-"; m1; m2; "-"; d1; d2; " "; h1; h2; ":"; i1; i2; ":"; s1; s2]%char.

Definition is_canonical (s : string) : bool :=
  match list_ascii_of_string s with
  | [y1; y2; y3; y4; a; m1; m2; b; d1; d2; c; h1; h2; d; i1; i2; e; s1; s2] =>
      String.eqb s (timestamp_text y1 y2 y3 y4 m1 m2 d1 d2 h1 h2 i1 i2 s1 s2)
      && forallb PyStr.is_digit [y1; y2; y3; y4; m1; m2; d1; d2; h1; h2; i1; i2; s1; s2]
      && PyDatetime.valid_fields (num4 y1 y2 y3 y4) (num2 m1 m2) (num2 d1 d2)
           (num2 h1 h2) (num2 i1 i2) (num2 s1 s2)
  | _ => false
  end.

(** *** Order and ranks of floats *)

(** [x <= y] as a relation; it puts a list without NaN in ascending
    order. *)
Definition fle (x y : PyFloat.float) : Prop := PyFloat.leb x y = true.

Definition no_nan (l : list PyFloat.float) : Prop :=
  Forall (fun x => PyFloat.is_nan x = false) l.

(** How many elements of [l] are below [x], and how many are at most [x]. *)
Definition count_lt (x : PyFloat.float) (l : list PyFloat.float) : nat :=
  length (List.filter (fun y => PyFloat.ltb y x) l).
Definition count_le (x : PyFloat.float) (l : list PyFloat.float) : nat :=
  length (List.filter (fun y => PyFloat.leb y x) l).

(** *** Groups of listings *)

(** The listing is of the given make and model. *)
Definition in_group (make model : string) (l : CarListing.t) : bool :=
  opt_eqb (CarListing.make l) (Some make) && opt_eqb (CarListing.model l) (Some model).

(** The number that the price of a listing parses to, if any. *)
Definition parsed_price (l : CarListing.t) : option PyFloat.float :=
  match CarListing.price l with
  | Some p => price_number p
  | None => None
  end.

(** The valid numeric prices of the group, in the order of the listings. *)
Definition valid_prices (ls : list CarListing.t) (make model : string)
  : list PyFloat.float :=
  omap parsed_price (List.filter (in_group make model) ls).

Definition has_price (l : CarListing.t) : bool :=
  match CarListing.price l with Some _ => true | None => false end.

(** The year of a listing when it has one (a year 0 counts as none). *)
Definition known_year (l : CarListing.t) : option Z :=
  match CarListing.year l with
  | Some y => if y =? 0 then None else Some y
  | None => None
  end.

(** The years of all the listings of the group, and of those with a
    price, be it readable or not. *)
Definition group_years (ls : list CarListing.t) (make model : string) : list Z :=
  omap known_year (List.filter (in_group make model) ls).
Definition priced_group_years (ls : list CarListing.t) (make model : string) : list Z :=
  omap known_year (List.filter (fun l => in_group make model l && has_price l) ls).

(** The key of a row of the analysis table. *)
Definition row_key (a : MarketAnalysis.t) : string * string :=
  (MarketAnalysis.make a, MarketAnalysis.model a).

(* ===================================================================== *)
(** ** Further notions used in the statements *)
(* ===================================================================== *)

(** The text has no digit. *)
Fixpoint no_digit (s : string) : bool :=
  match s with
  | EmptyString => true
  | String c r => negb (PyStr.is_digit c) && no_digit r
  end.

(** The floats that are not below zero: the zeros, the positive numbers
    and the positive infinity. *)
Definition not_negative (x : PyFloat.float) : bool :=
  match x with
  | S754_zero _ => true
  | S754_finite s _ _ => negb s
  | S754_infinity s => negb s
  | S754_nan => false
  end.

(** The text has no white space. *)
Fixpoint no_space (s : string) : bool :=
  match s with
  | EmptyString => true
  | String c r => negb (PyStr.is_space c) && no_space r
  end.

(** The fields of the datetime name a date of the calendar and a time of
    the day. *)
Definition valid_datetime (dt : PyDatetime.datetime) : bool :=
  PyDatetime.valid_fields (PyDatetime.year dt) (PyDatetime.month dt) (PyDatetime.day dt)
    (PyDatetime.hour dt) (PyDatetime.minute dt) (PyDatetime.second dt).

(** The text that [parse_posting_time] goes on with: the input up to
    its first plus sign. *)
Definition cut_at_plus (v : string) : string :=
  if PyStr.contains "+" v then Utils.before_plus v else v.

(** The datetime that [parse_posting_time] reads in a text, if any. *)
Definition parsed_time (current_year : Z) (v : string) : option PyDatetime.datetime :=
  Utils.parse_datetime current_year (cut_at_plus v).

(** In the order of [main]: the first listing is not older than the
    second one, both having a key. *)
Definition not_older (a b : DatabaseManager.listing_dict) : Prop :=
  match MainDb.sort_key a, MainDb.sort_key b with
  | Some ka, Some kb => PyDatetime.ltb ka kb = false
  | _, _ => False
  end.

(** The links of a list of rows. *)
Definition urls (rows : list CarListing.t) : list string := map CarListing.url rows.

(** The row that [add_listings] makes of a listing dictionary with the
    given title and link. *)
Definition row_of (now : PyDatetime.datetime) (d : listing_dict) (title url : string)
  : CarListing.t :=
  CarListing.mk title (get_default d "price" "") url (get_default d "location" "")
    (posting_time_of d) (Some (scraped_at_of now d))
    (_extract_year title) (_extract_make title)
    (_extract_model title (_extract_make title)).

(** The row comes from a listing of the batch: it has the link and the
    title of the listing, and the attributes read from the title. *)
Definition made_from (now : PyDatetime.datetime) (listings : list listing_dict)
    (row : CarListing.t) : Prop :=
  exists d title url,
    In d listings
    /\ get_default d "title" "" = Some title
    /\ get_default d "url" "" = Some url /\ url <> ""
    /\ row = row_of now d title url.

(** All the rows of a run written into the table, one after the other. *)
Definition upsert_all (rows table : list MarketAnalysis.t) : list MarketAnalysis.t :=
  fold_left (fun table a => upsert a table) rows table.

(** The row with another time stamp. *)
Definition restamp (t : PyDatetime.datetime) (a : MarketAnalysis.t) : MarketAnalysis.t :=
  MarketAnalysis.mk (MarketAnalysis.make a) (MarketAnalysis.model a)
    (MarketAnalysis.year_from a) (MarketAnalysis.year_to a)
    (MarketAnalysis.avg_price a) (MarketAnalysis.median_price a)
    (MarketAnalysis.min_price a) (MarketAnalysis.max_price a)
    (MarketAnalysis.sample_size a) t.

(** The aggregate of a row: all its columns but the time stamp. *)
Definition statistics (a : MarketAnalysis.t)
  : string * string * option Z * option Z
    * PyFloat.float * PyFloat.float * PyFloat.float * PyFloat.float * Z :=
  (MarketAnalysis.make a, MarketAnalysis.model a,
   MarketAnalysis.year_from a, MarketAnalysis.year_to a,
   MarketAnalysis.avg_price a, MarketAnalysis.median_price a,
   MarketAnalysis.min_price a, MarketAnalysis.max_price a,
   MarketAnalysis.sample_size a).

(** The row of a make and model,
    [MarketAnalysis.query.filter_by(make=make, model=model).first()]. *)
Definition find_row (make model : string) (table : list MarketAnalysis.t)
  : option MarketAnalysis.t :=
  List.find (fun r => String.eqb (MarketAnalysis.make r) make
                      && String.eqb (MarketAnalysis.model r) model) table.

(** The names that [_extract_make] can return. *)
Definition canonical_makes : list string :=
  [ "Toyota"; "Honda"; "Ford"; "Chevrolet"; "Nissan"; "Hyundai"; "Kia"; "Mazda";
    "Subaru"; "Volkswagen"; "Jeep"; "BMW"; "Mercedes"; "Lexus"; "Acura"; "Audi" ].

(** Every character of the text passes the test. *)
Fixpoint all_chars (p : ascii -> bool) (s : string) : bool :=
  match s with
  | EmptyString => true
  | String c r => p c && all_chars p r
  end.

(** [s.isascii()]: every character of the text is below 128.  On such
    a text the case mapping, the white space and the word characters of
    the model are those of Python. *)
Definition ascii_char (c : ascii) : bool := (PyStr.code c <? 128)%nat.
Definition isascii (s : string) : bool := all_chars ascii_char s.

(** The characters of a printed datetime: digits, the dash, the blank
    and the colon. *)
Definition stamp_char (c : ascii) : bool :=
  PyStr.is_digit c || Ascii.eqb c "-" || Ascii.eqb c " " || Ascii.eqb c ":".

(** The characters of a lookup URL: letters, digits, the marks
    [_ . - ~ /] and [: ? = %]. *)
Definition url_char (c : ascii) : bool :=
  SheetsManager.is_safe c
  || Ascii.eqb c ":" || Ascii.eqb c "?" || Ascii.eqb c "=" || Ascii.eqb c "%".

(** The [datetime] attribute that [scrape_craigslist] finds on a page:
    that of the posting information when it is there and not empty,
    else the first one of a [time] element that is. *)
Definition found_datetime (p : PlaywrightScraper.page) : option string :=
  if PyStr.otruthy (PlaywrightScraper.posting_info p)
  then PlaywrightScraper.posting_info p
  else PlaywrightScraper.first_datetime (PlaywrightScraper.time_elements p).

(** A result of the browser as [scrape_craigslist] reads it from the
    same texts: the page of a listing that cannot be visited gives it
    no [datetime] attribute. *)
Definition classic_result (r : PlaywrightScraper.result) : Scraper.result :=
  Scraper.mk_result (PlaywrightScraper.title r) (PlaywrightScraper.url r)
    (PlaywrightScraper.price_text r) (PlaywrightScraper.location_text r)
    (match PlaywrightScraper.visit r with
     | Some p => found_datetime p
     | None => None
     end).

(* ===================================================================== *)
(** ** Sample data *)
(* ===================================================================== *)

Definition sample_time : PyDatetime.datetime := PyDatetime.mk_datetime 2024 3 1 10 0 0.

(** The row that [add_listings] stores for a title, a price and a link. *)
Definition stored_listing (title : string) (price : option string) (link : string)
  : CarListing.t :=
  CarListing.mk title price link (Some "N/A") None (Some sample_time)
    (_extract_year title) (_extract_make title)
    (_extract_model title (_extract_make title)).

(** A stored Toyota Camry listing with the given link, price and year. *)
Definition camry (link : string) (price : option string) (year : string) : CarListing.t :=
  stored_listing (year ++ " Toyota Camry LE") price link.

(** Three Camrys at 9000, 10000 and 11000: their average is 10000. *)
Definition three_camrys : list CarListing.t :=
  [ camry "https://example.org/1.html" (Some "9000") "2015";
    camry "https://example.org/2.html" (Some "10000") "2015";
    camry "https://example.org/3.html" (Some "11000") "2016" ].

Definition camry_market : list MarketAnalysis.t :=
  market_analysis (update_market_analysis sample_time (mk_database three_camrys [])).

(** Four Camrys at 16000, 10000, 14000 and 12000. *)
Definition four_camrys : list CarListing.t :=
  [ camry "https://example.org/1.html" (Some "16000") "2015";
    camry "https://example.org/2.html" (Some "10000") "2015";
    camry "https://example.org/3.html" (Some "14000") "2016";
    camry "https://example.org/4.html" (Some "12000") "2016" ].

(** Three priced Camrys of 2015 and one of 2000 without a price. *)
Definition camrys_one_unpriced : list CarListing.t :=
  [ camry "https://example.org/1.html" (Some "9000") "2015";
    camry "https://example.org/2.html" (Some "9500") "2015";
    camry "https://example.org/3.html" (Some "10500") "2015";
    camry "https://example.org/4.html" None "2000" ].

(** A scraped batch of two new listings. *)
Definition batch_of_two : list listing_dict :=
  [ list_to_map [ ("title", Some "2014 Honda Civic LX"); ("price", Some "6500");
                  ("url", Some "https://example.org/7.html"); ("location", Some "N/A");
                  ("posting_time", Some "2024-03-01 09:30:00");
                  ("scraped_at", Some "2024-03-01 10:00:00") ];
    list_to_map [ ("title", Some "2016 Ford Focus SE"); ("price", None);
                  ("url", Some "https://example.org/8.html"); ("location", Some "N/A");
                  ("posting_time", Some "2024-03-01");
                  ("scraped_at", Some "2024-03-01 10:00:00") ] ].

(** A result of the search page, and the listing that the scraper makes
    of it at [sample_time]. *)
Definition sample_result : Scraper.result :=
  Scraper.mk_result (Some "2014 Honda Civic LX") (Some "https://example.org/7.html")
    (Some "$6,500") (Some "(Pasadena)") (Some "2024-03-01T09:30:00").

Definition scraped_sample : listing_dict :=
  default ∅ (Scraper.listing ∅ ["salvage"] sample_time sample_time 2024 sample_result).

(** A result whose page gave no time, scraped on the day of
    [sample_time]. *)
Definition scraped_without_time : listing_dict :=
  default ∅
    (Scraper.listing ∅ ["salvage"] sample_time sample_time 2024
       (Scraper.mk_result (Some "2016 Ford Focus SE") (Some "https://example.org/8.html")
          None None None)).

(** A title cut in the middle of an emoji: the text "Runs great "
    followed by the surrogate U+D83D on its own (the bytes [ED A0 BD]). *)
Definition title_with_surrogate : string :=
  "Runs great "
  ++ String (ascii_of_nat 237) (String (ascii_of_nat 160) (String (ascii_of_nat 189) "")).

(** A title with a year and a make, and the same surrogate in the word
    that follows the make. *)
Definition model_with_surrogate : string :=
  "2015 Toyota "
  ++ String (ascii_of_nat 237) (String (ascii_of_nat 160) (String (ascii_of_nat 189) "")).

(** A result of the browser whose page cannot be visited. *)
Definition dropped_result : PlaywrightScraper.result :=
  PlaywrightScraper.mk_result (Some "2014 Honda Civic LX")
    (Some "https://example.org/7.html") (Some "$6,500") (Some "(Pasadena)") None.

Example lower_mixed : PyStr.lower "2015 Toyota CAMRY le" = "2015 toyota camry le".
Proof. reflexivity. Qed.
Example title_crv : PyStr.title "cr-v" = "Cr-V".
Proof. reflexivity. Qed.
Example title_328i : PyStr.title "328i" = "328I".
Proof. reflexivity. Qed.
Example split_ws : PyStr.split "  santa  fe sport " = ["santa"; "fe"; "sport"].
Proof. reflexivity. Qed.
Example strip_ws : PyStr.strip "  a b  " = "a b".
Proof. reflexivity. Qed.
Example find_mid : PyStr.find "ford" "a ford f150" = 2.
Proof. reflexivity. Qed.
Example find_none : PyStr.find "kia" "a ford f150" = -1.
Proof. reflexivity. Qed.


Example year_camry : _extract_year "2015 Toyota Camry LE" = Some 2015.
Proof. reflexivity. Qed.
Example year_glued : _extract_year "x2015 Toyota" = None.
Proof. reflexivity. Qed.
Example year_old : _extract_year "Chevy 1969 and 1985" = Some 1985.
Proof. reflexivity. Qed.
Example make_chevy : _extract_make "clean chevy tahoe" = Some "Chevrolet".
Proof. reflexivity. Qed.
Example model_tahoe : _extract_model "clean chevy tahoe" (Some "Chevrolet") = Some "Tahoe".
Proof. vm_compute. reflexivity. Qed.
Example model_fallback : _extract_model "2001 Toyota Celica GT" (Some "Toyota") = Some "Celica".
Proof. vm_compute. reflexivity. Qed.
Example model_none : _extract_model "2001 Toyota" (Some "Toyota") = None.
Proof. vm_compute. reflexivity. Qed.


(** *** The float model on known values *)

Example lit_0_85_bits : PyFloat.lit_0_85 = S754_finite false 0x1B333333333333 (-53).
Proof. vm_compute. reflexivity. Qed.
Example lit_0_95_bits : PyFloat.lit_0_95 = S754_finite false 0x1E666666666666 (-53).
Proof. vm_compute. reflexivity. Qed.
Example lit_1_05_bits : PyFloat.lit_1_05 = S754_finite false 0x10CCCCCCCCCCCD (-52).
Proof. vm_compute. reflexivity. Qed.
Example float_4500 : PyFloat.of_string "4500" = Some (PyFloat.of_Z 4500).
Proof. vm_compute. reflexivity. Qed.
Example float_spaces : PyFloat.of_string " 1_000.50 " = Some (PyFloat.of_ratio false 2001 2).
Proof. vm_compute. reflexivity. Qed.
Example float_exp : PyFloat.of_string "-1.5e3" = Some (PyFloat.of_Z (-1500)).
Proof. vm_compute. reflexivity. Qed.
Example float_point_only : PyFloat.of_string "." = None.
Proof. vm_compute. reflexivity. Qed.
Example float_trailing_point : PyFloat.of_string "5." = Some (PyFloat.of_Z 5).
Proof. vm_compute. reflexivity. Qed.
Example float_leading_point : PyFloat.of_string ".5" = Some (PyFloat.of_ratio false 1 2).
Proof. vm_compute. reflexivity. Qed.
Example float_empty : PyFloat.of_string "" = None.
Proof. vm_compute. reflexivity. Qed.
Example float_words : PyFloat.of_string "call" = None.
Proof. vm_compute. reflexivity. Qed.
Example float_double_underscore : PyFloat.of_string "1__0" = None.
Proof. vm_compute. reflexivity. Qed.
Example float_nan : PyFloat.of_string "NaN" = Some S754_nan.
Proof. vm_compute. reflexivity. Qed.
Example float_inf : PyFloat.of_string "-Infinity" = Some (S754_infinity true).
Proof. vm_compute. reflexivity. Qed.
Example float_3_times_1_05 :
  PyFloat.ltb (PyFloat.of_decimal false 315 (-2))
              (PyFloat.mul (PyFloat.of_Z 3) PyFloat.lit_1_05) = true.
Proof. vm_compute. reflexivity. Qed.
Example sorted_four :
  PyFloat.sorted (map PyFloat.of_Z [16000; 10000; 14000; 12000])
  = map PyFloat.of_Z [10000; 12000; 14000; 16000].
Proof. vm_compute. reflexivity. Qed.

(** *** The datetime model on known values *)

Example strptime_slash :
  PyDatetime.strptime "4/8/2023" "%m/%d/%Y" = PyDatetime.make 2023 4 8 0 0 0.
Proof. vm_compute. reflexivity. Qed.
Example strptime_slash_two_digits :
  PyDatetime.strptime "12/31/99 23:59" "%m/%d/%y %H:%M" = PyDatetime.make 1999 12 31 23 59 0.
Proof. vm_compute. reflexivity. Qed.
Example strptime_unconverted :
  PyDatetime.strptime "4/8/2023" "%m/%d/%y" = None.
Proof. vm_compute. reflexivity. Qed.
Example strptime_month_name :
  PyDatetime.strptime "April  8, 2023" "%B %d, %Y" = PyDatetime.make 2023 4 8 0 0 0.
Proof. vm_compute. reflexivity. Qed.
Example strptime_no_year :
  PyDatetime.strptime "Apr 8" "%b %d" = PyDatetime.make 1900 4 8 0 0 0.
Proof. vm_compute. reflexivity. Qed.
Example strptime_feb_29 : PyDatetime.strptime "Feb 29" "%b %d" = None.
Proof. vm_compute. reflexivity. Qed.
Example strptime_bad_day : PyDatetime.strptime "04/31/2023" "%m/%d/%Y" = None.
Proof. vm_compute. reflexivity. Qed.
Example strptime_canonical :
  PyDatetime.strptime "2024-03-01 10:00:00" "%Y-%m-%d %H:%M:%S"
  = PyDatetime.make 2024 3 1 10 0 0.
Proof. vm_compute. reflexivity. Qed.
Example iso_T :
  PyDatetime.fromisoformat "2023-04-08T12:30:00" = PyDatetime.make 2023 4 8 12 30 0.
Proof. vm_compute. reflexivity. Qed.
Example iso_offset_minus :
  PyDatetime.fromisoformat "2023-04-08T12:30:00-07:00" = PyDatetime.make 2023 4 8 12 30 0.
Proof. vm_compute. reflexivity. Qed.
Example iso_date_only :
  PyDatetime.fromisoformat "2023-04-08" = PyDatetime.make 2023 4 8 0 0 0.
Proof. vm_compute. reflexivity. Qed.
Example iso_bad : PyDatetime.fromisoformat "2023-4-8 12:30" = None.
Proof. vm_compute. reflexivity. Qed.
Example iso_feb_30 : PyDatetime.fromisoformat "2023-02-30 12:30:00" = None.
Proof. vm_compute. reflexivity. Qed.
Example strftime_small :
  PyDatetime.strftime_canonical (PyDatetime.mk_datetime 987 1 2 3 4 5)
  = "987-01-02 03:04:05".
Proof. vm_compute. reflexivity. Qed.

(** *** The URL builder and the parser of posting times on known values *)

Example kbb_full :
  SheetsManager.generate_kbb_lookup_url "2015 Toyota Camry LE $9,500 (clean)"
  = Some "https://www.kbb.com/cars-for-sale/year-2015/make-toyota/model-camry/".
Proof. vm_compute. reflexivity. Qed.
Example kbb_price_first :
  SheetsManager.generate_kbb_lookup_url "2015 Honda $4,500 Civic"
  = Some "https://www.kbb.com/cars-for-sale/year-2015/make-honda/model-civic/".
Proof. vm_compute. reflexivity. Qed.
Example kbb_no_model :
  SheetsManager.generate_kbb_lookup_url "2015 toyota camry"
  = Some "https://www.kbb.com/cars-for-sale/year-2015/make-toyota/".
Proof. vm_compute. reflexivity. Qed.
Example kbb_search :
  SheetsManager.generate_kbb_lookup_url "Old truck, $1,500 obo"
  = Some "https://www.kbb.com/cars-for-sale/all?search=Old%20truck%201500%20obo".
Proof. vm_compute. reflexivity. Qed.
Example sub_noise_mixed :
  SheetsManager.sub_noise SheetsManager.Scan "Camry (2015) $9,500 12345 $x"
  = "Camry   5 $x".
Proof. vm_compute. reflexivity. Qed.

Example posting_iso :
  Utils.parse_posting_time 2025 (Some "2023-04-08T12:30:00+0000") = "2023-04-08 12:30:00".
Proof. vm_compute. reflexivity. Qed.
Example posting_slash :
  Utils.parse_posting_time 2025 (Some "4/8/23 9:05") = "2023-04-08 09:05:00".
Proof. vm_compute. reflexivity. Qed.
Example posting_text :
  Utils.parse_posting_time 2025 (Some "Apr 8") = "2025-04-08 00:00:00".
Proof. vm_compute. reflexivity. Qed.
Example posting_text_year :
  Utils.parse_posting_time 2025 (Some "April 8, 2023 14:00") = "2023-04-08 14:00:00".
Proof. vm_compute. reflexivity. Qed.
Example posting_garbage :
  Utils.parse_posting_time 2025 (Some "yesterday") = "yesterday".
Proof. vm_compute. reflexivity. Qed.
Example posting_none : Utils.parse_posting_time 2025 None = "N/A".
Proof. reflexivity. Qed.
(* ===================================================================== *)
(** ** Make and model extraction: first match in list order *)
(* ===================================================================== *)

Section FirstMatch.

Variable title_lower : string.

Lemma first_make_at (makes : list string) (i : nat) (make : string) :
  makes !! i = Some make ->
  PyStr.contains (PyStr.lower make) title_lower = true ->
  (forall i' make', (i' < i)%nat -> makes !! i' = Some make' ->
                    PyStr.contains (PyStr.lower make') title_lower = false) ->
  first_make title_lower makes = Some (normalize_make make).
Proof.
  revert i. induction makes as [|m ms IH]; intros i Hi Hin Hbefore.
  - destruct i; discriminate.
  - destruct i as [|i]; simpl in *.
    + injection Hi as ->. now rewrite Hin.
    + rewrite (Hbefore 0%nat m) by (simpl; auto; lia).
      apply (IH i); auto.
      intros i' make' Hlt Hl. apply (Hbefore (S i')); [lia | exact Hl].
Qed.

Lemma first_model_at (models : list string) (j : nat) (model : string) :
  models !! j = Some model ->
  PyStr.contains (PyStr.lower model) title_lower = true ->
  (forall j' model', (j' < j)%nat -> models !! j' = Some model' ->
                     PyStr.contains (PyStr.lower model') title_lower = false) ->
  first_model title_lower models = Some (PyStr.title model).
Proof.
  revert j. induction models as [|m ms IH]; intros j Hj Hin Hbefore.
  - destruct j; discriminate.
  - destruct j as [|j]; simpl in *.
    + injection Hj as ->. now rewrite Hin.
    + rewrite (Hbefore 0%nat m) by (simpl; auto; lia).
      apply (IH j); auto.
      intros j' model' Hlt Hl. apply (Hbefore (S j')); [lia | exact Hl].
Qed.

(** What the loops return is always a listed keyword that occurs. *)
Lemma first_make_sound (makes : list string) (r : string) :
  first_make title_lower makes = Some r ->
  exists make, In make makes /\ r = normalize_make make
               /\ PyStr.contains (PyStr.lower make) title_lower = true.
Proof.
  induction makes as [|m ms IH]; simpl; [discriminate|].
  destruct (PyStr.contains (PyStr.lower m) title_lower) eqn:E.
  - intros [= <-]. exists m. auto.
  - intros H. destruct (IH H) as (make & ? & ? & ?). exists make. auto.
Qed.

Lemma first_make_none (makes : list string) :
  first_make title_lower makes = None <->
  (forall make, In make makes ->
                PyStr.contains (PyStr.lower make) title_lower = false).
Proof.
  induction makes as [|m ms IH]; simpl.
  - split; [intros _ ? [] | reflexivity].
  - destruct (PyStr.contains (PyStr.lower m) title_lower) eqn:E.
    + split; [discriminate|]. intros H. rewrite (H m) in E by auto. discriminate.
    + rewrite IH. split.
      * intros H make [<-|Hin]; auto.
      * intros H make Hin. apply H. auto.
Qed.

End FirstMatch.

(** C4, counterexample: the title "Toyota Honda Civic" contains the make
    Honda and its model keyword civic, yet the extractors return the pair
    (Toyota, Honda): Toyota comes first in the list of makes, and the
    fallback takes the word after it. *)
Lemma extracts_any_known_pair_fails : ~ extracts_any_known_pair.
Proof.
  intros H.
  destruct (H "Toyota Honda Civic" "Honda" "civic"
              ["civic"; "accord"; "cr-v"; "pilot"; "odyssey"; "fit"; "hr-v"])
    as [Hmake _]; try (vm_compute; reflexivity).
  - simpl. auto.
  - simpl. auto.
  - vm_compute in Hmake. discriminate.
Qed.

Example toyota_honda_civic :
  (_extract_make "Toyota Honda Civic",
   _extract_model "Toyota Honda Civic" (_extract_make "Toyota Honda Civic"))
  = (Some "Toyota", Some "Honda").
Proof. vm_compute. reflexivity. Qed.

(** C4, amended: when [make] is the first entry of [common_makes] that
    occurs in the title (case-insensitively) and [model] is the first
    keyword of that make's list that occurs in it, [_extract_make] returns
    the canonical make and [_extract_model] the title-cased keyword,
    whatever else the title contains. *)
Theorem extract_first_known_pair
    (title make model : string) (models : list string) (i j : nat) :
  common_makes !! i = Some make ->
  PyStr.contains (PyStr.lower make) (PyStr.lower title) = true ->
  (forall i' make', (i' < i)%nat -> common_makes !! i' = Some make' ->
     PyStr.contains (PyStr.lower make') (PyStr.lower title) = false) ->
  model_dict !! PyStr.lower (normalize_make make) = Some models ->
  models !! j = Some model ->
  PyStr.contains (PyStr.lower model) (PyStr.lower title) = true ->
  (forall j' model', (j' < j)%nat -> models !! j' = Some model' ->
     PyStr.contains (PyStr.lower model') (PyStr.lower title) = false) ->
  _extract_make title = Some (normalize_make make)
  /\ _extract_model title (_extract_make title) = Some (PyStr.title model).
Proof.
  intros Hi Hmk Hmk_first Hdict Hj Hmd Hmd_first.
  assert (Hmake : _extract_make title = Some (normalize_make make))
    by (apply (first_make_at _ _ i); auto).
  split; [exact Hmake|].
  rewrite Hmake. unfold _extract_model.
  assert (Htruthy : PyStr.otruthy (Some (normalize_make make)) = true).
  { simpl. destruct (normalize_make make) eqn:E; [|reflexivity].
    vm_compute in Hdict. discriminate. }
  rewrite Htruthy. simpl negb. cbv iota. simpl default.
  rewrite Hdict.
  now rewrite (first_model_at _ models j model).
Qed.

Lemma extract_first_known_pair_witness :
  _extract_make "2014 chevy Silverado LT $9,500" = Some "Chevrolet"
  /\ _extract_model "2014 chevy Silverado LT $9,500"
       (_extract_make "2014 chevy Silverado LT $9,500") = Some "Silverado".
Proof.
  apply (extract_first_known_pair "2014 chevy Silverado LT $9,500" "Chevy" "silverado"
           ["silverado"; "equinox"; "tahoe"; "malibu"; "suburban"; "colorado"; "camaro"]
           4%nat 0%nat).
  - reflexivity.
  - vm_compute. reflexivity.
  - intros i' make' Hlt Hl.
    destruct i' as [|[|[|[|i']]]]; try lia;
      injection Hl as <-; vm_compute; reflexivity.
  - vm_compute. reflexivity.
  - reflexivity.
  - vm_compute. reflexivity.
  - intros j' model' Hlt. lia.
Defined.

(* ===================================================================== *)
(** ** The order of floats *)
(* ===================================================================== *)

(** Away from NaN the comparisons of binary64 make a total preorder (the
    two zeros are equal); the lemmas below are what the sorting and the
    price bands rely on. *)
Section FloatOrder.

Import PyFloat.

(** The mantissas are compared with [compare_cont Eq], which is
    [Pos.compare]. *)
Ltac fold_pos_compare :=
  repeat match goal with
         | |- context [?f Eq ?a ?b] =>
             progress change (f Eq a b) with (Pos.compare a b)
         end.

Lemma compare_antisym (x y : float) :
  SFcompare y x = option_map CompOpp (SFcompare x y).
Proof.
  destruct x as [[]|[]| |[] mx ex], y as [[]|[]| |[] my ey]; simpl; try reflexivity;
    fold_pos_compare; rewrite (Z.compare_antisym ex ey), (Pos.compare_antisym mx my);
    destruct (ex ?= ey)%Z, (mx ?= my)%positive; reflexivity.
Qed.

Lemma compare_not_nan (x y : float) :
  is_nan x = false -> is_nan y = false -> exists c, SFcompare x y = Some c.
Proof.
  destruct x as [[]|[]| |[] mx ex], y as [[]|[]| |[] my ey]; simpl;
    intros; try discriminate; eauto.
Qed.

Lemma ltb_false_leb (x y : float) :
  is_nan x = false -> is_nan y = false ->
  (ltb x y = false <-> leb y x = true).
Proof.
  intros Hx Hy. unfold ltb, leb, SFltb, SFleb. rewrite (compare_antisym x y).
  destruct (compare_not_nan x y Hx Hy) as [c ->]. destruct c; simpl; intuition congruence.
Qed.

Lemma ltb_leb (x y : float) : ltb x y = true -> leb x y = true.
Proof. unfold ltb, leb, SFltb, SFleb. destruct (SFcompare x y) as [[]|]; congruence. Qed.

Lemma ltb_asym (x y : float) : ltb x y = true -> ltb y x = false.
Proof.
  unfold ltb, SFltb. rewrite (compare_antisym x y).
  destruct (SFcompare x y) as [[]|]; simpl; congruence.
Qed.

Lemma leb_not_nan (x y : float) : leb x y = true -> is_nan x = false /\ is_nan y = false.
Proof.
  destruct x as [[]|[]| |[] mx ex], y as [[]|[]| |[] my ey]; simpl; auto; discriminate.
Qed.

Lemma leb_refl (x : float) : is_nan x = false -> leb x x = true.
Proof.
  destruct x as [[]|[]| |[] mx ex]; simpl; try reflexivity; try discriminate; intros _;
    unfold leb, SFleb; simpl; fold_pos_compare; rewrite Z.compare_refl, Pos.compare_refl;
    reflexivity.
Qed.

Lemma leb_total (x y : float) :
  is_nan x = false -> is_nan y = false -> leb x y = true \/ leb y x = true.
Proof.
  intros Hx Hy. destruct (ltb x y) eqn:E.
  - left. now apply ltb_leb.
  - right. now apply ltb_false_leb.
Qed.

(** The comparison of two finite floats of one sign, as an order on the
    pairs (exponent, mantissa). *)
Lemma leb_finite_pos (m1 m2 : positive) (e1 e2 : Z) :
  leb (S754_finite false m1 e1) (S754_finite false m2 e2) = true
  <-> e1 < e2 \/ (e1 = e2 /\ (m1 <= m2)%positive).
Proof.
  unfold leb, SFleb. simpl. fold_pos_compare.
  destruct (Z.compare_spec e1 e2); [destruct (Pos.compare_spec m1 m2)|..];
    split; intros; try discriminate; try reflexivity; try lia.
Qed.

Lemma leb_finite_neg (m1 m2 : positive) (e1 e2 : Z) :
  leb (S754_finite true m1 e1) (S754_finite true m2 e2) = true
  <-> e2 < e1 \/ (e1 = e2 /\ (m2 <= m1)%positive).
Proof.
  unfold leb, SFleb. simpl. fold_pos_compare.
  destruct (Z.compare_spec e1 e2); [destruct (Pos.compare_spec m1 m2)|..];
    simpl; split; intros; try discriminate; try reflexivity; try lia.
Qed.

Lemma leb_trans (x y z : float) :
  leb x y = true -> leb y z = true -> leb x z = true.
Proof.
  destruct x as [[]|[]| |[] mx ex], y as [[]|[]| |[] my ey], z as [[]|[]| |[] mz ez];
    try (intros; reflexivity); try (intros; discriminate);
    rewrite ?leb_finite_pos, ?leb_finite_neg; intros; lia.
Qed.

(** [x == y] is [x <= y] and [y <= x]. *)
Lemma eqb_leb (x y : float) : eqb x y = true <-> leb x y = true /\ leb y x = true.
Proof.
  unfold eqb, leb, SFeqb, SFleb. rewrite (compare_antisym x y).
  destruct (SFcompare x y) as [[]|]; simpl; intuition congruence.
Qed.

End FloatOrder.

(* ===================================================================== *)
(** ** Sorting floats *)
(* ===================================================================== *)

Section Sorting.

Import PyFloat.

Lemma insert_perm (x : float) (l : list float) : Permutation (insert x l) (x :: l).
Proof.
  induction l as [|y r IH]; simpl; [reflexivity|].
  destruct (ltb x y); [reflexivity|].
  rewrite IH. apply perm_swap.
Qed.

Lemma sorted_from_perm (l acc : list float) :
  Permutation (fold_left (fun acc x => insert x acc) l acc) (l ++ acc).
Proof.
  revert acc. induction l as [|x l IH]; intros acc; simpl; [reflexivity|].
  rewrite IH, insert_perm. symmetry. apply Permutation_middle.
Qed.

(** [sorted] rearranges its argument. *)
Lemma sorted_perm (l : list float) : Permutation (sorted l) l.
Proof. unfold sorted. rewrite sorted_from_perm. now rewrite app_nil_r. Qed.

Lemma sorted_length (l : list float) : length (sorted l) = length l.
Proof. apply Permutation_length, sorted_perm. Qed.

Lemma insert_hd (x : float) (l : list float) (z : float) :
  fle z x -> HdRel fle z l -> HdRel fle z (insert x l).
Proof.
  intros Hzx Hl. destruct l as [|y r]; simpl.
  - now constructor.
  - destruct (ltb x y); constructor; auto. now inversion Hl.
Qed.

Lemma insert_sorted (x : float) (l : list float) :
  is_nan x = false -> no_nan l -> Sorted fle l -> Sorted fle (insert x l).
Proof.
  intros Hx Hnan Hs. induction Hs as [|y r Hr IH Hhd]; simpl.
  - repeat constructor.
  - inversion Hnan as [|? ? Hy Hnr]; subst.
    destruct (ltb x y) eqn:E.
    + constructor; [now constructor|]. constructor. now apply ltb_leb.
    + constructor; [now apply IH|].
      apply insert_hd; auto. now apply ltb_false_leb.
  Qed.

Lemma no_nan_perm (l l' : list float) : Permutation l l' -> no_nan l -> no_nan l'.
Proof. intros Hp. unfold no_nan. now rewrite Hp. Qed.

Lemma sorted_from_sorted (l acc : list float) :
  no_nan l -> no_nan acc -> Sorted fle acc ->
  Sorted fle (fold_left (fun acc x => insert x acc) l acc).
Proof.
  revert acc. induction l as [|x l IH]; intros acc Hl Hacc Hs; simpl; [exact Hs|].
  inversion Hl as [|? ? Hx Hl']; subst.
  apply IH; auto.
  - apply (no_nan_perm (x :: acc)); [symmetry; apply insert_perm|].
    now constructor.
  - now apply insert_sorted.
Qed.

(** Without NaN, [sorted] returns an ascending list. *)
Lemma sorted_ascending (l : list float) : no_nan l -> Sorted fle (sorted l).
Proof. intros H. apply sorted_from_sorted; auto; constructor. Qed.

(** *** The element at a rank of an ascending list *)

Lemma count_perm (p : float -> bool) (l l' : list float) :
  Permutation l l' -> length (List.filter p l) = length (List.filter p l').
Proof.
  induction 1 as [|x l l' _ IH|x y l|l l' l'' _ IH1 _ IH2]; simpl.
  - reflexivity.
  - destruct (p x); simpl; now rewrite IH.
  - destruct (p x), (p y); reflexivity.
  - now rewrite IH1.
Qed.

Lemma count_mono (p q : float -> bool) (l : list float) :
  (forall y, In y l -> p y = true -> q y = true) ->
  (length (List.filter p l) <= length (List.filter q l))%nat.
Proof.
  induction l as [|y r IH]; intros H; simpl; [lia|].
  assert (IH' : (length (List.filter p r) <= length (List.filter q r))%nat)
    by (apply IH; intros; apply H; simpl; auto).
  destruct (p y) eqn:Ep.
  - rewrite (H y) by (simpl; auto). simpl. lia.
  - destruct (q y); simpl; lia.
Qed.

Lemma count_zero (p : float -> bool) (l : list float) :
  (forall y, In y l -> p y = false) -> length (List.filter p l) = 0%nat.
Proof.
  induction l as [|y r IH]; intros H; simpl; [reflexivity|].
  rewrite (H y) by (simpl; auto). apply IH. intros; apply H; simpl; auto.
Qed.

Lemma fle_trans : Transitive fle.
Proof. intros x y z. apply leb_trans. Qed.

Lemma ltb_irrefl (x : float) : ltb x x = false.
Proof.
  destruct (ltb x x) eqn:E; [|reflexivity].
  pose proof (ltb_asym _ _ E). congruence.
Qed.

(** In an ascending list without NaN, fewer than [k + 1] elements are
    below the element of rank [k], and more than [k] are at most it. *)
Lemma rank_counts (l : list float) :
  StronglySorted fle l -> no_nan l ->
  forall k d, (k < length l)%nat ->
    (count_lt (nth k l d) l <= k)%nat /\ (k < count_le (nth k l d) l)%nat.
Proof.
  unfold count_lt, count_le.
  induction 1 as [|x r Hr IH Hall]; intros Hnan k d Hk; simpl in Hk; [lia|].
  inversion Hnan as [|? ? Hx Hnr]; subst.
  destruct k as [|k]; simpl nth.
  - simpl. rewrite ltb_irrefl, (leb_refl x Hx). simpl. split; [|lia].
    rewrite count_zero; [lia|].
    intros y Hy. rewrite List.Forall_forall in Hall.
    apply ltb_false_leb; auto.
    + rewrite List.Forall_forall in Hnr. now apply Hnr.
    + now apply Hall.
  - destruct (IH Hnr k d ltac:(lia)) as [H1 H2].
    assert (Hin : In (nth k r d) r) by (apply nth_In; lia).
    rewrite List.Forall_forall in Hall. pose proof (Hall _ Hin) as Hxy.
    simpl. unfold fle in Hxy. rewrite Hxy.
    destruct (ltb x (nth k r d)); simpl; lia.
Qed.

(** Two numbers that hold the same rank in two arrangements of one list
    are equal. *)
Lemma rank_unique (l l' : list float) (x x' : float) (k : nat) :
  Permutation l l' ->
  is_nan x = false -> is_nan x' = false ->
  (count_lt x l <= k)%nat -> (k < count_le x l)%nat ->
  (count_lt x' l' <= k)%nat -> (k < count_le x' l')%nat ->
  eqb x x' = true.
Proof.
  unfold count_lt, count_le. intros Hp Hx Hx' L1 L2 L1' L2'.
  rewrite <- (count_perm (fun y => ltb y x') _ _ Hp) in L1'.
  rewrite <- (count_perm (fun y => leb y x') _ _ Hp) in L2'.
  apply eqb_leb. split.
  - destruct (leb x x') eqn:E; [reflexivity|]. exfalso.
    (* x' < x: what is at most x' is below x *)
    assert (length (List.filter (fun y => leb y x') l)
            <= length (List.filter (fun y => ltb y x) l))%nat; [|lia].
    apply count_mono. intros y _ Hy.
    destruct (ltb y x) eqn:F; [reflexivity|]. exfalso.
    destruct (leb_not_nan _ _ Hy) as [Ny _].
    apply ltb_false_leb in F; auto.
    rewrite (leb_trans _ _ _ F Hy) in E. discriminate.
  - destruct (leb x' x) eqn:E; [reflexivity|]. exfalso.
    assert (length (List.filter (fun y => leb y x) l)
            <= length (List.filter (fun y => ltb y x') l))%nat; [|lia].
    apply count_mono. intros y _ Hy.
    destruct (ltb y x') eqn:F; [reflexivity|]. exfalso.
    destruct (leb_not_nan _ _ Hy) as [Ny _].
    apply ltb_false_leb in F; auto.
    rewrite (leb_trans _ _ _ F Hy) in E. discriminate.
Qed.

(** An ascending list of two or more elements holds no NaN. *)
Lemma ascending_no_nan (l : list float) :
  Sorted fle l -> (2 <= length l)%nat -> no_nan l.
Proof.
  intros Hs. induction Hs as [|x r Hr IH Hhd]; intros Hlen; simpl in Hlen; [lia|].
  destruct r as [|y r']; simpl in Hlen; [lia|].
  inversion Hhd as [|? ? Hxy]; subst.
  destruct (leb_not_nan _ _ Hxy) as [Nx Ny].
  constructor; [exact Nx|].
  destruct r' as [|z r''].
  - repeat constructor. exact Ny.
  - apply IH. simpl. lia.
Qed.

(** The element in the middle of [sorted l] is, up to [==], the element
    in the middle of any ascending arrangement of [l]. *)
Lemma sorted_rank (l ps : list float) (k : nat) (d : float) :
  Permutation ps l -> Sorted fle ps -> (2 <= length ps)%nat -> (k < length ps)%nat ->
  eqb (nth k (sorted l) d) (nth k ps d) = true.
Proof.
  intros Hp Hs Hlen Hk.
  pose proof (ascending_no_nan ps Hs Hlen) as Nps.
  assert (Nl : no_nan l) by (eapply no_nan_perm; eauto).
  assert (Nsl : no_nan (sorted l))
    by (eapply no_nan_perm; [symmetry; apply sorted_perm | exact Nl]).
  assert (Hlen' : length (sorted l) = length ps)
    by (rewrite sorted_length; symmetry; now apply Permutation_length).
  destruct (rank_counts (sorted l)
              (Sorted_StronglySorted fle_trans (sorted_ascending l Nl)) Nsl k d
              ltac:(lia)) as [A1 A2].
  destruct (rank_counts ps (Sorted_StronglySorted fle_trans Hs) Nps k d Hk) as [B1 B2].
  apply (rank_unique (sorted l) ps _ _ k); auto.
  - rewrite sorted_perm. now symmetry.
  - unfold no_nan in Nsl. rewrite List.Forall_forall in Nsl. apply Nsl, nth_In. lia.
  - unfold no_nan in Nps. rewrite List.Forall_forall in Nps. apply Nps, nth_In. lia.
Qed.

End Sorting.

(* ===================================================================== *)
(** ** Deal classification *)
(* ===================================================================== *)

Lemma compare_to_average_status (price avg_price : PyFloat.float) :
  let lt085 := PyFloat.ltb price (PyFloat.mul avg_price PyFloat.lit_0_85) in
  let lt095 := PyFloat.ltb price (PyFloat.mul avg_price PyFloat.lit_0_95) in
  let lt105 := PyFloat.ltb price (PyFloat.mul avg_price PyFloat.lit_1_05) in
  fst (AppDb.compare_to_average price avg_price) =
    if lt085 then "Great Deal"
    else if lt095 then "Good Deal"
    else if lt105 then "Fair Price"
    else "Above Market".
Proof.
  unfold AppDb.compare_to_average. cbv zeta.
  destruct (PyFloat.ltb price (PyFloat.mul avg_price PyFloat.lit_0_85)); [reflexivity|].
  destruct (PyFloat.ltb price (PyFloat.mul avg_price PyFloat.lit_0_95)); [reflexivity|].
  destruct (PyFloat.ltb price (PyFloat.mul avg_price PyFloat.lit_1_05)); reflexivity.
Qed.


(** C1, counterexample: against an average of 10000, a price of 10500 is
    at least 0.95 of the average and at most 1.05 of it (10000 * 1.05 is
    10500.0 in binary64), yet its status is "Above Market": the upper
    bound of "Fair Price" is strict. *)
Lemma fair_price_upper_bound_excluded :
  let listing := camry "https://example.org/9.html" (Some "10500") "2015" in
  let price := PyFloat.of_Z 10500 in
  let avg := PyFloat.of_Z 10000 in
  map MarketAnalysis.avg_price camry_market = [avg]
  /\ DatabaseManager.price_number "10500" = Some price
  /\ PyFloat.leb (PyFloat.mul avg PyFloat.lit_0_95) price = true
  /\ PyFloat.leb price (PyFloat.mul avg PyFloat.lit_1_05) = true
  /\ AppDb.deal_status (AppDb.analysis_dict camry_market) listing = "Above Market".
Proof. vm_compute. repeat split; reflexivity. Qed.

(** C1, amended: for a listing with a make and a model whose key finds
    the aggregate [analysis], and whose price parses to the float [p]:
    the status is "Great Deal" iff p < 0.85*avg; "Good Deal" iff not so
    and p < 0.95*avg; "Fair Price" iff neither and p < 1.05*avg; "Above
    Market" iff none of the three.  When [p] is not NaN and the thresholds
    are in order (0.85*avg <= 0.95*avg <= 1.05*avg, as for any ordinary
    non-negative average), these are the bands 0.85*avg <= p < 0.95*avg,
    0.95*avg <= p < 1.05*avg and 1.05*avg <= p.  Every upper bound is
    strict; the products are those of binary64. *)
Theorem deal_status_bands
    (table : list MarketAnalysis.t) (listing : CarListing.t)
    (make model price_text : string) (analysis : MarketAnalysis.t) (p : PyFloat.float) :
  CarListing.make listing = Some make -> make <> "" ->
  CarListing.model listing = Some model -> model <> "" ->
  AppDb.analysis_dict table !! AppDb.key make model = Some analysis ->
  CarListing.price listing = Some price_text ->
  DatabaseManager.price_number price_text = Some p ->
  let avg := MarketAnalysis.avg_price analysis in
  let t085 := PyFloat.mul avg PyFloat.lit_0_85 in
  let t095 := PyFloat.mul avg PyFloat.lit_0_95 in
  let t105 := PyFloat.mul avg PyFloat.lit_1_05 in
  let status := AppDb.deal_status (AppDb.analysis_dict table) listing in
  ((status = "Great Deal" <-> PyFloat.ltb p t085 = true)
   /\ (status = "Good Deal"
       <-> PyFloat.ltb p t085 = false /\ PyFloat.ltb p t095 = true)
   /\ (status = "Fair Price"
       <-> PyFloat.ltb p t085 = false /\ PyFloat.ltb p t095 = false
           /\ PyFloat.ltb p t105 = true)
   /\ (status = "Above Market"
       <-> PyFloat.ltb p t085 = false /\ PyFloat.ltb p t095 = false
           /\ PyFloat.ltb p t105 = false))
  /\ (PyFloat.is_nan p = false ->
      PyFloat.leb t085 t095 = true -> PyFloat.leb t095 t105 = true ->
      (status = "Good Deal" <-> PyFloat.leb t085 p = true /\ PyFloat.ltb p t095 = true)
      /\ (status = "Fair Price" <-> PyFloat.leb t095 p = true /\ PyFloat.ltb p t105 = true)
      /\ (status = "Above Market" <-> PyFloat.leb t105 p = true)).
Proof.
  intros Hmake Hmake_ne Hmodel Hmodel_ne Hdict Hprice Hnum avg t085 t095 t105 status.
  assert (Hstatus : status = fst (AppDb.compare_to_average p avg)).
  { unfold status, AppDb.deal_status, AppDb.deal.
    rewrite Hmake, Hmodel. simpl.
    destruct make; [congruence|]. destruct model; [congruence|].
    simpl PyStr.truthy. simpl andb. cbv iota.
    rewrite Hdict, Hprice, Hnum. reflexivity. }
  rewrite Hstatus, compare_to_average_status. cbv zeta.
  fold avg. fold t085 t095 t105.
  split.
  - destruct (PyFloat.ltb p t085), (PyFloat.ltb p t095), (PyFloat.ltb p t105);
      repeat split; intros; try discriminate; try reflexivity;
      repeat match goal with
             | H : _ /\ _ |- _ => destruct H
             end; discriminate.
  - intros Hp H1 H2.
    destruct (leb_not_nan _ _ H1) as [N085 N095].
    destruct (leb_not_nan _ _ H2) as [_ N105].
    pose proof (ltb_false_leb p t085 Hp N085) as E085.
    pose proof (ltb_false_leb p t095 Hp N095) as E095.
    pose proof (ltb_false_leb p t105 Hp N105) as E105.
    assert (T1 : PyFloat.leb t095 p = true -> PyFloat.leb t085 p = true)
      by (intros; eapply leb_trans; eauto).
    assert (T2 : PyFloat.leb t105 p = true -> PyFloat.leb t095 p = true)
      by (intros; eapply leb_trans; eauto).
    destruct (PyFloat.ltb p t085) eqn:L085;
      destruct (PyFloat.ltb p t095) eqn:L095;
      destruct (PyFloat.ltb p t105) eqn:L105;
      repeat split; intros; try discriminate; try reflexivity;
      repeat match goal with
             | H : _ /\ _ |- _ => destruct H
             end;
      try (apply E085; reflexivity); try (apply E095; reflexivity);
      try (apply E105; reflexivity);
      try (exfalso;
           repeat match goal with
                  | H : PyFloat.leb t105 p = true |- _ =>
                      pose proof (T2 H); apply E105 in H; try discriminate
                  | H : PyFloat.leb t095 p = true |- _ =>
                      pose proof (T1 H); apply E095 in H; try discriminate
                  | H : PyFloat.leb t085 p = true |- _ =>
                      apply E085 in H; try discriminate
                  end; fail).
Qed.

Lemma deal_status_bands_witness :
  AppDb.deal_status (AppDb.analysis_dict camry_market)
    (camry "https://example.org/9.html" (Some "$9,800") "2015") = "Fair Price"
  <-> PyFloat.leb (PyFloat.mul (PyFloat.of_Z 10000) PyFloat.lit_0_95) (PyFloat.of_Z 9800) = true
      /\ PyFloat.ltb (PyFloat.of_Z 9800) (PyFloat.mul (PyFloat.of_Z 10000) PyFloat.lit_1_05) = true.
Proof.
  refine (proj1 (proj2 (proj2 (deal_status_bands camry_market
            (camry "https://example.org/9.html" (Some "$9,800") "2015")
            "Toyota" "Camry" "$9,800"
            (MarketAnalysis.mk "Toyota" "Camry" (Some 2015) (Some 2016)
               (PyFloat.of_Z 10000) (PyFloat.of_Z 10000) (PyFloat.of_Z 9000)
               (PyFloat.of_Z 11000) 3 sample_time)
            (PyFloat.of_Z 9800) _ _ _ _ _ _ _) _ _ _)));
    try reflexivity; try discriminate; vm_compute; reflexivity.
Defined.

(** The statuses of five prices against an average of 10000. *)
Example deal_statuses :
  map (fun price => AppDb.deal_status (AppDb.analysis_dict camry_market)
                      (camry "https://example.org/9.html" (Some price) "2015"))
      ["8000"; "8500"; "9500"; "10499"; "10500"; "call"]
  = ["Great Deal"; "Good Deal"; "Fair Price"; "Fair Price"; "Above Market"; "Price Unknown"].
Proof. vm_compute. reflexivity. Qed.

(* ===================================================================== *)
(** ** Which scraped results are skipped *)
(* ===================================================================== *)

(** C8, counterexample: a result with an empty title and a new link is
    skipped although its link is there, is not a known one, and no keyword
    occurs in its title. *)
Lemma skipped_for_empty_title :
  Scraper.skipped (Some "") (Some "https://example.org/1.html") ∅ ["salvage"; "rebuilt"] = true
  /\ PyStr.otruthy (Some "https://example.org/1.html") = true
  /\ ("https://example.org/1.html" ∉ (∅ : gset string))
  /\ existsb (fun keyword => PyStr.contains (PyStr.lower keyword) (PyStr.lower ""))
             ["salvage"; "rebuilt"] = false.
Proof.
  split; [reflexivity|]. split; [reflexivity|]. split; [|reflexivity].
  apply not_elem_of_empty.
Qed.

(** C8, amended: a result is skipped if and only if its title is missing
    or empty, or its link is missing or empty, or the link is one of the
    known links (the very same string), or some excluded keyword occurs in
    the title when both are lower-cased.  In particular a known link is
    skipped whatever the title, and a title with a keyword is skipped
    whatever the link. *)
Theorem skipped_iff
    (title url : option string) (existing_urls : gset string)
    (filter_keywords : list string) :
  (Scraper.skipped title url existing_urls filter_keywords = true
   <-> PyStr.otruthy title = false
       \/ PyStr.otruthy url = false
       \/ (exists u, url = Some u /\ u ∈ existing_urls)
       \/ (exists t keyword, title = Some t /\ In keyword filter_keywords
             /\ PyStr.contains (PyStr.lower keyword) (PyStr.lower t) = true))
  /\ (forall u, url = Some u -> u ∈ existing_urls ->
        Scraper.skipped title url existing_urls filter_keywords = true)
  /\ (forall t keyword, title = Some t -> In keyword filter_keywords ->
        PyStr.contains (PyStr.lower keyword) (PyStr.lower t) = true ->
        Scraper.skipped title url existing_urls filter_keywords = true).
Proof.
  assert (Hiff :
    Scraper.skipped title url existing_urls filter_keywords = true
    <-> PyStr.otruthy title = false
        \/ PyStr.otruthy url = false
        \/ (exists u, url = Some u /\ u ∈ existing_urls)
        \/ (exists t keyword, title = Some t /\ In keyword filter_keywords
              /\ PyStr.contains (PyStr.lower keyword) (PyStr.lower t) = true)).
  { unfold Scraper.skipped.
    destruct (PyStr.otruthy title) eqn:Ht; simpl; [|tauto].
    destruct (PyStr.otruthy url) eqn:Hu; simpl; [|tauto].
    destruct title as [t|]; [|discriminate]. destruct url as [u|]; [|discriminate].
    simpl. destruct (bool_decide (u ∈ existing_urls)) eqn:Hk.
    - apply bool_decide_eq_true in Hk. split; [|reflexivity].
      intros _. right. right. left. eauto.
    - apply bool_decide_eq_false in Hk.
      destruct (existsb _ filter_keywords) eqn:Hf.
      + split; [|reflexivity]. intros _. right. right. right.
        apply existsb_exists in Hf. destruct Hf as (keyword & Hin & Hc). eauto 6.
      + split; [discriminate|].
        intros [H|[H|[(u' & [= <-] & Hin)|(t' & keyword & [= <-] & Hin & Hc)]]];
          try discriminate; try contradiction.
        assert (existsb (fun keyword =>
                  PyStr.contains (PyStr.lower keyword) (PyStr.lower t)) filter_keywords = true)
          by (apply existsb_exists; eauto).
        congruence. }
  split; [exact Hiff|]. split.
  - intros u Hu Hin. apply Hiff. right. right. left. eauto.
  - intros t keyword Ht Hin Hc. apply Hiff. right. right. right. eauto 6.
Qed.

(* ===================================================================== *)
(** ** The lookup URL *)
(* ===================================================================== *)

Section YearSearch.

Lemma is_digit_val (c : ascii) : PyStr.is_digit c = true -> 0 <= digit_val c <= 9.
Proof.
  unfold PyStr.is_digit, PyStr.code, digit_val. intros H.
  apply andb_true_iff in H as [H1 H2].
  apply Nat.leb_le in H1. apply Nat.leb_le in H2. lia.
Qed.

Lemma in_range_val (lo hi c : ascii) :
  Re.in_range lo hi c = true ->
  Z.of_nat (nat_of_ascii lo) - 48 <= digit_val c <= Z.of_nat (nat_of_ascii hi) - 48.
Proof.
  unfold Re.in_range, digit_val. intros H.
  apply andb_true_iff in H as [H1 H2].
  apply Nat.leb_le in H1. apply Nat.leb_le in H2. lia.
Qed.

Lemma in_range_digit (lo hi c : ascii) :
  PyStr.is_digit lo = true -> PyStr.is_digit hi = true ->
  Re.in_range lo hi c = true -> PyStr.is_digit c = true.
Proof.
  unfold Re.in_range, PyStr.is_digit, PyStr.code. intros Hlo Hhi H.
  apply andb_true_iff in Hlo as [L1 L2]. apply andb_true_iff in Hhi as [U1 U2].
  apply andb_true_iff in H as [H1 H2].
  apply Nat.leb_le in L1, L2, U1, U2, H1, H2.
  apply andb_true_iff. split; apply Nat.leb_le; lia.
Qed.

(** What the pattern accepts: four digits worth a year of the window. *)
Lemma year_digits_window (a c1 c2 c3 c4 : ascii) :
  PyStr.is_digit a = true ->
  Re.year_digits a c1 c2 c3 c4 = true ->
  all_digits (String c1 (String c2 (String c3 (String c4 EmptyString)))) = true
  /\ 1900 + 10 * digit_val a
     <= int_of_digits (String c1 (String c2 (String c3 (String c4 EmptyString))))
     <= 2029.
Proof.
  intros Ha H. unfold Re.year_digits in H.
  pose proof (is_digit_val a Ha) as Va.
  apply orb_true_iff in H as [H|H];
    repeat (apply andb_true_iff in H as [H ?]);
    repeat match goal with
           | E : Ascii.eqb _ _ = true |- _ => apply Ascii.eqb_eq in E; subst
           end.
  - assert (D3 : PyStr.is_digit c3 = true)
      by (apply (in_range_digit a "9"); [exact Ha | reflexivity | exact H1]).
    pose proof (in_range_val _ _ _ H1) as V3. pose proof (is_digit_val _ H0) as V4.
    split.
    + simpl. now rewrite D3, H0.
    + change (1900 + 10 * digit_val a
              <= 10 * (10 * (10 * (10 * 0 + 1) + 9) + digit_val c3) + digit_val c4 <= 2029).
      change (Z.of_nat (nat_of_ascii "9") - 48) with 9 in V3.
      fold (digit_val a) in V3. lia.
  - assert (D3 : PyStr.is_digit c3 = true)
      by (apply (in_range_digit "0" "2"); [reflexivity | reflexivity | exact H1]).
    pose proof (in_range_val _ _ _ H1) as V3. pose proof (is_digit_val _ H0) as V4.
    split.
    + simpl. now rewrite D3, H0.
    + change (1900 + 10 * digit_val a
              <= 10 * (10 * (10 * (10 * 0 + 2) + 0) + digit_val c3) + digit_val c4 <= 2029).
      change (Z.of_nat (nat_of_ascii "2") - 48) with 2 in V3.
      change (Z.of_nat (nat_of_ascii "0") - 48) with 0 in V3. lia.
Qed.

(** A match of the search is a year of the window that stands on its
    own in the text. *)
Lemma search_year_from_sound (a : ascii) (s : string) :
  PyStr.is_digit a = true ->
  forall (prev : bool) (g : string),
    Re.search_year_from a prev s = Some g ->
    exists pre post,
      s = pre ++ g ++ post
      /\ String.length g = 4%nat /\ all_digits g = true
      /\ 1900 + 10 * digit_val a <= int_of_digits g <= 2029
      /\ ends_on_word prev pre = false /\ starts_on_word post = false.
Proof.
  intros Ha. induction s as [|c r IH]; intros prev g H; [discriminate|].
  change (Re.search_year_from a prev (String c r))
    with (if negb prev && Re.year_here a (String c r)
          then Some (PyStr.take 4 (String c r))
          else Re.search_year_from a (Re.is_word c) r) in H.
  destruct (negb prev && Re.year_here a (String c r)) eqn:E.
  - injection H as <-.
    apply andb_true_iff in E as [Hprev Hhere].
    apply negb_true_iff in Hprev.
    destruct r as [|c2 [|c3 [|c4 post]]]; try discriminate.
    simpl in Hhere. apply andb_true_iff in Hhere as [Hd Hpost].
    destruct (year_digits_window a c c2 c3 c4 Ha Hd) as [Hall Hwin].
    exists EmptyString, post. simpl. repeat split; auto; try apply Hwin.
    destruct post; [reflexivity|]. simpl. now apply negb_true_iff in Hpost.
  - destruct (IH _ _ H) as (pre & post & -> & Hlen & Hall & Hwin & Hpre & Hpost).
    exists (String c pre), post. simpl. repeat split; auto; apply Hwin.
Qed.

End YearSearch.

Section SplitWords.

Lemma split_go_nil (s : string) :
  forall cur, PyStr.split_go cur s = [] -> cur = [] /\ all_space s = true.
Proof.
  induction s as [|c r IH]; intros cur H; simpl in *.
  - destruct cur; [auto | discriminate].
  - destruct (PyStr.is_space c).
    + apply app_eq_nil in H as [H1 H2].
      destruct cur; [|discriminate]. split; [reflexivity|]. apply (IH [] H2).
    + destruct (IH _ H) as [? _]. discriminate.
Qed.

Lemma lstrip_head (s : string) (c : ascii) (r : string) :
  PyStr.lstrip s = String c r -> PyStr.is_space c = false.
Proof.
  induction s as [|x s IH]; simpl; [discriminate|].
  destruct (PyStr.is_space x) eqn:E; [exact IH|].
  intros [= <- _]. exact E.
Qed.

Lemma rstrip_head (c : ascii) (r : string) :
  PyStr.is_space c = false -> exists r', PyStr.rstrip (String c r) = String c r'.
Proof.
  intros Hc. simpl. destruct (PyStr.rstrip r); rewrite ?Hc; eauto.
Qed.

(** A stripped string that is not empty has a first word. *)
Lemma split_strip_nonempty (s : string) :
  PyStr.truthy (PyStr.strip s) = true -> PyStr.split (PyStr.strip s) <> [].
Proof.
  unfold PyStr.strip, PyStr.split. intros Ht Hnil.
  destruct (PyStr.lstrip s) as [|c r] eqn:El; [discriminate|].
  destruct (rstrip_head c r (lstrip_head _ _ _ El)) as [r' Er].
  rewrite Er in Hnil. apply split_go_nil in Hnil as [_ Hall].
  simpl in Hall. rewrite (lstrip_head _ _ _ El) in Hall. discriminate.
Qed.

End SplitWords.

(** The search for the model never raises: a stripped text that is not
    empty has a first word for [split()[0]]. *)
Lemma find_model_returns (title make : string) :
  exists model, SheetsManager.find_model title make = Some model.
Proof.
  unfold SheetsManager.find_model.
  destruct (PyStr.truthy make && PyStr.contains make title); eauto.
  destruct (0 <=? _); eauto.
  destruct (PyStr.truthy (PyStr.strip _)) eqn:Ht; eauto.
  destruct (PyStr.split (PyStr.strip _)) eqn:Es; eauto.
  exfalso. exact (split_strip_nonempty _ Ht Es).
Qed.

Lemma find_make_none (title_lower : string) (makes : list string) :
  (forall make, In make makes -> PyStr.contains (PyStr.lower make) title_lower = false) ->
  SheetsManager.find_make title_lower makes = "".
Proof.
  induction makes as [|m ms IH]; intros H; simpl; [reflexivity|].
  rewrite (H m) by (simpl; auto). apply IH. intros make Hin. apply H. simpl; auto.
Qed.

Lemma startswith_append (p s : string) : PyStr.startswith p (p ++ s) = true.
Proof.
  induction p as [|c p IH]; simpl; [reflexivity|].
  now rewrite Ascii.eqb_refl, IH.
Qed.

Lemma quote_returns (s : string) :
  PyStr.has_surrogate s = false ->
  SheetsManager.quote s = Some (SheetsManager.quote_from_bytes s).
Proof. unfold SheetsManager.quote. now intros ->. Qed.

Lemma quote_raises (s : string) :
  SheetsManager.quote s = None <-> PyStr.has_surrogate s = true.
Proof.
  unfold SheetsManager.quote. destruct (PyStr.has_surrogate s); split; congruence.
Qed.

(** Every URL that [generate_kbb_lookup_url] returns begins with the
    address of the site. *)
Lemma kbb_url_prefix (title url : string) :
  SheetsManager.generate_kbb_lookup_url title = Some url ->
  PyStr.startswith "https://www.kbb.com/" url = true.
Proof.
  unfold SheetsManager.generate_kbb_lookup_url, SheetsManager.generate_kbb_lookup_url_try.
  destruct (SheetsManager.find_model title _) as [model|].
  - destruct (PyStr.truthy _ && PyStr.truthy _); [destruct (PyStr.truthy model)|];
      repeat match goal with
             | |- context [match SheetsManager.quote ?x with _ => _ end] =>
                 destruct (SheetsManager.quote x)
             end;
      intros [= <-]; apply (startswith_append "https://www.kbb.com/").
  - destruct (SheetsManager.quote title); intros [= <-].
    apply (startswith_append "https://www.kbb.com/").
Qed.

(** It returns whenever the title can be encoded; it raises only on a
    title that holds a surrogate. *)
Lemma kbb_url_returns (title : string) :
  PyStr.has_surrogate title = false ->
  exists url, SheetsManager.generate_kbb_lookup_url title = Some url.
Proof.
  intros H. unfold SheetsManager.generate_kbb_lookup_url.
  destruct (SheetsManager.generate_kbb_lookup_url_try title); eauto.
  rewrite (quote_returns title H). eauto.
Qed.

(** Without a year of the window or without a known make, the body of
    the [try] quotes the title less its dollar signs and commas. *)
Lemma kbb_url_search (title q : string) :
  ~ has_year 1990 2029 title \/ ~ has_known_make title ->
  SheetsManager.quote (PyStr.remove_char "," (PyStr.remove_char "$" title)) = Some q ->
  SheetsManager.generate_kbb_lookup_url title = Some (SheetsManager.search_url ++ q).
Proof.
  intros H Hq.
  unfold SheetsManager.generate_kbb_lookup_url, SheetsManager.generate_kbb_lookup_url_try.
  destruct (find_model_returns title
              (SheetsManager.find_make (PyStr.lower title) SheetsManager.common_makes))
    as [model ->].
  destruct H as [Hyear|Hmake].
  - destruct (Re.search_year "9" title) as [g|] eqn:Eg.
    + exfalso. apply Hyear.
      destruct (search_year_from_sound "9" title eq_refl false g Eg)
        as (pre & post & ? & ? & ? & ? & ? & ?).
      exists pre, g, post. auto 10.
    + cbn [default from_option PyStr.truthy andb]. now rewrite Hq.
  - rewrite find_make_none.
    + rewrite andb_false_r. now rewrite Hq.
    + intros make Hin.
      destruct (PyStr.contains (PyStr.lower make) (PyStr.lower title)) eqn:E; [|reflexivity].
      exfalso. apply Hmake. exists make. auto.
Qed.

(** The years that the lookup accepts start at 1990, those of
    [_extract_year] at 1970: "1985 Toyota Camry" has a listing year and
    still gets the search URL. *)
Lemma kbb_year_window (title : string) :
  (forall g, Re.search_year "9" title = Some g -> 1990 <= int_of_digits g <= 2029)
  /\ (forall y, _extract_year title = Some y -> 1970 <= y <= 2029)
  /\ _extract_year "1985 Toyota Camry" = Some 1985
  /\ SheetsManager.generate_kbb_lookup_url "1985 Toyota Camry"
     = Some (SheetsManager.search_url ++ "1985%20Toyota%20Camry").
Proof.
  split; [|split; [|split]].
  - intros g Hg.
    destruct (search_year_from_sound "9" title eq_refl false g Hg)
      as (pre & post & _ & _ & _ & Hwin & _). exact Hwin.
  - intros y Hy. unfold _extract_year in Hy.
    destruct (Re.search_year "7" title) as [g|] eqn:Eg; [|discriminate].
    injection Hy as <-.
    destruct (search_year_from_sound "7" title eq_refl false g Eg)
      as (pre & post & _ & _ & _ & Hwin & _). exact Hwin.
  - reflexivity.
  - vm_compute. reflexivity.
Qed.

(** C10, the code at a title that holds a surrogate: in
    [title_with_surrogate], the text "Runs great " followed by the
    first half of an emoji, there is no year and no make; the body of
    the [try] quotes the title and raises, the handler quotes the title
    again and raises too, and the error leaves
    [generate_kbb_lookup_url]: no URL is returned. *)
Theorem kbb_url_raises_on_surrogate :
  PyStr.has_surrogate title_with_surrogate = true
  /\ SheetsManager.generate_kbb_lookup_url_try title_with_surrogate = None
  /\ SheetsManager.quote title_with_surrogate = None
  /\ SheetsManager.generate_kbb_lookup_url title_with_surrogate = None.
Proof. vm_compute. repeat split; reflexivity. Qed.

(* ===================================================================== *)
(** ** Posting times *)
(* ===================================================================== *)

Section Digits.

Lemma digit_char_val (c : ascii) :
  PyStr.is_digit c = true -> PyDatetime.digit_char (digit_val c) = c.
Proof.
  unfold PyStr.is_digit, PyStr.code, PyDatetime.digit_char, digit_val. intros H.
  apply andb_true_iff in H as [H1 H2]. apply Nat.leb_le in H1.
  replace (48 + Z.to_nat (Z.of_nat (nat_of_ascii c) - 48))%nat with (nat_of_ascii c) by lia.
  apply ascii_nat_embedding.
Qed.

Lemma read_digits_2 (c1 c2 : ascii) (r : string) :
  PyStr.is_digit c1 = true -> PyStr.is_digit c2 = true ->
  PyDatetime.read_digits 2 (String c1 (String c2 r)) = Some (num2 c1 c2, r).
Proof.
  intros H1 H2. unfold PyDatetime.read_digits, num2. simpl. rewrite H1, H2.
  repeat f_equal; try lia.
Qed.

Lemma read_digits_4 (c1 c2 c3 c4 : ascii) (r : string) :
  PyStr.is_digit c1 = true -> PyStr.is_digit c2 = true ->
  PyStr.is_digit c3 = true -> PyStr.is_digit c4 = true ->
  PyDatetime.read_digits 4 (String c1 (String c2 (String c3 (String c4 r))))
  = Some (num4 c1 c2 c3 c4, r).
Proof.
  intros H1 H2 H3 H4. unfold PyDatetime.read_digits, num4. simpl.
  rewrite H1, H2, H3, H4. repeat f_equal; try lia.
Qed.

Lemma pad2_num2 (c1 c2 : ascii) :
  PyStr.is_digit c1 = true -> PyStr.is_digit c2 = true ->
  PyDatetime.pad2 (num2 c1 c2) = String c1 (String c2 EmptyString).
Proof.
  intros H1 H2. pose proof (is_digit_val _ H1). pose proof (is_digit_val _ H2).
  unfold PyDatetime.pad2, num2.
  replace ((10 * digit_val c1 + digit_val c2) / 10 mod 10) with (digit_val c1)
    by (Z.div_mod_to_equations; lia).
  replace ((10 * digit_val c1 + digit_val c2) mod 10) with (digit_val c2)
    by (Z.div_mod_to_equations; lia).
  now rewrite !digit_char_val.
Qed.

Lemma pad4_num4 (c1 c2 c3 c4 : ascii) :
  PyStr.is_digit c1 = true -> PyStr.is_digit c2 = true ->
  PyStr.is_digit c3 = true -> PyStr.is_digit c4 = true ->
  PyDatetime.pad4 (num4 c1 c2 c3 c4)
  = String c1 (String c2 (String c3 (String c4 EmptyString))).
Proof.
  intros H1 H2 H3 H4.
  pose proof (is_digit_val _ H1). pose proof (is_digit_val _ H2).
  pose proof (is_digit_val _ H3). pose proof (is_digit_val _ H4).
  unfold PyDatetime.pad4, PyDatetime.pad2, num4.
  set (n := 1000 * digit_val c1 + 100 * digit_val c2 + 10 * digit_val c3 + digit_val c4).
  replace (n / 1000 mod 10) with (digit_val c1) by (subst n; Z.div_mod_to_equations; lia).
  replace (n / 100 mod 10) with (digit_val c2) by (subst n; Z.div_mod_to_equations; lia).
  replace (n / 10 mod 10) with (digit_val c3) by (subst n; Z.div_mod_to_equations; lia).
  replace (n mod 10) with (digit_val c4) by (subst n; Z.div_mod_to_equations; lia).
  now rewrite !digit_char_val.
Qed.

(** A digit is none of the characters that steer [parse_posting_time]. *)
Lemma digit_is_not (x c : ascii) :
  PyStr.is_digit x = false -> PyStr.is_digit c = true -> Ascii.eqb x c = false.
Proof.
  intros Hx Hc. destruct (Ascii.eqb x c) eqn:E; [|reflexivity].
  apply Ascii.eqb_eq in E. congruence.
Qed.

(** From the year 1000 on, [%Y] prints four digits. *)
Lemma year_text_four (y : Z) :
  1000 <= y -> PyDatetime.year_text y = PyDatetime.pad4 y.
Proof.
  intros H. unfold PyDatetime.year_text.
  rewrite !(fun a => proj2 (Z.ltb_ge y a)) by lia. reflexivity.
Qed.

End Digits.

Section Canonical.

Variables y1 y2 y3 y4 m1 m2 d1 d2 h1 h2 i1 i2 s1 s2 : ascii.
Hypothesis digits :
  forallb PyStr.is_digit [y1; y2; y3; y4; m1; m2; d1; d2; h1; h2; i1; i2; s1; s2] = true.

Let text := timestamp_text y1 y2 y3 y4 m1 m2 d1 d2 h1 h2 i1 i2 s1 s2.

Ltac digit_facts :=
  let H := fresh "H" in
  pose proof digits as H; simpl in H;
  repeat (apply andb_true_iff in H; destruct H as [? H]); clear H.

(** Comparisons of a character that is no digit with a digit are [false]. *)
Ltac kill_digits :=
  repeat match goal with
         | H : PyStr.is_digit ?c = true |- context [Ascii.eqb ?x ?c] =>
             rewrite (digit_is_not x c ltac:(first [reflexivity | assumption]) H)
         end.

Lemma text_without (x : ascii) :
  PyStr.is_digit x = false -> Ascii.eqb x "-" = false -> Ascii.eqb x " " = false ->
  Ascii.eqb x ":" = false ->
  PyStr.contains (String x EmptyString) text = false.
Proof.
  intros Hx Hdash Hsp Hcolon. digit_facts.
  unfold text, timestamp_text. cbn [string_of_list_ascii PyStr.contains PyStr.startswith].
  kill_digits. rewrite Hdash, Hsp, Hcolon. reflexivity.
Qed.

Lemma text_with_dash_and_colon :
  PyStr.contains "-" text && PyStr.contains ":" text = true.
Proof.
  digit_facts.
  unfold text, timestamp_text. cbn [string_of_list_ascii PyStr.contains PyStr.startswith].
  kill_digits. reflexivity.
Qed.

Lemma iso_time_text :
  PyDatetime.iso_time
    (string_of_list_ascii [h1; h2; ":"; i1; i2; ":"; s1; s2]%char)
  = Some (num2 h1 h2, num2 i1 i2, num2 s1 s2).
Proof.
  digit_facts. unfold PyDatetime.iso_time.
  assert (Hsplit : PyDatetime.split_at_sign
                     (string_of_list_ascii [h1; h2; ":"; i1; i2; ":"; s1; s2]%char)
                   = (string_of_list_ascii [h1; h2; ":"; i1; i2; ":"; s1; s2]%char, None)).
  { cbn [string_of_list_ascii PyDatetime.split_at_sign].
    repeat match goal with
           | H : PyStr.is_digit ?c = true |- context [Ascii.eqb ?c ?x] =>
               rewrite (Ascii.eqb_sym c x),
                 (digit_is_not x c ltac:(first [reflexivity | assumption]) H)
           end.
    reflexivity. }
  rewrite Hsplit. unfold PyDatetime.iso_hh_mm_ss. cbn [string_of_list_ascii].
  rewrite !read_digits_2 by assumption. reflexivity.
Qed.

Lemma fromisoformat_text :
  PyDatetime.fromisoformat text
  = PyDatetime.make (num4 y1 y2 y3 y4) (num2 m1 m2) (num2 d1 d2)
      (num2 h1 h2) (num2 i1 i2) (num2 s1 s2).
Proof.
  digit_facts. unfold PyDatetime.fromisoformat, text, timestamp_text.
  cbn [string_of_list_ascii].
  rewrite read_digits_4 by assumption.
  rewrite read_digits_2 by assumption.
  rewrite read_digits_2 by assumption.
  change (String h1 (String h2 (String ":" (String i1 (String i2
            (String ":" (String s1 (String s2 EmptyString))))))))
    with (string_of_list_ascii [h1; h2; ":"; i1; i2; ":"; s1; s2]%char).
  now rewrite iso_time_text.
Qed.

Lemma strftime_text :
  1000 <= num4 y1 y2 y3 y4 ->
  PyDatetime.strftime_canonical
    (PyDatetime.mk_datetime (num4 y1 y2 y3 y4) (num2 m1 m2) (num2 d1 d2)
       (num2 h1 h2) (num2 i1 i2) (num2 s1 s2))
  = text.
Proof.
  intros Hfour.
  digit_facts. unfold PyDatetime.strftime_canonical. cbn [PyDatetime.year PyDatetime.month
    PyDatetime.day PyDatetime.hour PyDatetime.minute PyDatetime.second].
  rewrite (year_text_four _ Hfour).
  rewrite pad4_num4, !pad2_num2 by assumption. reflexivity.
Qed.

(** What [parse_posting_time] makes of a canonical text: the print of
    the datetime that the text names. *)
Lemma parse_posting_time_reprints (current_year : Z) :
  PyDatetime.valid_fields (num4 y1 y2 y3 y4) (num2 m1 m2) (num2 d1 d2)
    (num2 h1 h2) (num2 i1 i2) (num2 s1 s2) = true ->
  Utils.parse_posting_time current_year (Some text)
  = PyDatetime.strftime_canonical
      (PyDatetime.mk_datetime (num4 y1 y2 y3 y4) (num2 m1 m2) (num2 d1 d2)
         (num2 h1 h2) (num2 i1 i2) (num2 s1 s2)).
Proof.
  intros Hvalid. unfold Utils.parse_posting_time.
  assert (Ht : PyStr.truthy text = true) by reflexivity.
  rewrite Ht. cbn [negb].
  rewrite (text_without "+") by reflexivity.
  unfold Utils.parse_datetime.
  rewrite (text_without "T") by reflexivity.
  rewrite text_with_dash_and_colon, fromisoformat_text.
  unfold PyDatetime.make. now rewrite Hvalid.
Qed.

Lemma parse_posting_time_text (current_year : Z) :
  PyDatetime.valid_fields (num4 y1 y2 y3 y4) (num2 m1 m2) (num2 d1 d2)
    (num2 h1 h2) (num2 i1 i2) (num2 s1 s2) = true ->
  1000 <= num4 y1 y2 y3 y4 ->
  Utils.parse_posting_time current_year (Some text) = text.
Proof.
  intros Hvalid Hfour. rewrite (parse_posting_time_reprints _ Hvalid).
  now apply strftime_text.
Qed.

End Canonical.

Lemma string_of_list_ascii_inv (s : string) :
  string_of_list_ascii (list_ascii_of_string s) = s.
Proof. apply string_of_list_ascii_of_string. Qed.

(** C9, the code at canonical timestamps of a year below 1000: the texts
    "0999-12-31 23:59:59" and "0001-01-01 00:00:00" have the form
    YYYY-MM-DD HH:MM:SS and name valid datetimes; [fromisoformat] reads
    them and [strftime] prints the year without its leading zeros, so
    [parse_posting_time] returns "999-12-31 23:59:59" and
    "1-01-01 00:00:00", not the texts it was given.  The timestamp
    "2024-03-01 10:00:00" of the specification comes back as it is. *)
Theorem parse_posting_time_drops_leading_zeros :
  is_canonical "0999-12-31 23:59:59" = true
  /\ Utils.parse_posting_time 2025 (Some "0999-12-31 23:59:59") = "999-12-31 23:59:59"
  /\ is_canonical "0001-01-01 00:00:00" = true
  /\ Utils.parse_posting_time 2025 (Some "0001-01-01 00:00:00") = "1-01-01 00:00:00"
  /\ Utils.parse_posting_time 2025 (Some "2024-03-01 10:00:00") = "2024-03-01 10:00:00".
Proof. vm_compute. repeat split; reflexivity. Qed.

(** What [parse_posting_time] returns, case by case: "N/A" for no input,
    the canonical print of a datetime, or the input cut at its first
    plus sign. *)
Lemma parse_posting_time_cases (current_year : Z) (time_string : option string) :
  match time_string with
  | None => Utils.parse_posting_time current_year time_string = "N/A"
  | Some s =>
      if PyStr.truthy s then
        (exists dt, Utils.parse_posting_time current_year time_string
                    = PyDatetime.strftime_canonical dt)
        \/ Utils.parse_posting_time current_year time_string
           = (if PyStr.contains "+" s then Utils.before_plus s else s)
      else Utils.parse_posting_time current_year time_string = "N/A"
  end.
Proof.
  destruct time_string as [s|]; [|reflexivity].
  unfold Utils.parse_posting_time.
  destruct (PyStr.truthy s); [|reflexivity]. cbn [negb].
  destruct (Utils.parse_datetime current_year _) as [dt|]; eauto.
Qed.

(** Without a plus sign in it, an input that no pattern parses comes back
    unchanged. *)
Lemma parse_posting_time_unparsed (current_year : Z) (s : string) :
  PyStr.truthy s = true -> PyStr.contains "+" s = false ->
  Utils.parse_datetime current_year s = None ->
  Utils.parse_posting_time current_year (Some s) = s.
Proof.
  intros Ht Hplus Hnone. unfold Utils.parse_posting_time.
  now rewrite Ht, Hplus, Hnone.
Qed.

(** C7, the code at two inputs that no pattern parses and that hold a
    plus sign: neither the ISO reader nor any of the twelve formats
    accepts "2024-02-30T10:00:00+00:00" or "3+ days ago", and
    [parse_posting_time] returns them cut at the plus sign, not
    unchanged. *)
Theorem parse_posting_time_cuts_at_plus :
  let unparsed (s : string) :=
    PyDatetime.fromisoformat s = None
    /\ Forall (fun fmt => PyDatetime.strptime s fmt = None)
              (Utils.slash_formats ++ Utils.text_formats) in
  unparsed "2024-02-30T10:00:00+00:00"
  /\ Utils.parse_posting_time 2025 (Some "2024-02-30T10:00:00+00:00") = "2024-02-30T10:00:00"
  /\ unparsed "3+ days ago"
  /\ Utils.parse_posting_time 2025 (Some "3+ days ago") = "3".
Proof.
  assert (Hall : forall s,
            forallb (fun fmt => match PyDatetime.strptime s fmt with
                                | None => true
                                | Some _ => false
                                end) (Utils.slash_formats ++ Utils.text_formats) = true ->
            Forall (fun fmt => PyDatetime.strptime s fmt = None)
                   (Utils.slash_formats ++ Utils.text_formats)).
  { intros s H. apply List.Forall_forall. intros fmt Hin.
    rewrite forallb_forall in H. specialize (H fmt Hin).
    now destruct (PyDatetime.strptime s fmt). }
  cbv zeta. split; [split|split; [|split; [split|]]].
  - vm_compute. reflexivity.
  - apply Hall. vm_compute. reflexivity.
  - vm_compute. reflexivity.
  - vm_compute. reflexivity.
  - apply Hall. vm_compute. reflexivity.
  - vm_compute. reflexivity.
Qed.

(* ===================================================================== *)
(** ** Adding a batch of listings *)
(* ===================================================================== *)

Section AddListingsFacts.

Variable faults : nat -> bool.
Variable now : PyDatetime.datetime.

(** The loop only stages rows: what is committed stays as it is. *)
Lemma add_one_store (listing_data : listing_dict) (w w' : Session.world)
    (r : Session.outcome unit) :
  add_one faults now listing_data w = (r, w') ->
  Session.store w' = Session.store w.
Proof.
  unfold add_one.
  destruct (negb (PyStr.otruthy (get_default listing_data "url" ""))).
  { intros [= _ <-]. reflexivity. }
  unfold Session.bind, Session.first_by_url, Session.round_trip, Session.bind.
  destruct (faults (Session.trips w)).
  { intros [= _ <-]. reflexivity. }
  cbn [Session.store Session.pending].
  destruct (find _ _).
  { intros [= _ <-]. reflexivity. }
  destruct (get_default listing_data "title" "").
  - intros [= _ <-]. reflexivity.
  - intros [= _ <-]. reflexivity.
Qed.

Lemma add_all_store (listings : list listing_dict) :
  forall (w w' : Session.world) (r : Session.outcome unit),
    add_all faults now listings w = (r, w') ->
    Session.store w' = Session.store w.
Proof.
  induction listings as [|l ls IH]; intros w w' r H; simpl in H.
  - injection H as _ <-. reflexivity.
  - unfold Session.bind in H.
    destruct (add_one faults now l w) as [[[]|e] w1] eqn:E1.
    + rewrite (IH _ _ _ H). eapply add_one_store; eauto.
    + injection H as _ <-. eapply add_one_store; eauto.
Qed.

(** When the body of the [try] raises, nothing has been committed. *)
Lemma add_listings_try_raises (listings : list listing_dict)
    (w w' : Session.world) (e : Session.exn) :
  add_listings_try faults now listings w = (Session.Raises e, w') ->
  Session.store w' = Session.store w.
Proof.
  unfold add_listings_try, Session.bind. intros H.
  destruct (add_all faults now listings w) as [[[]|e1] w1] eqn:E1.
  - pose proof (add_all_store _ _ _ _ E1) as Hs.
    unfold Session.commit, Session.bind, Session.round_trip in H.
    destruct (faults (Session.trips w1)); [|discriminate].
    injection H as _ <-. exact Hs.
  - injection H as _ <-. eapply add_all_store; eauto.
Qed.

(** The loop only adds to what is staged. *)
Lemma add_one_pending (listing_data : listing_dict) (w w' : Session.world)
    (r : Session.outcome unit) :
  add_one faults now listing_data w = (r, w') ->
  exists rows, Session.pending w' = (Session.pending w ++ rows)%list.
Proof.
  unfold add_one.
  destruct (negb (PyStr.otruthy (get_default listing_data "url" ""))).
  { intros [= _ <-]. exists []. now rewrite app_nil_r. }
  unfold Session.bind, Session.first_by_url, Session.round_trip, Session.bind.
  destruct (faults (Session.trips w)).
  { intros [= _ <-]. exists []. simpl. now rewrite app_nil_r. }
  cbn [Session.store Session.pending].
  destruct (find _ _).
  { intros [= _ <-]. exists []. simpl. now rewrite app_nil_r. }
  destruct (get_default listing_data "title" "").
  - intros [= _ <-]. eexists. reflexivity.
  - intros [= _ <-]. exists []. simpl. now rewrite app_nil_r.
Qed.

Lemma add_all_pending (listings : list listing_dict) :
  forall (w w' : Session.world) (r : Session.outcome unit),
    add_all faults now listings w = (r, w') ->
    exists rows, Session.pending w' = (Session.pending w ++ rows)%list.
Proof.
  induction listings as [|l ls IH]; intros w w' r H; simpl in H.
  - injection H as _ <-. exists []. now rewrite app_nil_r.
  - unfold Session.bind in H.
    destruct (add_one faults now l w) as [[[]|e] w1] eqn:E1.
    + destruct (add_one_pending _ _ _ _ E1) as [rows1 H1].
      destruct (IH _ _ _ H) as [rows2 H2].
      exists (rows1 ++ rows2)%list. now rewrite H2, H1, <- app_assoc.
    + injection H as _ <-. eapply add_one_pending; eauto.
Qed.

(** When the body of the [try] returns, the rows it staged are committed
    after the rows that were there, and nothing stays staged. *)
Lemma add_listings_try_returns (listings : list listing_dict) (w w' : Session.world) :
  Session.pending w = [] ->
  add_listings_try faults now listings w = (Session.Returns tt, w') ->
  exists rows,
    car_listings (Session.store w') = (car_listings (Session.store w) ++ rows)%list
    /\ market_analysis (Session.store w') = market_analysis (Session.store w)
    /\ Session.pending w' = [].
Proof.
  unfold add_listings_try, Session.bind. intros Hp H.
  destruct (add_all faults now listings w) as [[[]|e1] w1] eqn:E1; [|discriminate].
  pose proof (add_all_store _ _ _ _ E1) as Hs.
  destruct (add_all_pending _ _ _ _ E1) as [rows Hrows].
  unfold Session.commit, Session.bind, Session.round_trip in H.
  destruct (faults (Session.trips w1)); [discriminate|].
  injection H as <-. exists rows. cbn. rewrite Hs, Hrows, Hp. auto.
Qed.

End AddListingsFacts.

(** C6, the code at a batch whose second round trip to the database
    fails: the body of the [try] of [add_listings] raises, nothing of
    the batch is committed and nothing stays staged, and [add_listings]
    returns to its caller as after a success: the failure is not
    surfaced. *)
Lemma add_listings_swallows_the_failure :
  let faults := fun k => Nat.eqb k 1 in
  let w := Session.mk_world (mk_database three_camrys []) [] 0 in
  fst (add_listings_try faults sample_time batch_of_two w)
  = Session.Raises Session.OperationalError
  /\ fst (add_listings faults sample_time batch_of_two w) = Session.Returns tt
  /\ Session.store (snd (add_listings faults sample_time batch_of_two w))
     = Session.store w
  /\ Session.pending (snd (add_listings faults sample_time batch_of_two w)) = [].
Proof. vm_compute. repeat split; reflexivity. Qed.

(** Whenever the body of [add_listings] fails partway, be it in the
    loop or at the commit, no listing of the batch is committed: the
    store is as before the call and nothing stays staged; the handler
    logs the failure and rolls back without raising again, so
    [add_listings] returns normally. *)
Theorem add_listings_rolls_back
    (faults : nat -> bool) (now : PyDatetime.datetime)
    (listings : list listing_dict) (w w1 : Session.world) (e : Session.exn) :
  Session.pending w = [] ->
  add_listings_try faults now listings w = (Session.Raises e, w1) ->
  exists w2,
    add_listings faults now listings w = (Session.Returns tt, w2)
    /\ Session.store w2 = Session.store w
    /\ Session.pending w2 = [].
Proof.
  intros Hpending Htry. destruct listings as [|l ls].
  - exists w. repeat split; auto.
  - unfold add_listings, Session.try_except. rewrite Htry.
    eexists. split; [reflexivity|]. split; [|reflexivity].
    simpl. eapply add_listings_try_raises; eauto.
Qed.

Lemma add_listings_rolls_back_witness :
  exists w2,
    add_listings (fun k => Nat.eqb k 1) sample_time batch_of_two
      (Session.mk_world (mk_database three_camrys []) [] 0)
    = (Session.Returns tt, w2)
    /\ Session.store w2 = mk_database three_camrys []
    /\ Session.pending w2 = [].
Proof.
  refine (add_listings_rolls_back (fun k => Nat.eqb k 1) sample_time batch_of_two
            (Session.mk_world (mk_database three_camrys []) [] 0)
            (snd (add_listings_try (fun k => Nat.eqb k 1) sample_time batch_of_two
                    (Session.mk_world (mk_database three_camrys []) [] 0)))
            Session.OperationalError _ _).
  - reflexivity.
  - vm_compute. reflexivity.
Defined.

(** A batch that the database takes: the two listings are stored with the
    attributes read from their titles. *)
Example add_listings_stores :
  let w := Session.mk_world (mk_database three_camrys []) [] 0 in
  let w' := snd (add_listings (fun _ => false) sample_time batch_of_two w) in
  map (fun l => (CarListing.url l, CarListing.price l, CarListing.year l,
                 CarListing.make l, CarListing.model l))
      (skipn 3 (car_listings (Session.store w')))
  = [ ("https://example.org/7.html", Some "6500", Some 2014, Some "Honda", Some "Civic");
      ("https://example.org/8.html", None, Some 2016, Some "Ford", Some "Focus") ]
  /\ map CarListing.posting_time (skipn 3 (car_listings (Session.store w')))
     = [ PyDatetime.make 2024 3 1 9 30 0; None ].
Proof. vm_compute. split; reflexivity. Qed.

(** The same batch a second time adds nothing: the links are known. *)
Example add_listings_twice :
  let w := Session.mk_world (mk_database three_camrys []) [] 0 in
  let w1 := snd (add_listings (fun _ => false) sample_time batch_of_two w) in
  let w2 := snd (add_listings (fun _ => false) sample_time batch_of_two w1) in
  Session.store w2 = Session.store w1.
Proof. vm_compute. reflexivity. Qed.

(** A title that is [None] aborts the whole batch, the listing before it
    included. *)
Example add_listings_none_title :
  let w := Session.mk_world (mk_database three_camrys []) [] 0 in
  let batch := (batch_of_two
                ++ [list_to_map [("title", None);
                                 ("url", Some "https://example.org/9.html")]])%list in
  fst (add_listings_try (fun _ => false) sample_time batch w)
  = Session.Raises Session.TypeError
  /\ add_listings (fun _ => false) sample_time batch w
     = (Session.Returns tt, Session.mk_world (mk_database three_camrys []) [] 3).
Proof. vm_compute. split; reflexivity. Qed.

(* ===================================================================== *)
(** ** Market analysis *)
(* ===================================================================== *)

Section Groups.

Lemma opt_eqb_eq (a b : option string) : opt_eqb a b = true <-> a = b.
Proof.
  destruct a as [x|], b as [y|]; simpl; try (split; congruence).
  rewrite String.eqb_eq. split; congruence.
Qed.

Lemma key_eqb_eq (k1 k2 : group_key) : key_eqb k1 k2 = true <-> k1 = k2.
Proof.
  destruct k1 as [a1 b1], k2 as [a2 b2]. unfold key_eqb. simpl.
  rewrite andb_true_iff, !opt_eqb_eq. split; [intros [-> ->]; reflexivity | intros [= -> ->]; auto].
Qed.

Lemma key_eqb_refl (k : group_key) : key_eqb k k = true.
Proof. now apply key_eqb_eq. Qed.

Lemma in_group_key (make model : string) (l : CarListing.t) :
  in_group make model l = key_eqb (key_of l) (Some make, Some model).
Proof. reflexivity. Qed.

(** The keys of the query are the keys of the listings, once each. *)
Lemma distinct_keys_in (ls : list CarListing.t) :
  forall (seen : list group_key) (k : group_key),
    In k (distinct_keys seen ls)
    <-> (exists l, In l ls /\ key_of l = k) /\ existsb (key_eqb k) seen = false.
Proof.
  induction ls as [|l r IH]; intros seen k; simpl.
  - split; [intros [] | intros [(l & [] & _) _]].
  - destruct (existsb (key_eqb (key_of l)) seen) eqn:E.
    + rewrite IH. split.
      * intros [(l' & Hin & Hk) Hs]. split; eauto.
      * intros [(l' & [<-|Hin] & Hk) Hs]; [|split; eauto].
        subst k. congruence.
    + simpl. rewrite IH. simpl. split.
      * intros [<-|[(l' & Hin & Hk) Hs]].
        -- split; eauto.
        -- apply orb_false_iff in Hs as [_ Hs]. split; eauto.
      * intros [(l' & [<-|Hin] & Hk) Hs]; [left; exact Hk|].
        destruct (key_eqb k (key_of l)) eqn:F.
        -- left. apply key_eqb_eq in F. auto.
        -- right. split; [eauto | exact Hs].
Qed.

Lemma distinct_keys_nodup (ls : list CarListing.t) :
  forall seen, List.NoDup (distinct_keys seen ls).
Proof.
  induction ls as [|l r IH]; intros seen; simpl; [constructor|].
  destruct (existsb (key_eqb (key_of l)) seen); [apply IH|].
  constructor; [|apply IH].
  rewrite distinct_keys_in. intros [_ H]. simpl in H.
  now rewrite key_eqb_refl in H.
Qed.

End Groups.

Lemma omap_cons {A B} (f : A -> option B) (x : A) (l : list A) :
  omap f (x :: l) = match f x with Some y => y :: omap f l | None => omap f l end.
Proof. reflexivity. Qed.

Section RowsWritten.

Variable now : PyDatetime.datetime.
Variable ls : list CarListing.t.

Lemma parse_prices_priced (make model : string) :
  parse_prices (priced_listings ls make model) = valid_prices ls make model.
Proof.
  unfold priced_listings, valid_prices.
  induction ls as [|l r IH]; [reflexivity|]. cbn [List.filter].
  fold (in_group make model l).
  destruct (in_group make model l); cbn [andb]; [|exact IH].
  rewrite omap_cons. unfold parsed_price at 1.
  destruct (CarListing.price l) as [p|] eqn:Ep.
  - cbn [parse_prices]. rewrite Ep. destruct (price_number p); now rewrite IH.
  - exact IH.
Qed.

Lemma years_of_priced (make model : string) :
  years_of (priced_listings ls make model) = priced_group_years ls make model.
Proof.
  unfold priced_listings, priced_group_years, has_price.
  induction ls as [|l r IH]; [reflexivity|]. cbn [List.filter].
  fold (in_group make model l).
  destruct (in_group make model l && _); [|exact IH].
  rewrite omap_cons. cbn [years_of]. unfold known_year at 1.
  destruct (CarListing.year l) as [y|]; [|exact IH].
  destruct (y =? 0); now rewrite IH.
Qed.

Lemma valid_prices_count (make model : string) :
  Z.of_nat (length (valid_prices ls make model)) <= count_group ls (Some make, Some model).
Proof.
  unfold valid_prices, count_group. apply inj_le.
  induction ls as [|l r IH]; [reflexivity|]. cbn [List.filter].
  rewrite <- in_group_key.
  destruct (in_group make model l); [|exact IH].
  rewrite omap_cons. destruct (parsed_price l); cbn [length]; lia.
Qed.

Lemma valid_prices_member (make model : string) :
  valid_prices ls make model <> [] ->
  exists l, In l ls /\ key_of l = (Some make, Some model).
Proof.
  unfold valid_prices.
  induction ls as [|l r IH]; [intros H; now contradiction H|]. cbn [List.filter].
  destruct (in_group make model l) eqn:E.
  - intros _. exists l. split; [now left|]. rewrite in_group_key in E. now apply key_eqb_eq.
  - intros H. destruct (IH H) as (l' & Hin & Hk). exists l'. split; [now right | exact Hk].
Qed.

(** What the statistics of a group are made of. *)
Lemma analyse_some (make model : string) (listings : list CarListing.t)
    (a : MarketAnalysis.t) :
  analyse now make model listings = Some a ->
  let prices := parse_prices listings in
  (3 <= length prices)%nat
  /\ a = MarketAnalysis.mk make model
           (min_year (years_of listings)) (max_year (years_of listings))
           (PyFloat.div (PyFloat.sum prices) (PyFloat.of_Z (Z.of_nat (length prices))))
           (nth (length prices / 2) (PyFloat.sorted prices) S754_nan)
           (default S754_nan (PyFloat.min prices))
           (default S754_nan (PyFloat.max prices))
           (Z.of_nat (length prices)) now.
Proof.
  unfold analyse. cbv zeta.
  destruct (Z.of_nat (length (parse_prices listings)) <? 3) eqn:E; [discriminate|].
  apply Z.ltb_ge in E. intros [= <-]. split; [lia|].
  replace (Z.to_nat (Z.of_nat (length (parse_prices listings)) / 2))
    with (length (parse_prices listings) / 2)%nat; [reflexivity|].
  change 2 with (Z.of_nat 2). rewrite <- Nat2Z.inj_div. now rewrite Nat2Z.id.
Qed.

Lemma analyse_is_some (make model : string) (listings : list CarListing.t) :
  (3 <= length (parse_prices listings))%nat ->
  exists a, analyse now make model listings = Some a.
Proof.
  intros H. unfold analyse. cbv zeta.
  destruct (Z.of_nat (length (parse_prices listings)) <? 3) eqn:E; [|eauto].
  apply Z.ltb_lt in E. lia.
Qed.

(** The rows of a run: one for each make and model, both present, with
    a group of at least three listings of which at least three have a
    price that parses. *)
Lemma rows_written_in (a : MarketAnalysis.t) :
  In a (rows_written now ls)
  <-> exists make model,
        make <> "" /\ model <> ""
        /\ (exists l, In l ls /\ key_of l = (Some make, Some model))
        /\ 3 <= count_group ls (Some make, Some model)
        /\ analyse now make model (priced_listings ls make model) = Some a.
Proof.
  unfold rows_written. rewrite <- list_elem_of_In, list_elem_of_omap.
  split.
  - intros (g & Hg & Ha). apply list_elem_of_In in Hg.
    unfold make_model_counts in Hg.
    apply filter_In in Hg as [Hg Hc]. apply in_map_iff in Hg as (k & <- & Hk).
    apply distinct_keys_in in Hk as [Hmem _].
    destruct k as [[make|] [model|]]; simpl in Ha, Hc; try discriminate.
    + destruct make as [|c1 make]; [discriminate|].
      destruct model as [|c2 model]; [discriminate|].
      simpl in Ha. exists (String c1 make), (String c2 model).
      repeat split; try discriminate; auto. now apply Z.leb_le.
    + destruct make; discriminate.
  - intros (make & model & Hmake & Hmodel & Hmem & Hc & Ha).
    exists (Some make, Some model, count_group ls (Some make, Some model)). split.
    + apply list_elem_of_In. unfold make_model_counts.
      apply filter_In. split; [|now apply Z.leb_le].
      apply in_map_iff. exists (Some make, Some model). split; [reflexivity|].
      apply distinct_keys_in. split; [exact Hmem | reflexivity].
    + destruct make; [congruence|]. destruct model; [congruence|]. exact Ha.
Qed.

End RowsWritten.

Section YearRange.

Lemma fold_min_le (r : list Z) : forall y, fold_left Z.min r y <= y.
Proof.
  induction r as [|x r IH]; intros y; simpl; [lia|].
  specialize (IH (Z.min y x)). lia.
Qed.

Lemma fold_min_lower (r : list Z) :
  forall y z, In z r -> fold_left Z.min r y <= z.
Proof.
  induction r as [|x r IH]; intros y z Hz; simpl; [contradiction|].
  destruct Hz as [<-|Hz]; [|now apply IH].
  pose proof (fold_min_le r (Z.min y x)). lia.
Qed.

Lemma fold_min_in (r : list Z) : forall y, In (fold_left Z.min r y) (y :: r).
Proof.
  induction r as [|x r IH]; intros y; simpl; [now left|].
  destruct (IH (Z.min y x)) as [H|H]; [|now right; right].
  destruct (Z.min_spec y x) as [[_ E]|[_ E]]; [left | right; left]; congruence.
Qed.

Lemma fold_max_ge (r : list Z) : forall y, y <= fold_left Z.max r y.
Proof.
  induction r as [|x r IH]; intros y; simpl; [lia|].
  specialize (IH (Z.max y x)). lia.
Qed.

Lemma fold_max_upper (r : list Z) :
  forall y z, In z r -> z <= fold_left Z.max r y.
Proof.
  induction r as [|x r IH]; intros y z Hz; simpl; [contradiction|].
  destruct Hz as [<-|Hz]; [|now apply IH].
  pose proof (fold_max_ge r (Z.max y x)). lia.
Qed.

Lemma fold_max_in (r : list Z) : forall y, In (fold_left Z.max r y) (y :: r).
Proof.
  induction r as [|x r IH]; intros y; simpl; [now left|].
  destruct (IH (Z.max y x)) as [H|H]; [|now right; right].
  destruct (Z.max_spec y x) as [[_ E]|[_ E]]; [right; left | left]; congruence.
Qed.

(** [min_year] and [max_year] are the least and the greatest year. *)
Lemma min_max_year (years : list Z) :
  match min_year years, max_year years with
  | Some lo, Some hi =>
      In lo years /\ In hi years /\ forall y, In y years -> lo <= y <= hi
  | None, None => years = []
  | _, _ => False
  end.
Proof.
  destruct years as [|y r]; simpl; [reflexivity|].
  split; [apply fold_min_in|]. split; [apply fold_max_in|].
  intros z [<-|Hz].
  - split; [apply fold_min_le | apply fold_max_ge].
  - split; [now apply fold_min_lower | now apply fold_max_upper].
Qed.

End YearRange.

(* ===================================================================== *)
(** ** From the rows of a run to the table *)
(* ===================================================================== *)

Section Upsert.

Lemma same_key_eq (r a : MarketAnalysis.t) :
  String.eqb (MarketAnalysis.make r) (MarketAnalysis.make a)
  && String.eqb (MarketAnalysis.model r) (MarketAnalysis.model a) = true
  <-> row_key r = row_key a.
Proof.
  unfold row_key. rewrite andb_true_iff, !String.eqb_eq.
  split; [intros [-> ->]; reflexivity | intros [= -> ->]; auto].
Qed.

Lemma upsert_in (a : MarketAnalysis.t) (table : list MarketAnalysis.t) :
  In a (upsert a table).
Proof.
  induction table as [|r rest IH]; simpl; [now left|].
  destruct (_ && _); [now left | now right].
Qed.

Lemma upsert_keeps (a b : MarketAnalysis.t) (table : list MarketAnalysis.t) :
  In b table -> row_key b <> row_key a -> In b (upsert a table).
Proof.
  intros Hin Hne. induction table as [|r rest IH]; simpl; [contradiction|].
  destruct (_ && _) eqn:E.
  - destruct Hin as [->|Hin]; [|now right].
    apply same_key_eq in E. contradiction.
  - destruct Hin as [->|Hin]; [now left | right; now apply IH].
Qed.

Lemma upsert_all_keeps (b : MarketAnalysis.t) (rows : list MarketAnalysis.t) :
  forall table,
    In b table -> (forall a, In a rows -> row_key b <> row_key a) ->
    In b (fold_left (fun table a => upsert a table) rows table).
Proof.
  induction rows as [|a rows IH]; intros table Hin Hne; simpl; [exact Hin|].
  apply IH.
  - apply upsert_keeps; [exact Hin | apply Hne; now left].
  - intros a' Ha'. apply Hne. now right.
Qed.

Lemma upsert_all_in (a : MarketAnalysis.t) (rows : list MarketAnalysis.t) :
  List.NoDup (map row_key rows) -> In a rows ->
  forall table, In a (fold_left (fun table a => upsert a table) rows table).
Proof.
  induction rows as [|r rows IH]; intros Hnd Hin table; simpl; [contradiction|].
  inversion Hnd as [|? ? Hnotin Hnd']; subst.
  destruct Hin as [->|Hin]; [|now apply IH].
  apply upsert_all_keeps; [apply upsert_in|].
  intros a' Ha' Hk. apply Hnotin. rewrite Hk. now apply in_map.
Qed.

End Upsert.

Section RowsStored.

Variable now : PyDatetime.datetime.
Variable ls : list CarListing.t.

(** The key of the row that a turn of the loop writes is the key of its
    group. *)
Lemma analyse_group_key (g : option string * option string * Z) (a : MarketAnalysis.t) :
  analyse_group now ls g = Some a ->
  fst g = (Some (MarketAnalysis.make a), Some (MarketAnalysis.model a)).
Proof.
  destruct g as [[[mk|] [md|]] c]; simpl; try discriminate.
  - destruct mk; [discriminate|]. destruct md; [discriminate|]. simpl.
    intros Ha. apply analyse_some in Ha as [_ ->]. reflexivity.
  - destruct mk; discriminate.
Qed.

Lemma make_model_counts_nodup : List.NoDup (map fst (make_model_counts ls)).
Proof.
  unfold make_model_counts.
  pose proof (distinct_keys_nodup ls []) as Hnd.
  induction (distinct_keys [] ls) as [|k ks IH]; simpl; [constructor|].
  inversion Hnd as [|? ? Hnotin Hnd']; subst.
  destruct (3 <=? count_group ls k); simpl; [|now apply IH].
  constructor; [|now apply IH].
  intros Hin. apply Hnotin.
  apply in_map_iff in Hin as (g & Hg & Hin).
  apply filter_In in Hin as [Hin _].
  apply in_map_iff in Hin as (k' & <- & Hin). simpl in Hg.
  destruct k', k. simpl in Hg. now rewrite <- Hg.
Qed.

(** A run writes at most one row for a make and model. *)
Lemma rows_written_nodup : List.NoDup (map row_key (rows_written now ls)).
Proof.
  unfold rows_written.
  pose proof make_model_counts_nodup as Hnd.
  induction (make_model_counts ls) as [|g gs IH]; [constructor|].
  simpl in Hnd. inversion Hnd as [|? ? Hnotin Hnd']; subst.
  rewrite omap_cons.
  destruct (analyse_group now ls g) as [a|] eqn:Ea; [|now apply IH].
  cbn [map]. constructor; [|now apply IH].
  intros Hin. apply Hnotin.
  apply in_map_iff in Hin as (b & Hk & Hin).
  apply list_elem_of_In, list_elem_of_omap in Hin as (g' & Hg' & Eb).
  apply list_elem_of_In in Hg'.
  apply analyse_group_key in Ea. apply analyse_group_key in Eb.
  apply in_map_iff. exists g'. split; [|exact Hg'].
  injection Hk as Hk1 Hk2. rewrite Ea, Eb. now rewrite Hk1, Hk2.
Qed.

(** Every row that the run writes is in the table after the run. *)
Lemma rows_written_stored (table : list MarketAnalysis.t) (a : MarketAnalysis.t) :
  In a (rows_written now ls) ->
  In a (market_analysis (update_market_analysis now (mk_database ls table))).
Proof.
  intros Ha. unfold update_market_analysis. simpl.
  apply upsert_all_in; [apply rows_written_nodup | exact Ha].
Qed.

End RowsStored.

(* ===================================================================== *)
(** ** What a run of the market analysis writes *)
(* ===================================================================== *)

(** C3: one run of [update_market_analysis] writes (adds or updates) the
    row of a make and model, both present, if and only if at least three
    listings of that group have a price that parses; the [sample_size] it
    writes is the number of those listings, so every row written has a
    [sample_size] of 3 or more; and every row written is in the table
    after the run. *)
Theorem aggregate_written_iff
    (now : PyDatetime.datetime) (ls : list CarListing.t) (make model : string) :
  make <> "" -> model <> "" ->
  let n := Z.of_nat (length (valid_prices ls make model)) in
  ((exists a, In a (rows_written now ls) /\ row_key a = (make, model)) <-> 3 <= n)
  /\ (forall a, In a (rows_written now ls) -> row_key a = (make, model) ->
        MarketAnalysis.sample_size a = n)
  /\ (forall a, In a (rows_written now ls) -> 3 <= MarketAnalysis.sample_size a)
  /\ (forall a table, In a (rows_written now ls) ->
        In a (market_analysis (update_market_analysis now (mk_database ls table)))).
Proof.
  intros Hmake Hmodel n.
  assert (Hrow : forall a, In a (rows_written now ls) ->
            MarketAnalysis.sample_size a
            = Z.of_nat (length (valid_prices ls (MarketAnalysis.make a) (MarketAnalysis.model a)))
            /\ 3 <= MarketAnalysis.sample_size a).
  { intros a Ha. apply rows_written_in in Ha
      as (mk & md & _ & _ & _ & _ & Han).
    apply analyse_some in Han as [Hlen ->]. cbn.
    rewrite parse_prices_priced in *. split; [reflexivity | lia]. }
  split; [split|split; [|split]].
  - intros (a & Ha & Hk). destruct (Hrow a Ha) as [Hs H3].
    injection Hk as <- <-. subst n. lia.
  - intros Hn.
    destruct (analyse_is_some now make model (priced_listings ls make model))
      as [a Ha]; [rewrite parse_prices_priced; subst n; lia|].
    exists a. split.
    + apply rows_written_in. exists make, model. repeat split; auto.
      * apply valid_prices_member. intros E. subst n. rewrite E in Hn. simpl in Hn. lia.
      * pose proof (valid_prices_count ls make model). subst n. lia.
    + apply analyse_some in Ha as [_ ->]. reflexivity.
  - intros a Ha Hk. destruct (Hrow a Ha) as [Hs _].
    injection Hk as <- <-. exact Hs.
  - intros a Ha. apply (Hrow a Ha).
  - intros a table Ha. now apply rows_written_stored.
Qed.

Lemma aggregate_written_iff_witness :
  (exists a, In a (rows_written sample_time three_camrys)
             /\ row_key a = ("Toyota", "Camry"))
  <-> 3 <= Z.of_nat (length (valid_prices three_camrys "Toyota" "Camry")).
Proof.
  exact (proj1 (aggregate_written_iff sample_time three_camrys "Toyota" "Camry"
                  ltac:(discriminate) ltac:(discriminate))).
Defined.

(** With two Camrys there is no row; a third one with a price brings a
    row of sample size 3. *)
Example two_camrys_no_row : rows_written sample_time (firstn 2 three_camrys) = [].
Proof. vm_compute. reflexivity. Qed.
Example three_camrys_one_row :
  map (fun a => (row_key a, MarketAnalysis.sample_size a))
      (rows_written sample_time three_camrys)
  = [(("Toyota", "Camry"), 3)].
Proof. vm_compute. reflexivity. Qed.

(** Three listings of a group are not enough when one price is missing
    or unreadable. *)
Example three_camrys_one_unreadable :
  rows_written sample_time
    [ camry "https://example.org/1.html" (Some "9000") "2015";
      camry "https://example.org/2.html" (Some "call me") "2015";
      camry "https://example.org/3.html" (Some "$11,000") "2016" ] = [].
Proof. vm_compute. reflexivity. Qed.

(** C2: the median that a run writes and stores for a group is the
    element of index floor(n/2) of its n valid prices in ascending order,
    whichever ascending arrangement of them is taken; for the prices
    10000, 12000, 14000 and 16000 it is 14000. *)
Theorem median_is_upper_middle (now : PyDatetime.datetime) (ls : list CarListing.t) :
  (forall (a : MarketAnalysis.t) (ps : list PyFloat.float) (table : list MarketAnalysis.t),
     In a (rows_written now ls) ->
     Permutation ps (valid_prices ls (MarketAnalysis.make a) (MarketAnalysis.model a)) ->
     Sorted fle ps ->
     In a (market_analysis (update_market_analysis now (mk_database ls table)))
     /\ PyFloat.eqb (MarketAnalysis.median_price a) (nth (length ps / 2) ps S754_nan) = true)
  /\ PyFloat.sorted (valid_prices four_camrys "Toyota" "Camry")
     = map PyFloat.of_Z [10000; 12000; 14000; 16000]
  /\ map MarketAnalysis.median_price
         (market_analysis (update_market_analysis sample_time (mk_database four_camrys [])))
     = [PyFloat.of_Z 14000].
Proof.
  split; [|split; vm_compute; reflexivity].
  intros a ps table Ha Hp Hs. split; [now apply rows_written_stored|].
  apply rows_written_in in Ha as (mk & md & _ & _ & _ & _ & Han).
  apply analyse_some in Han as [Hlen ->]. cbn in *.
  rewrite parse_prices_priced in *.
  assert (Hn : length ps = length (valid_prices ls mk md))
    by now apply Permutation_length.
  rewrite <- Hn.
  assert (length ps / 2 < length ps)%nat by (apply Nat.div_lt; lia).
  apply sorted_rank; auto; lia.
Qed.

Lemma median_is_upper_middle_witness :
  PyFloat.eqb (PyFloat.of_Z 14000)
    (nth 2 (map PyFloat.of_Z [10000; 12000; 14000; 16000]) S754_nan) = true.
Proof.
  refine (proj2 (proj1 (median_is_upper_middle sample_time four_camrys)
            (MarketAnalysis.mk "Toyota" "Camry" (Some 2015) (Some 2016)
               (PyFloat.of_Z 13000) (PyFloat.of_Z 14000) (PyFloat.of_Z 10000)
               (PyFloat.of_Z 16000) 4 sample_time)
            (map PyFloat.of_Z [10000; 12000; 14000; 16000]) [] _ _ _)).
  - vm_compute. left. reflexivity.
  - replace (map PyFloat.of_Z [10000; 12000; 14000; 16000])
      with (PyFloat.sorted (valid_prices four_camrys "Toyota" "Camry"))
      by (vm_compute; reflexivity).
    apply sorted_perm.
  - repeat constructor.
Defined.

(** C5, counterexample: three priced Camrys of 2015 and a Camry of 2000
    without a price.  The least year of the group is 2000; the row written
    says 2015. *)
Lemma year_range_skips_unpriced :
  group_years camrys_one_unpriced "Toyota" "Camry" = [2015; 2015; 2015; 2000]
  /\ map (fun a => (row_key a, MarketAnalysis.year_from a, MarketAnalysis.year_to a))
         (market_analysis
            (update_market_analysis sample_time (mk_database camrys_one_unpriced [])))
     = [(("Toyota", "Camry"), Some 2015, Some 2015)].
Proof. vm_compute. split; reflexivity. Qed.

(** C5, amended: in every row that a run writes and stores, [year_from]
    and [year_to] are the least and the greatest year among the listings
    of the group that have a year and whose price is not missing (be it
    readable or not); both are null when no such listing has a year. *)
Theorem year_range_of_priced
    (now : PyDatetime.datetime) (ls : list CarListing.t) (table : list MarketAnalysis.t)
    (a : MarketAnalysis.t) :
  In a (rows_written now ls) ->
  let years := priced_group_years ls (MarketAnalysis.make a) (MarketAnalysis.model a) in
  In a (market_analysis (update_market_analysis now (mk_database ls table)))
  /\ match MarketAnalysis.year_from a, MarketAnalysis.year_to a with
     | Some lo, Some hi =>
         In lo years /\ In hi years /\ forall y, In y years -> lo <= y <= hi
     | None, None => years = []
     | _, _ => False
     end.
Proof.
  intros Ha. split; [now apply rows_written_stored|].
  apply rows_written_in in Ha as (mk & md & _ & _ & _ & _ & Han).
  apply analyse_some in Han as [_ ->]. cbn.
  rewrite years_of_priced. apply min_max_year.
Qed.

Lemma year_range_of_priced_witness :
  In 2015 (priced_group_years camrys_one_unpriced "Toyota" "Camry")
  /\ In 2015 (priced_group_years camrys_one_unpriced "Toyota" "Camry")
  /\ forall y, In y (priced_group_years camrys_one_unpriced "Toyota" "Camry") ->
               2015 <= y <= 2015.
Proof.
  refine (proj2 (year_range_of_priced sample_time camrys_one_unpriced []
            (MarketAnalysis.mk "Toyota" "Camry" (Some 2015) (Some 2015)
               (PyFloat.div (PyFloat.of_Z 29000) (PyFloat.of_Z 3))
               (PyFloat.of_Z 9500) (PyFloat.of_Z 9000) (PyFloat.of_Z 10500)
               3 sample_time) _)).
  vm_compute. left. reflexivity.
Defined.

(** A listing whose price is there but unreadable still counts for the
    years. *)
Example year_range_counts_unreadable :
  map (fun a => (MarketAnalysis.year_from a, MarketAnalysis.year_to a))
      (rows_written sample_time
         (camry "https://example.org/5.html" (Some "call me") "1998"
          :: three_camrys))
  = [(Some 1998, Some 2016)].
Proof. vm_compute. reflexivity. Qed.

(* ===================================================================== *)
(** ** Prices: from the text of the page to the number of the analysis *)
(* ===================================================================== *)

Section DigitStrings.

Lemma append_cons (c : ascii) (r s : string) : String c r ++ s = String c (r ++ s).
Proof. reflexivity. Qed.

Lemma append_empty_r (s : string) : s ++ "" = s.
Proof. induction s as [|c r IH]; [reflexivity | now rewrite append_cons, IH]. Qed.

Lemma int_of_digits_from_nonneg (s : string) :
  forall a, 0 <= a -> all_digits s = true -> 0 <= int_of_digits_from a s.
Proof.
  induction s as [|x s IH]; intros a Ha Hall; simpl; [exact Ha|].
  simpl in Hall. apply andb_true_iff in Hall as [Hx Hs].
  pose proof (is_digit_val x Hx). apply IH; [lia | exact Hs].
Qed.

Lemma digits_only_all_digits (s : string) : all_digits (Utils.digits_only s) = true.
Proof.
  induction s as [|c r IH]; simpl; [reflexivity|].
  destruct (PyStr.is_digit c) eqn:E; simpl; [now rewrite E|exact IH].
Qed.

Lemma digits_only_fixed (s : string) :
  all_digits s = true -> Utils.digits_only s = s.
Proof.
  induction s as [|c r IH]; simpl; [reflexivity|].
  intros H. apply andb_true_iff in H as [Hc Hr]. now rewrite Hc, IH.
Qed.

Lemma digits_only_empty (s : string) :
  Utils.digits_only s = EmptyString <-> no_digit s = true.
Proof.
  induction s as [|c r IH]; simpl; [tauto|].
  destruct (PyStr.is_digit c); simpl; [split; discriminate | exact IH].
Qed.

Lemma remove_char_digits (x : ascii) (s : string) :
  PyStr.is_digit x = false -> all_digits s = true -> PyStr.remove_char x s = s.
Proof.
  intros Hx. induction s as [|c r IH]; simpl; [reflexivity|].
  intros H. apply andb_true_iff in H as [Hc Hr].
  rewrite Ascii.eqb_sym, (digit_is_not x c Hx Hc). now rewrite IH.
Qed.

Lemma digit_not_space (c : ascii) : PyStr.is_digit c = true -> PyStr.is_space c = false.
Proof.
  destruct c as [[] [] [] [] [] [] [] []]; try discriminate; reflexivity.
Qed.

Lemma rstrip_digits (s : string) : all_digits s = true -> PyStr.rstrip s = s.
Proof.
  induction s as [|c r IH]; simpl; [reflexivity|].
  intros H. apply andb_true_iff in H as [Hc Hr]. rewrite (IH Hr).
  destruct r; [now rewrite (digit_not_space c Hc) | reflexivity].
Qed.

Lemma strip_digits (s : string) : all_digits s = true -> PyStr.strip s = s.
Proof.
  intros H. unfold PyStr.strip.
  assert (Hl : PyStr.lstrip s = s).
  { destruct s as [|c r]; [reflexivity|]. simpl in *.
    apply andb_true_iff in H as [Hc _]. now rewrite (digit_not_space c Hc). }
  rewrite Hl. now apply rstrip_digits.
Qed.

Lemma digits_tail_digits (s : string) :
  all_digits s = true -> PyFloat.digits_tail s = (s, EmptyString).
Proof.
  induction s as [|c r IH]; simpl; [reflexivity|].
  intros H. apply andb_true_iff in H as [Hc Hr]. now rewrite Hc, (IH Hr).
Qed.

Lemma sign_digit (c : ascii) (r : string) :
  PyStr.is_digit c = true -> PyFloat.sign (String c r) = (false, String c r).
Proof.
  destruct c as [[] [] [] [] [] [] [] []]; try discriminate; reflexivity.
Qed.

(** A text that starts with a digit is none of the words [inf],
    [infinity] and [nan]. *)
Lemma digit_no_word (c : ascii) (r : string) :
  PyStr.is_digit c = true ->
  String.eqb (PyStr.lower (String c r)) "inf" = false
  /\ String.eqb (PyStr.lower (String c r)) "infinity" = false
  /\ String.eqb (PyStr.lower (String c r)) "nan" = false.
Proof.
  destruct c as [[] [] [] [] [] [] [] []]; try discriminate; intros _;
    repeat split; reflexivity.
Qed.

(** [float] reads a string of digits as the integer that the digits
    spell. *)
Lemma of_string_digits (d : string) :
  d <> EmptyString -> all_digits d = true ->
  PyFloat.of_string d = Some (PyFloat.of_Z (int_of_digits d)).
Proof.
  intros Hne Hall. unfold PyFloat.of_string. rewrite (strip_digits d Hall).
  destruct d as [|c r]; [congruence|].
  pose proof Hall as Hall'. simpl in Hall'. apply andb_true_iff in Hall' as [Hc Hr].
  rewrite (sign_digit c r Hc).
  destruct (digit_no_word c r Hc) as (-> & -> & ->). cbn [orb].
  unfold PyFloat.number, PyFloat.digitpart. rewrite Hc, (digits_tail_digits r Hr).
  cbn [PyFloat.exponent]. rewrite append_empty_r. f_equal.
  unfold PyFloat.of_decimal, PyFloat.of_Z.
  change (0 - PyStr.len "") with 0. change (0 <=? 0) with true. cbv iota.
  assert (Hpos : 0 <= int_of_digits (String c r))
    by (apply int_of_digits_from_nonneg; [lia | exact Hall]).
  replace (int_of_digits (String c r) <? 0) with false by (symmetry; apply Z.ltb_ge; exact Hpos).
  rewrite Z.abs_eq by exact Hpos. f_equal. change (10 ^ 0) with 1. lia.
Qed.

End DigitStrings.

Section RoundingSigns.

(** Rounding a quotient of natural numbers gives a zero, a finite number
    or an infinity of the sign asked for: never a NaN. *)
Lemma shr_1_nonneg (mrs : shr_record) : 0 <= shr_m mrs -> 0 <= shr_m (shr_1 mrs).
Proof.
  destruct mrs as [m r s]. destruct m as [|[p|p|]|p]; simpl; lia.
Qed.

Lemma iter_pos_nonneg (p : positive) :
  forall mrs, 0 <= shr_m mrs -> 0 <= shr_m (SpecFloat.iter_pos shr_1 p mrs).
Proof.
  induction p as [p IH|p IH|]; intros mrs H; simpl.
  - apply IH, IH, shr_1_nonneg, H.
  - apply IH, IH, H.
  - apply shr_1_nonneg, H.
Qed.

Lemma shr_fexp_nonneg (m e : Z) (l : location) :
  0 <= m -> 0 <= shr_m (fst (shr_fexp PyFloat.prec PyFloat.emax m e l)).
Proof.
  intros H. unfold shr_fexp, shr.
  assert (H0 : 0 <= shr_m (shr_record_of_loc m l)) by (destruct l as [|[]]; exact H).
  destruct (_ - e); simpl; auto. now apply iter_pos_nonneg.
Qed.

Lemma round_nearest_even_nonneg (m : Z) (l : location) :
  0 <= m -> 0 <= round_nearest_even m l.
Proof.
  intros H. destruct l as [|[]]; simpl; try lia. destruct (Z.even m); lia.
Qed.

Lemma binary_round_aux_sign (m e : Z) (l : location) :
  0 <= m -> not_negative (binary_round_aux PyFloat.prec PyFloat.emax false m e l) = true.
Proof.
  intros H. unfold binary_round_aux.
  pose proof (shr_fexp_nonneg m e l H) as H1.
  destruct (shr_fexp PyFloat.prec PyFloat.emax m e l) as [mrs' e'] eqn:E1. simpl in H1.
  pose proof (shr_fexp_nonneg _ e' loc_Exact
                (round_nearest_even_nonneg _ (loc_of_shr_record mrs') H1)) as H2.
  destruct (shr_fexp PyFloat.prec PyFloat.emax _ e' loc_Exact) as [mrs'' e''] eqn:E2.
  simpl in H2. destruct (shr_m mrs'') as [|p|p]; [reflexivity| |lia].
  destruct (e'' <=? _); reflexivity.
Qed.

Lemma of_ratio_sign (n d : Z) :
  0 <= n -> 0 < d -> not_negative (PyFloat.of_ratio false n d) = true.
Proof.
  intros Hn Hd. unfold PyFloat.of_ratio.
  destruct n as [|p|p]; [reflexivity| |lia].
  unfold SFdiv_core_binary.
  set (e' := Z.min _ _). set (s := _ - e').
  set (m' := match s with Z0 => Z.pos p | Z.pos _ => Z.shiftl (Z.pos p) s | Z.neg _ => 0 end).
  assert (Hm : 0 <= m').
  { subst m'. destruct s; try lia. apply Z.shiftl_nonneg. lia. }
  pose proof (Z.div_pos m' d Hm Hd) as Hq. unfold Z.div in Hq.
  destruct (Z.div_eucl m' d) as [q r]. simpl in Hq.
  now apply binary_round_aux_sign.
Qed.

Lemma of_Z_sign (n : Z) : 0 <= n -> not_negative (PyFloat.of_Z n) = true.
Proof.
  intros H. unfold PyFloat.of_Z.
  replace (n <? 0) with false by (symmetry; apply Z.ltb_ge; exact H).
  apply of_ratio_sign; lia.
Qed.

Lemma not_negative_not_nan (x : PyFloat.float) :
  not_negative x = true -> PyFloat.is_nan x = false.
Proof. destruct x; simpl; congruence. Qed.

End RoundingSigns.

Lemma clean_price_digits (t d : string) :
  Utils.clean_price (Some t) = Some d ->
  d = Utils.digits_only t /\ d <> "" /\ all_digits d = true.
Proof.
  unfold Utils.clean_price. destruct (negb (PyStr.truthy t)); [discriminate|].
  destruct (Utils.digits_only t) as [|c r] eqn:Ed; [discriminate|]. cbn [PyStr.truthy negb].
  intros [= <-]. split; [reflexivity|]. split; [discriminate|].
  rewrite <- Ed. apply digits_only_all_digits.
Qed.

(** The analysis reads a string of digits as the integer that they
    spell, which is not negative. *)
Lemma price_number_digits (d : string) :
  d <> "" -> all_digits d = true ->
  price_number d = Some (PyFloat.of_Z (int_of_digits d))
  /\ not_negative (PyFloat.of_Z (int_of_digits d)) = true.
Proof.
  intros Hne Hall. split.
  - unfold price_number.
    rewrite (remove_char_digits "$") by (reflexivity || exact Hall).
    rewrite (remove_char_digits ",") by (reflexivity || exact Hall).
    now apply of_string_digits.
  - apply of_Z_sign, int_of_digits_from_nonneg; [lia | exact Hall].
Qed.

(** X1: [clean_price] and the numbers of the analysis: a cleaned price is
    the digits of the text, at least one, and [float] reads it as the
    integer that these digits spell, which is never negative and never a
    NaN; so the analysis never rejects a price that [clean_price]
    returned. *)
Theorem clean_price_reads_as_number (t d : string) :
  Utils.clean_price (Some t) = Some d ->
  d = Utils.digits_only t /\ d <> "" /\ all_digits d = true
  /\ price_number d = Some (PyFloat.of_Z (int_of_digits d))
  /\ not_negative (PyFloat.of_Z (int_of_digits d)) = true
  /\ PyFloat.is_nan (PyFloat.of_Z (int_of_digits d)) = false.
Proof.
  intros H. destruct (clean_price_digits t d H) as (Hd & Hne & Hall).
  destruct (price_number_digits d Hne Hall) as [Hnum Hsign].
  repeat split; auto. now apply not_negative_not_nan.
Qed.

Lemma clean_price_reads_as_number_witness :
  price_number "4500" = Some (PyFloat.of_Z (int_of_digits "4500")).
Proof.
  exact (proj1 (proj2 (proj2 (proj2
           (clean_price_reads_as_number "$4,500" "4500" eq_refl))))).
Defined.

(** X2: [clean_price] returns [None] exactly on [None] and on a text without
    a digit (the empty text is one), and cleaning a cleaned price changes
    nothing. *)
Theorem clean_price_idempotent (price_text : option string) :
  (Utils.clean_price price_text = None
   <-> match price_text with
       | None => True
       | Some t => no_digit t = true
       end)
  /\ Utils.clean_price (Utils.clean_price price_text) = Utils.clean_price price_text.
Proof.
  destruct price_text as [t|]; [|split; [tauto | reflexivity]].
  unfold Utils.clean_price at 1 3 4.
  destruct t as [|c r]; [split; [tauto | reflexivity]|]. cbn [PyStr.truthy negb].
  destruct (Utils.digits_only (String c r)) as [|c' r'] eqn:Ed; cbn [PyStr.truthy negb].
  - split; [|reflexivity]. split; [intros _; now apply digits_only_empty | reflexivity].
  - split.
    + split; [discriminate|]. intros Hn. apply digits_only_empty in Hn. congruence.
    + unfold Utils.clean_price. cbn [PyStr.truthy negb].
      assert (Hall : all_digits (String c' r') = true)
        by (rewrite <- Ed; apply digits_only_all_digits).
      now rewrite (digits_only_fixed _ Hall).
Qed.

(* ===================================================================== *)
(** ** Printing a datetime and reading it back *)
(* ===================================================================== *)

Section DigitChars.

Lemma digit_cases (c : ascii) :
  PyStr.is_digit c = true ->
  In c ["0"; "1"; "2"; "3"; "4"; "5"; "6"; "7"; "8"; "9"]%char.
Proof.
  destruct c as [[] [] [] [] [] [] [] []]; try discriminate; intros _; simpl; tauto.
Qed.

Lemma digit_char_digit (k : Z) :
  0 <= k <= 9 ->
  PyStr.is_digit (PyDatetime.digit_char k) = true /\ digit_val (PyDatetime.digit_char k) = k.
Proof.
  intros H.
  assert (E : k = 0 \/ k = 1 \/ k = 2 \/ k = 3 \/ k = 4 \/ k = 5 \/ k = 6 \/ k = 7
              \/ k = 8 \/ k = 9) by lia.
  repeat (destruct E as [->|E]; [split; reflexivity|]). subst. split; reflexivity.
Qed.

Lemma mod10_digit (n : Z) : 0 <= n mod 10 <= 9.
Proof. pose proof (Z.mod_pos_bound n 10). lia. Qed.

Lemma num2_pad (n : Z) :
  0 <= n <= 99 ->
  num2 (PyDatetime.digit_char (n / 10 mod 10)) (PyDatetime.digit_char (n mod 10)) = n.
Proof.
  intros H. unfold num2.
  rewrite (proj2 (digit_char_digit _ (mod10_digit (n / 10)))).
  rewrite (proj2 (digit_char_digit _ (mod10_digit n))).
  Z.div_mod_to_equations. lia.
Qed.

Lemma num4_pad (n : Z) :
  0 <= n <= 9999 ->
  num4 (PyDatetime.digit_char (n / 1000 mod 10)) (PyDatetime.digit_char (n / 100 mod 10))
       (PyDatetime.digit_char (n / 10 mod 10)) (PyDatetime.digit_char (n mod 10)) = n.
Proof.
  intros H. unfold num4.
  rewrite (proj2 (digit_char_digit _ (mod10_digit (n / 1000)))).
  rewrite (proj2 (digit_char_digit _ (mod10_digit (n / 100)))).
  rewrite (proj2 (digit_char_digit _ (mod10_digit (n / 10)))).
  rewrite (proj2 (digit_char_digit _ (mod10_digit n))).
  Z.div_mod_to_equations. lia.
Qed.

Lemma days_in_month_bound (y m : Z) : PyDatetime.days_in_month y m <= 31.
Proof.
  unfold PyDatetime.days_in_month.
  destruct (m =? 2); [destruct (PyDatetime.is_leap y); lia|].
  destruct (_ || _); lia.
Qed.

Lemma valid_fields_ranges (y m d hh mi ss : Z) :
  PyDatetime.valid_fields y m d hh mi ss = true ->
  1 <= y <= 9999 /\ 1 <= m <= 12 /\ 1 <= d <= 31
  /\ 0 <= hh <= 23 /\ 0 <= mi <= 59 /\ 0 <= ss <= 59.
Proof.
  unfold PyDatetime.valid_fields. intros H.
  repeat (apply andb_true_iff in H as [H ?]).
  pose proof (days_in_month_bound y m).
  repeat match goal with
         | E : (_ <=? _) = true |- _ => apply Z.leb_le in E
         end.
  lia.
Qed.

End DigitChars.

Section StrptimeAlternatives.

Ltac by_digits H1 H2 Hr :=
  apply digit_cases in H1; apply digit_cases in H2;
  simpl in H1, H2;
  repeat (destruct H1 as [<-|H1]); try contradiction;
  repeat (destruct H2 as [<-|H2]); try contradiction;
  first [ reflexivity
        | exfalso; destruct Hr as [Hlo Hhi];
          apply Z.leb_le in Hlo; apply Z.leb_le in Hhi;
          vm_compute in Hlo; vm_compute in Hhi; discriminate ].

Lemma month_first (c1 c2 : ascii) (r : string) :
  PyStr.is_digit c1 = true -> PyStr.is_digit c2 = true -> 1 <= num2 c1 c2 <= 12 ->
  hd_error (PyDatetime.alternatives PyDatetime.D_m (String c1 (String c2 r)))
  = Some (num2 c1 c2, r).
Proof. intros H1 H2 Hr. by_digits H1 H2 Hr. Qed.

Lemma day_first (c1 c2 : ascii) (r : string) :
  PyStr.is_digit c1 = true -> PyStr.is_digit c2 = true -> 1 <= num2 c1 c2 <= 31 ->
  hd_error (PyDatetime.alternatives PyDatetime.D_d (String c1 (String c2 r)))
  = Some (num2 c1 c2, r).
Proof. intros H1 H2 Hr. by_digits H1 H2 Hr. Qed.

Lemma hour_first (c1 c2 : ascii) (r : string) :
  PyStr.is_digit c1 = true -> PyStr.is_digit c2 = true -> 0 <= num2 c1 c2 <= 23 ->
  hd_error (PyDatetime.alternatives PyDatetime.D_H (String c1 (String c2 r)))
  = Some (num2 c1 c2, r).
Proof. intros H1 H2 Hr. by_digits H1 H2 Hr. Qed.

Lemma minute_first (c1 c2 : ascii) (r : string) :
  PyStr.is_digit c1 = true -> PyStr.is_digit c2 = true -> 0 <= num2 c1 c2 <= 59 ->
  hd_error (PyDatetime.alternatives PyDatetime.D_M (String c1 (String c2 r)))
  = Some (num2 c1 c2, r).
Proof. intros H1 H2 Hr. by_digits H1 H2 Hr. Qed.

Lemma second_first (c1 c2 : ascii) (r : string) :
  PyStr.is_digit c1 = true -> PyStr.is_digit c2 = true -> 0 <= num2 c1 c2 <= 59 ->
  hd_error (PyDatetime.alternatives PyDatetime.D_S (String c1 (String c2 r)))
  = Some (num2 c1 c2, r).
Proof. intros H1 H2 Hr. by_digits H1 H2 Hr. Qed.

(** The first match of a format goes through the first alternative of
    its first directive when the rest of the format matches after it. *)
Lemma matches_step (d : PyDatetime.directive) (ds : list PyDatetime.directive)
    (p : PyDatetime.partial) (s : string) (v : Z) (r : string)
    (x : PyDatetime.partial * string) :
  hd_error (PyDatetime.alternatives d s) = Some (v, r) ->
  hd_error (PyDatetime.matches ds (PyDatetime.set_field d v p) r) = Some x ->
  hd_error (PyDatetime.matches (d :: ds) p s) = Some x.
Proof.
  intros Ha Hh. cbn [PyDatetime.matches].
  destruct (PyDatetime.alternatives d s) as [|[v' r'] tl]; [discriminate|].
  injection Ha as -> ->. cbn [flat_map].
  destruct (PyDatetime.matches ds _ r); [discriminate|]. exact Hh.
Qed.

End StrptimeAlternatives.

Section CanonicalStrptime.

Variables y1 y2 y3 y4 m1 m2 d1 d2 h1 h2 i1 i2 s1 s2 : ascii.
Hypothesis digits :
  forallb PyStr.is_digit [y1; y2; y3; y4; m1; m2; d1; d2; h1; h2; i1; i2; s1; s2] = true.
Hypothesis valid :
  PyDatetime.valid_fields (num4 y1 y2 y3 y4) (num2 m1 m2) (num2 d1 d2)
    (num2 h1 h2) (num2 i1 i2) (num2 s1 s2) = true.

(** [strptime] with the canonical format reads a canonical text as the
    datetime of its fields. *)
Lemma strptime_text :
  PyDatetime.strptime (timestamp_text y1 y2 y3 y4 m1 m2 d1 d2 h1 h2 i1 i2 s1 s2)
    canonical_format
  = Some (PyDatetime.mk_datetime (num4 y1 y2 y3 y4) (num2 m1 m2) (num2 d1 d2)
            (num2 h1 h2) (num2 i1 i2) (num2 s1 s2)).
Proof.
  pose proof digits as H. simpl in H.
  repeat (apply andb_true_iff in H; destruct H as [? H]). clear H.
  destruct (valid_fields_ranges _ _ _ _ _ _ valid) as (Ry & Rm & Rd & Rh & Ri & Rs).
  unfold PyDatetime.strptime.
  change (PyDatetime.compile false canonical_format)
    with (Some [PyDatetime.D_Y; PyDatetime.D_lit "-"; PyDatetime.D_m; PyDatetime.D_lit "-";
                PyDatetime.D_d; PyDatetime.D_space; PyDatetime.D_H; PyDatetime.D_lit ":";
                PyDatetime.D_M; PyDatetime.D_lit ":"; PyDatetime.D_S]).
  cbv iota.
  assert (Hhd : hd_error
            (PyDatetime.matches
               [PyDatetime.D_Y; PyDatetime.D_lit "-"; PyDatetime.D_m; PyDatetime.D_lit "-";
                PyDatetime.D_d; PyDatetime.D_space; PyDatetime.D_H; PyDatetime.D_lit ":";
                PyDatetime.D_M; PyDatetime.D_lit ":"; PyDatetime.D_S]
               PyDatetime.partial0
               (timestamp_text y1 y2 y3 y4 m1 m2 d1 d2 h1 h2 i1 i2 s1 s2))
          = Some (PyDatetime.mk_partial (Some (num4 y1 y2 y3 y4)) (num2 m1 m2) (num2 d1 d2)
                    (num2 h1 h2) (num2 i1 i2) (num2 s1 s2), EmptyString)).
  { unfold timestamp_text. cbn [string_of_list_ascii].
    eapply matches_step.
    { cbn [PyDatetime.alternatives]. rewrite read_digits_4 by assumption. reflexivity. }
    eapply matches_step; [reflexivity|].
    eapply matches_step; [apply month_first; assumption|].
    eapply matches_step; [reflexivity|].
    eapply matches_step; [apply day_first; assumption|].
    eapply matches_step.
    { cbn [PyDatetime.alternatives PyDatetime.spaces].
      change (PyStr.is_space " ") with true. cbv iota.
      rewrite (digit_not_space h1) by assumption. reflexivity. }
    eapply matches_step; [apply hour_first; assumption|].
    eapply matches_step; [reflexivity|].
    eapply matches_step; [apply minute_first; assumption|].
    eapply matches_step; [reflexivity|].
    eapply matches_step; [apply second_first; assumption|].
    reflexivity. }
  destruct (PyDatetime.matches _ _ _) as [|[p r] tl]; [discriminate|].
  injection Hhd as -> ->. cbn.
  unfold PyDatetime.make. now rewrite valid.
Qed.

End CanonicalStrptime.

Section RoundTrip.

Variable dt : PyDatetime.datetime.
Hypothesis valid : valid_datetime dt = true.
Hypothesis four : 1000 <= PyDatetime.year dt.

Let Y := PyDatetime.year dt.
Let M := PyDatetime.month dt.
Let D := PyDatetime.day dt.
Let hh := PyDatetime.hour dt.
Let mi := PyDatetime.minute dt.
Let ss := PyDatetime.second dt.
Let dc := PyDatetime.digit_char.

(** The canonical print of a datetime, character by character. *)
Lemma strftime_chars :
  PyDatetime.strftime_canonical dt
  = timestamp_text (dc (Y / 1000 mod 10)) (dc (Y / 100 mod 10)) (dc (Y / 10 mod 10))
      (dc (Y mod 10)) (dc (M / 10 mod 10)) (dc (M mod 10)) (dc (D / 10 mod 10))
      (dc (D mod 10)) (dc (hh / 10 mod 10)) (dc (hh mod 10)) (dc (mi / 10 mod 10))
      (dc (mi mod 10)) (dc (ss / 10 mod 10)) (dc (ss mod 10)).
Proof.
  unfold PyDatetime.strftime_canonical. rewrite (year_text_four _ four). reflexivity.
Qed.

Lemma strftime_digits :
  forallb PyStr.is_digit
    [dc (Y / 1000 mod 10); dc (Y / 100 mod 10); dc (Y / 10 mod 10); dc (Y mod 10);
     dc (M / 10 mod 10); dc (M mod 10); dc (D / 10 mod 10); dc (D mod 10);
     dc (hh / 10 mod 10); dc (hh mod 10); dc (mi / 10 mod 10); dc (mi mod 10);
     dc (ss / 10 mod 10); dc (ss mod 10)] = true.
Proof.
  cbn [forallb]. subst dc.
  rewrite !(fun n => proj1 (digit_char_digit _ (mod10_digit n))). reflexivity.
Qed.

Lemma strftime_fields :
  num4 (dc (Y / 1000 mod 10)) (dc (Y / 100 mod 10)) (dc (Y / 10 mod 10)) (dc (Y mod 10)) = Y
  /\ num2 (dc (M / 10 mod 10)) (dc (M mod 10)) = M
  /\ num2 (dc (D / 10 mod 10)) (dc (D mod 10)) = D
  /\ num2 (dc (hh / 10 mod 10)) (dc (hh mod 10)) = hh
  /\ num2 (dc (mi / 10 mod 10)) (dc (mi mod 10)) = mi
  /\ num2 (dc (ss / 10 mod 10)) (dc (ss mod 10)) = ss.
Proof.
  destruct (valid_fields_ranges _ _ _ _ _ _ valid) as (Ry & Rm & Rd & Rh & Ri & Rs).
  subst dc Y M D hh mi ss.
  repeat split; first [apply num4_pad | apply num2_pad]; lia.
Qed.

Lemma strptime_strftime :
  PyDatetime.strptime (PyDatetime.strftime_canonical dt) canonical_format = Some dt.
Proof.
  rewrite strftime_chars.
  destruct strftime_fields as (Ey & Em & Ed & Eh & Ei & Es).
  rewrite strptime_text.
  - rewrite Ey, Em, Ed, Eh, Ei, Es. now destruct dt.
  - apply strftime_digits.
  - rewrite Ey, Em, Ed, Eh, Ei, Es. exact valid.
Qed.

Lemma fromisoformat_strftime :
  PyDatetime.fromisoformat (PyDatetime.strftime_canonical dt) = Some dt.
Proof.
  rewrite strftime_chars.
  destruct strftime_fields as (Ey & Em & Ed & Eh & Ei & Es).
  rewrite fromisoformat_text by apply strftime_digits.
  rewrite Ey, Em, Ed, Eh, Ei, Es. unfold PyDatetime.make.
  unfold valid_datetime in valid. fold Y M D hh mi ss in valid. rewrite valid.
  now destruct dt.
Qed.

Lemma strftime_canonical_is_canonical :
  is_canonical (PyDatetime.strftime_canonical dt) = true.
Proof.
  rewrite strftime_chars.
  destruct strftime_fields as (Ey & Em & Ed & Eh & Ei & Es).
  unfold is_canonical, timestamp_text. rewrite list_ascii_of_string_of_list_ascii.
  fold (timestamp_text (dc (Y / 1000 mod 10)) (dc (Y / 100 mod 10)) (dc (Y / 10 mod 10))
      (dc (Y mod 10)) (dc (M / 10 mod 10)) (dc (M mod 10)) (dc (D / 10 mod 10))
      (dc (D mod 10)) (dc (hh / 10 mod 10)) (dc (hh mod 10)) (dc (mi / 10 mod 10))
      (dc (mi mod 10)) (dc (ss / 10 mod 10)) (dc (ss mod 10))).
  rewrite String.eqb_refl, strftime_digits, Ey, Em, Ed, Eh, Ei, Es.
  exact valid.
Qed.

End RoundTrip.

(** The years below 1000: their print starts with fewer than four
    digits, and nothing reads it back. *)
Section ShortYears.

Variable dt : PyDatetime.datetime.
Hypothesis short : PyDatetime.year dt < 1000.

(** A dash among the second, third and fourth characters. *)
Let dash_early (s : string) : bool :=
  match s with
  | String _ (String b r) =>
      Ascii.eqb b "-"
      || match r with
         | String c r' =>
             Ascii.eqb c "-"
             || match r' with
                | String d _ => Ascii.eqb d "-"
                | EmptyString => false
                end
         | EmptyString => false
         end
  | _ => false
  end.

Lemma digit_not_dash (c : ascii) : PyStr.is_digit c = true -> Ascii.eqb c "-" = false.
Proof. destruct c as [[] [] [] [] [] [] [] []]; try discriminate; reflexivity. Qed.

Lemma dash_early_no_year (s : string) :
  dash_early s = true -> PyDatetime.read_digits 4 s = None.
Proof.
  unfold PyDatetime.read_digits, dash_early.
  destruct s as [|a [|b r]]; try discriminate. cbn [PyDatetime.read_digits_from].
  destruct (PyStr.is_digit a); [|reflexivity].
  destruct (PyStr.is_digit b) eqn:Eb; [|reflexivity].
  rewrite (digit_not_dash b Eb). cbn [orb].
  destruct r as [|c r]; [discriminate|].
  destruct (PyStr.is_digit c) eqn:Ec; [|reflexivity].
  rewrite (digit_not_dash c Ec). cbn [orb].
  destruct r as [|d r]; [discriminate|].
  destruct (PyStr.is_digit d) eqn:Ed; [|reflexivity].
  rewrite (digit_not_dash d Ed). discriminate.
Qed.

Lemma strftime_short_dash : dash_early (PyDatetime.strftime_canonical dt) = true.
Proof.
  unfold PyDatetime.strftime_canonical, PyDatetime.year_text.
  destruct (PyDatetime.year dt <? 10); [reflexivity|].
  destruct (PyDatetime.year dt <? 100).
  { cbv [dash_early PyDatetime.pad2 String.append].
    destruct (Ascii.eqb _ "-"); reflexivity. }
  destruct (PyDatetime.year dt <? 1000) eqn:E.
  { cbv [dash_early PyDatetime.pad2 String.append].
    destruct (Ascii.eqb _ "-"); [reflexivity|].
    destruct (Ascii.eqb _ "-"); reflexivity. }
  apply Z.ltb_ge in E. lia.
Qed.

Lemma strptime_short_year :
  PyDatetime.strptime (PyDatetime.strftime_canonical dt) canonical_format = None.
Proof.
  unfold PyDatetime.strptime.
  change (PyDatetime.compile false canonical_format)
    with (Some [PyDatetime.D_Y; PyDatetime.D_lit "-"; PyDatetime.D_m; PyDatetime.D_lit "-";
                PyDatetime.D_d; PyDatetime.D_space; PyDatetime.D_H; PyDatetime.D_lit ":";
                PyDatetime.D_M; PyDatetime.D_lit ":"; PyDatetime.D_S]).
  cbv iota. cbn [PyDatetime.matches PyDatetime.alternatives].
  now rewrite (dash_early_no_year _ strftime_short_dash).
Qed.

Lemma fromisoformat_short_year :
  PyDatetime.fromisoformat (PyDatetime.strftime_canonical dt) = None.
Proof.
  unfold PyDatetime.fromisoformat.
  now rewrite (dash_early_no_year _ strftime_short_dash).
Qed.

End ShortYears.

(** The characters of a print: digits, dashes, one blank and colons. *)
Section PrintCharacters.

Variable dt : PyDatetime.datetime.

Lemma contains_in_tail (sub pre r : string) :
  PyStr.contains sub r = true -> PyStr.contains sub (pre ++ r) = true.
Proof.
  intros H. induction pre as [|c pre IH]; [exact H|].
  rewrite append_cons. cbn [PyStr.contains]. rewrite IH. apply orb_true_r.
Qed.

Lemma contains_head (sub r : string) : PyStr.contains sub (sub ++ r) = true.
Proof.
  destruct (sub ++ r) eqn:E; cbn [PyStr.contains]; rewrite <- E, startswith_append;
    reflexivity.
Qed.

Lemma stamp_chars_without (x : ascii) (s : string) :
  stamp_char x = false -> all_chars stamp_char s = true ->
  PyStr.contains (String x EmptyString) s = false.
Proof.
  intros Hx. induction s as [|c r IH]; [reflexivity|]. cbn [all_chars]. intros H.
  apply andb_true_iff in H as [Hc Hr].
  cbn [PyStr.contains PyStr.startswith]. rewrite (IH Hr), orb_false_r.
  destruct (Ascii.eqb_spec x c) as [->|]; [congruence | reflexivity].
Qed.

Lemma pad2_stamp (n : Z) : all_chars stamp_char (PyDatetime.pad2 n) = true.
Proof.
  unfold PyDatetime.pad2, stamp_char. cbn [all_chars].
  now rewrite !(fun k => proj1 (digit_char_digit _ (mod10_digit k))).
Qed.

Lemma digit_char_small (n : Z) :
  n <= 9 -> PyStr.is_digit (PyDatetime.digit_char n) = true.
Proof.
  intros H9. destruct (Z_le_gt_dec n 0) as [H|H].
  - unfold PyDatetime.digit_char. replace (Z.to_nat n) with 0%nat by lia. reflexivity.
  - apply digit_char_digit. lia.
Qed.

Lemma all_chars_append (p : ascii -> bool) (a b : string) :
  all_chars p (a ++ b) = all_chars p a && all_chars p b.
Proof.
  induction a as [|c a IH]; [reflexivity|].
  rewrite append_cons. simpl. now rewrite IH, andb_assoc.
Qed.

Lemma year_text_stamp (y : Z) : all_chars stamp_char (PyDatetime.year_text y) = true.
Proof.
  unfold PyDatetime.year_text.
  destruct (y <? 10) eqn:E10.
  - apply Z.ltb_lt in E10. cbn [all_chars]. unfold stamp_char.
    now rewrite (digit_char_small y ltac:(lia)).
  - destruct (y <? 100); [apply pad2_stamp|].
    destruct (y <? 1000).
    + cbn [all_chars]. rewrite pad2_stamp. unfold stamp_char.
      now rewrite (proj1 (digit_char_digit _ (mod10_digit (y / 100)))).
    + unfold PyDatetime.pad4. cbn [all_chars]. rewrite pad2_stamp. unfold stamp_char.
      now rewrite !(fun k => proj1 (digit_char_digit _ (mod10_digit k))).
Qed.

Lemma strftime_stamp : all_chars stamp_char (PyDatetime.strftime_canonical dt) = true.
Proof.
  unfold PyDatetime.strftime_canonical.
  rewrite !all_chars_append, year_text_stamp, !pad2_stamp. reflexivity.
Qed.

Lemma strftime_dash_and_colon :
  PyStr.contains "-" (PyDatetime.strftime_canonical dt)
  && PyStr.contains ":" (PyDatetime.strftime_canonical dt) = true.
Proof.
  unfold PyDatetime.strftime_canonical. apply andb_true_iff. split.
  - apply contains_in_tail, contains_head.
  - do 7 apply contains_in_tail. apply contains_head.
Qed.

(** A print is never empty, and never the text "N/A". *)
Lemma strftime_length : (16 <= String.length (PyDatetime.strftime_canonical dt))%nat.
Proof.
  unfold PyDatetime.strftime_canonical, PyDatetime.year_text.
  destruct (_ <? 10); [vm_compute; lia|].
  destruct (_ <? 100); [vm_compute; lia|].
  destruct (_ <? 1000); vm_compute; lia.
Qed.

End PrintCharacters.

Section Whitespace.

Lemma no_space_tail (c : ascii) (r : string) :
  no_space (String c r) = true -> no_space r = true.
Proof. simpl. intros H. now apply andb_true_iff in H as [_ H]. Qed.

Lemma read_digits_from_no_space (n : nat) :
  forall (acc : Z) (s : string) (v : Z) (r : string),
    PyDatetime.read_digits_from acc n s = Some (v, r) ->
    no_space s = true -> no_space r = true.
Proof.
  induction n as [|n IH]; intros acc s v r H Hs; simpl in H.
  - now injection H as _ <-.
  - destruct s as [|c s]; [discriminate|].
    destruct (PyStr.is_digit c); [|discriminate].
    eapply IH; [exact H | exact (no_space_tail _ _ Hs)].
Qed.

Lemma drop_no_space (n : nat) :
  forall s, no_space s = true -> no_space (PyStr.drop n s) = true.
Proof.
  induction n as [|n IH]; intros s Hs; [exact Hs|].
  destruct s as [|c s]; [reflexivity|]. simpl. apply IH. exact (no_space_tail _ _ Hs).
Qed.

Lemma two_no_space (lo1 hi1 lo2 hi2 : ascii) (s : string) (v : Z) (r : string) :
  In (v, r) (PyDatetime.two lo1 hi1 lo2 hi2 s) -> no_space s = true -> no_space r = true.
Proof.
  unfold PyDatetime.two. destruct s as [|c1 [|c2 s]]; try contradiction.
  destruct (_ && _); [|contradiction].
  intros [[= _ <-]|[]] Hs. exact (no_space_tail _ _ (no_space_tail _ _ Hs)).
Qed.

Lemma one_no_space (lo hi : ascii) (s : string) (v : Z) (r : string) :
  In (v, r) (PyDatetime.one lo hi s) -> no_space s = true -> no_space r = true.
Proof.
  unfold PyDatetime.one. destruct s as [|c s]; try contradiction.
  destruct (Re.in_range lo hi c); [|contradiction].
  intros [[= _ <-]|[]] Hs. exact (no_space_tail _ _ Hs).
Qed.

Lemma names_at_no_space (names : list string) :
  forall (i : Z) (s : string) (v : Z) (r : string),
    In (v, r) (PyDatetime.names_at i names s) -> no_space s = true -> no_space r = true.
Proof.
  induction names as [|n ns IH]; intros i s v r H Hs; simpl in H; [contradiction|].
  apply in_app_or in H as [H|H].
  - destruct (PyStr.startswith n (PyStr.lower s)); [|contradiction].
    destruct H as [[= _ <-]|[]]. now apply drop_no_space.
  - eapply IH; eauto.
Qed.

Lemma spaces_no_space (s : string) : no_space s = true -> PyDatetime.spaces s = [].
Proof.
  destruct s as [|c s]; [reflexivity|]. simpl. intros H.
  apply andb_true_iff in H as [H _]. apply negb_true_iff in H. now rewrite H.
Qed.

(** A blank before a one-digit day: not in a text without white space. *)
Lemma blank_day_no_space (s : string) :
  no_space s = true ->
  match s with
  | String " " r => PyDatetime.one "1" "9" r
  | _ => []
  end = [].
Proof.
  destruct s as [|c s]; [reflexivity|].
  destruct c as [[] [] [] [] [] [] [] []]; try reflexivity. discriminate.
Qed.

(** What a directive leaves of a text without white space has no white
    space either. *)
Lemma alternatives_no_space (d : PyDatetime.directive) (s : string) (v : Z) (r : string) :
  In (v, r) (PyDatetime.alternatives d s) -> no_space s = true -> no_space r = true.
Proof.
  intros H Hs. destruct d; cbn [PyDatetime.alternatives] in H.
  - unfold PyDatetime.read_digits in H.
    destruct (PyDatetime.read_digits_from 0 4 s) as [[v' r']|] eqn:E; [|contradiction].
    destruct H as [[= _ <-]|[]]. eapply read_digits_from_no_space; eauto.
  - unfold PyDatetime.read_digits in H.
    destruct (PyDatetime.read_digits_from 0 2 s) as [[v' r']|] eqn:E; [|contradiction].
    destruct H as [[= _ <-]|[]]. eapply read_digits_from_no_space; eauto.
  - repeat (apply in_app_or in H as [H|H]);
      first [eapply two_no_space; eassumption | eapply one_no_space; eassumption].
  - rewrite (blank_day_no_space s Hs) in H.
    repeat (apply in_app_or in H as [H|H]);
      first [eapply two_no_space; eassumption | eapply one_no_space; eassumption
            | contradiction].
  - repeat (apply in_app_or in H as [H|H]);
      first [eapply two_no_space; eassumption | eapply one_no_space; eassumption].
  - repeat (apply in_app_or in H as [H|H]);
      first [eapply two_no_space; eassumption | eapply one_no_space; eassumption].
  - repeat (apply in_app_or in H as [H|H]);
      first [eapply two_no_space; eassumption | eapply one_no_space; eassumption].
  - eapply names_at_no_space; eauto.
  - eapply names_at_no_space; eauto.
  - rewrite (spaces_no_space s Hs) in H. contradiction.
  - destruct s as [|x s]; [contradiction|].
    destruct (Ascii.eqb _ _); [|contradiction].
    destruct H as [[= _ <-]|[]]. exact (no_space_tail _ _ Hs).
Qed.

Lemma flat_map_nil {A B : Type} (f : A -> list B) (l : list A) :
  (forall x, In x l -> f x = []) -> flat_map f l = [].
Proof.
  induction l as [|x l IH]; intros H; simpl; [reflexivity|].
  rewrite (H x) by (now left). apply IH. intros y Hy. apply H. now right.
Qed.

(** A format that asks for white space matches no text without any. *)
Lemma matches_needs_space (ds1 ds2 : list PyDatetime.directive) :
  forall (p : PyDatetime.partial) (s : string),
    no_space s = true ->
    PyDatetime.matches (ds1 ++ PyDatetime.D_space :: ds2)%list p s = [].
Proof.
  induction ds1 as [|d ds1 IH]; intros p s Hs.
  - cbn [app PyDatetime.matches PyDatetime.alternatives].
    now rewrite (spaces_no_space s Hs).
  - change ((d :: ds1) ++ PyDatetime.D_space :: ds2)%list
      with (d :: (ds1 ++ PyDatetime.D_space :: ds2))%list.
    cbn [PyDatetime.matches]. apply flat_map_nil. intros [v r] Hin.
    apply IH. eapply alternatives_no_space; eauto.
Qed.

Lemma strptime_no_space (s : string) :
  no_space s = true -> PyDatetime.strptime s canonical_format = None.
Proof.
  intros Hs. unfold PyDatetime.strptime.
  change (PyDatetime.compile false canonical_format)
    with (Some ([PyDatetime.D_Y; PyDatetime.D_lit "-"; PyDatetime.D_m; PyDatetime.D_lit "-";
                 PyDatetime.D_d]
                ++ PyDatetime.D_space
                   :: [PyDatetime.D_H; PyDatetime.D_lit ":"; PyDatetime.D_M;
                       PyDatetime.D_lit ":"; PyDatetime.D_S])%list).
  cbv iota. now rewrite matches_needs_space.
Qed.

Lemma strftime_date_no_space (dt : PyDatetime.datetime) :
  no_space (PyDatetime.strftime_date dt) = true.
Proof.
  change (PyDatetime.strftime_date dt)
    with (string_of_list_ascii
            [PyDatetime.digit_char (PyDatetime.year dt / 1000 mod 10);
             PyDatetime.digit_char (PyDatetime.year dt / 100 mod 10);
             PyDatetime.digit_char (PyDatetime.year dt / 10 mod 10);
             PyDatetime.digit_char (PyDatetime.year dt mod 10); "-";
             PyDatetime.digit_char (PyDatetime.month dt / 10 mod 10);
             PyDatetime.digit_char (PyDatetime.month dt mod 10); "-";
             PyDatetime.digit_char (PyDatetime.day dt / 10 mod 10);
             PyDatetime.digit_char (PyDatetime.day dt mod 10)]%char).
  cbn [string_of_list_ascii no_space].
  rewrite !(fun n => digit_not_space _ (proj1 (digit_char_digit _ (mod10_digit n)))).
  reflexivity.
Qed.

End Whitespace.

Section ValidDatetimes.

Lemma make_valid (y m d hh mi ss : Z) (dt : PyDatetime.datetime) :
  PyDatetime.make y m d hh mi ss = Some dt -> valid_datetime dt = true.
Proof.
  unfold PyDatetime.make. destruct (PyDatetime.valid_fields y m d hh mi ss) eqn:E;
    [|discriminate].
  intros [= <-]. exact E.
Qed.

Lemma strptime_valid (s fmt : string) (dt : PyDatetime.datetime) :
  PyDatetime.strptime s fmt = Some dt -> valid_datetime dt = true.
Proof.
  unfold PyDatetime.strptime. destruct (PyDatetime.compile false fmt); [|discriminate].
  destruct (PyDatetime.matches _ _ _) as [|[p [|? ?]] tl]; try discriminate.
  apply make_valid.
Qed.

Lemma fromisoformat_valid (s : string) (dt : PyDatetime.datetime) :
  PyDatetime.fromisoformat s = Some dt -> valid_datetime dt = true.
Proof.
  unfold PyDatetime.fromisoformat.
  destruct (PyDatetime.read_digits 4 s) as [[y [|c1 r1]]|]; try discriminate.
  destruct (Ascii.eqb_spec c1 "-") as [->|Hne].
  - destruct (PyDatetime.read_digits 2 r1) as [[m [|c2 r2]]|]; try discriminate.
    destruct (Ascii.eqb_spec c2 "-") as [->|Hne2].
    + destruct (PyDatetime.read_digits 2 r2) as [[d [|c3 t]]|]; try discriminate.
      * apply make_valid.
      * destruct (PyDatetime.iso_time t) as [[[hh mi] ss]|]; [|discriminate].
        apply make_valid.
    + destruct c2 as [[] [] [] [] [] [] [] []]; try discriminate. congruence.
  - destruct c1 as [[] [] [] [] [] [] [] []]; try discriminate. congruence.
Qed.

Lemma try_slash_valid (s : string) (formats : list string) (dt : PyDatetime.datetime) :
  Utils.try_slash s formats = Some dt -> valid_datetime dt = true.
Proof.
  induction formats as [|fmt rest IH]; simpl; [discriminate|].
  destruct (PyDatetime.strptime s fmt) eqn:E; [|exact IH].
  intros [= <-]. eapply strptime_valid; eauto.
Qed.

Lemma try_text_valid (current_year : Z) (s : string) (formats : list string)
    (dt : PyDatetime.datetime) :
  Utils.try_text current_year s formats = Some dt -> valid_datetime dt = true.
Proof.
  induction formats as [|fmt rest IH]; simpl; [discriminate|].
  destruct (PyDatetime.strptime s fmt) as [parsed|] eqn:E; [|exact IH].
  destruct (_ && _).
  - unfold PyDatetime.replace_year.
    destruct (PyDatetime.make _ _ _ _ _ _) eqn:Em; [|exact IH].
    intros [= <-]. eapply make_valid; eauto.
  - intros [= <-]. eapply strptime_valid; eauto.
Qed.

(** Whatever [parse_posting_time] parses is a date of the calendar. *)
Lemma parse_datetime_valid (current_year : Z) (s : string) (dt : PyDatetime.datetime) :
  Utils.parse_datetime current_year s = Some dt -> valid_datetime dt = true.
Proof.
  unfold Utils.parse_datetime.
  destruct (PyStr.contains "T" s); [apply fromisoformat_valid|].
  destruct (_ && _); [apply fromisoformat_valid|].
  destruct (PyStr.contains "/" s); [apply try_slash_valid | apply try_text_valid].
Qed.

End ValidDatetimes.

(* ===================================================================== *)
(** ** Times on their way from the page to the database *)
(* ===================================================================== *)

Section TimesOnTheWay.

(** A canonical timestamp of the years 1000 to 9999 comes back as it
    is. *)
Lemma canonical_unchanged (current_year : Z) (t : string) :
  is_canonical t = true -> PyStr.startswith "0" t = false ->
  Utils.parse_posting_time current_year (Some t) = t.
Proof.
  intros Hc Hz. unfold is_canonical in Hc.
  destruct (list_ascii_of_string t)
    as [|y1 [|y2 [|y3 [|y4 [|a [|m1 [|m2 [|b [|d1 [|d2 [|c [|h1 [|h2 [|d [|i1 [|i2 [|e
        [|s1 [|s2 [|? ?]]]]]]]]]]]]]]]]]]]] eqn:El; try discriminate.
  apply andb_true_iff in Hc as [Hc Hvalid].
  apply andb_true_iff in Hc as [Heq Hdigits].
  apply String.eqb_eq in Heq. rewrite Heq in Hz |- *.
  apply parse_posting_time_text; [exact Hdigits | exact Hvalid |].
  pose proof Hdigits as H. simpl in H.
  repeat (apply andb_true_iff in H; destruct H as [? H]). clear H.
  repeat match goal with
         | D : PyStr.is_digit _ = true |- _ => apply is_digit_val in D
         end.
  assert (1 <= digit_val y1); [|unfold num4; lia].
  revert Hz. unfold timestamp_text. cbn [string_of_list_ascii PyStr.startswith].
  rewrite andb_true_r. clear -H0.
  destruct y1 as [[] [] [] [] [] [] [] []]; intros E; try discriminate E;
    vm_compute in H0 |- *; try (intros ?; discriminate); destruct H0 as [A B];
    try (exfalso; apply A; reflexivity); try (exfalso; apply B; reflexivity).
Qed.

Lemma parse_posting_time_parsed (current_year : Z) (v : string) :
  v <> "" ->
  Utils.parse_posting_time current_year (Some v)
  = match parsed_time current_year v with
    | Some dt => PyDatetime.strftime_canonical dt
    | None => cut_at_plus v
    end.
Proof.
  intros Hv. unfold Utils.parse_posting_time, parsed_time, cut_at_plus.
  destruct v; [congruence|]. reflexivity.
Qed.

Lemma parsed_time_empty (current_year : Z) : parsed_time current_year "" = None.
Proof. reflexivity. Qed.

Lemma strftime_canonical_not_na (dt : PyDatetime.datetime) :
  String.eqb (PyDatetime.strftime_canonical dt) "N/A" = false
  /\ PyStr.truthy (PyDatetime.strftime_canonical dt) = true.
Proof.
  pose proof (strftime_length dt) as Hlen. split.
  - destruct (String.eqb_spec (PyDatetime.strftime_canonical dt) "N/A") as [E|]; [|reflexivity].
    rewrite E in Hlen. simpl in Hlen. lia.
  - destruct (PyDatetime.strftime_canonical dt); [simpl in Hlen; lia | reflexivity].
Qed.

(** [parse_posting_time] returns its own prints as they are: those of
    the years from 1000 on because it reads them and prints them again,
    those of the years below because [fromisoformat] rejects them. *)
Lemma print_unchanged (current_year : Z) (dt : PyDatetime.datetime) :
  valid_datetime dt = true ->
  Utils.parse_posting_time current_year (Some (PyDatetime.strftime_canonical dt))
  = PyDatetime.strftime_canonical dt.
Proof.
  intros Hv. unfold Utils.parse_posting_time.
  rewrite (proj2 (strftime_canonical_not_na dt)). cbn [negb].
  rewrite (stamp_chars_without "+" _ eq_refl (strftime_stamp dt)).
  unfold Utils.parse_datetime.
  rewrite (stamp_chars_without "T" _ eq_refl (strftime_stamp dt)).
  rewrite strftime_dash_and_colon.
  destruct (Z_lt_ge_dec (PyDatetime.year dt) 1000) as [Hs|Hf].
  - now rewrite fromisoformat_short_year.
  - now rewrite fromisoformat_strftime by (assumption || lia).
Qed.

Lemma strftime_date_not_na (dt : PyDatetime.datetime) :
  String.eqb (PyDatetime.strftime_date dt) "N/A" = false
  /\ PyStr.truthy (PyDatetime.strftime_date dt) = true
  /\ PyStr.len (PyDatetime.strftime_date dt) = 10.
Proof.
  split; [|split; reflexivity].
  destruct (String.eqb_spec (PyDatetime.strftime_date dt) "N/A") as [E|]; [|reflexivity].
  apply (f_equal String.length) in E. vm_compute in E. discriminate.
Qed.

(** The six entries of a scraped listing. *)
Lemma listing_entries (a b c d e f : option string) :
  let m : listing_dict :=
    <[ "title" := a ]> (<[ "price" := b ]> (<[ "url" := c ]> (<[ "location" := d ]>
      (<[ "posting_time" := e ]> (<[ "scraped_at" := f ]> ∅))))) in
  m !! "title" = Some a /\ m !! "price" = Some b /\ m !! "url" = Some c
  /\ m !! "location" = Some d /\ m !! "posting_time" = Some e
  /\ m !! "scraped_at" = Some f.
Proof. vm_compute. repeat split; reflexivity. Qed.

Lemma scraped_entries
    (existing_urls : gset string) (filter_keywords : list string)
    (current_time today : PyDatetime.datetime) (current_year : Z) (r : Scraper.result)
    (d : listing_dict) :
  Scraper.listing existing_urls filter_keywords current_time today current_year r = Some d ->
  Scraper.skipped (Scraper.title r) (Scraper.url r) existing_urls filter_keywords = false
  /\ d !! "title" = Some (Some (default "" (Scraper.title r)))
  /\ d !! "price" = Some (match Scraper.price_text r with
                          | Some t => Utils.clean_price (Some t)
                          | None => None
                          end)
  /\ d !! "url" = Some (Some (default "" (Scraper.url r)))
  /\ d !! "location" = Some (Some (match Scraper.location_text r with
                                   | Some t => PyStr.strip_chars "()" t
                                   | None => "N/A"
                                   end))
  /\ d !! "posting_time"
     = Some (Some (Scraper.posting_time current_year today (Scraper.datetime_value r)))
  /\ d !! "scraped_at" = Some (Some (PyDatetime.strftime_canonical current_time)).
Proof.
  unfold Scraper.listing. intros Hd.
  destruct (Scraper.skipped _ _ _ _); [discriminate|]. injection Hd as <-.
  split; [reflexivity|].
  exact (listing_entries _ _ _ _ _ _).
Qed.

Lemma before_plus_no_plus (s : string) :
  PyStr.contains "+" (Utils.before_plus s) = false.
Proof.
  induction s as [|c r IH]; [reflexivity|]. simpl.
  destruct (Ascii.eqb c "+") eqn:E; [reflexivity|].
  cbn [PyStr.contains PyStr.startswith]. rewrite Ascii.eqb_sym, E. exact IH.
Qed.

Lemma cut_at_plus_no_plus (s : string) : PyStr.contains "+" (cut_at_plus s) = false.
Proof.
  unfold cut_at_plus. destruct (PyStr.contains "+" s) eqn:E; [|exact E].
  apply before_plus_no_plus.
Qed.

End TimesOnTheWay.

(** X3: printing and reading back.  From the year 1000 on, [strptime]
    with the canonical format and [fromisoformat] both read the print
    of a datetime as that datetime.  Below the year 1000 the print has
    fewer than four digits of year, and neither of them reads it.
    [parse_posting_time] returns the print of every datetime as it
    is. *)
Theorem canonical_round_trip (dt : PyDatetime.datetime) :
  valid_datetime dt = true ->
  (1000 <= PyDatetime.year dt ->
   PyDatetime.strptime (PyDatetime.strftime_canonical dt) canonical_format = Some dt
   /\ PyDatetime.fromisoformat (PyDatetime.strftime_canonical dt) = Some dt)
  /\ (PyDatetime.year dt < 1000 ->
      PyDatetime.strptime (PyDatetime.strftime_canonical dt) canonical_format = None
      /\ PyDatetime.fromisoformat (PyDatetime.strftime_canonical dt) = None)
  /\ forall current_year,
       Utils.parse_posting_time current_year (Some (PyDatetime.strftime_canonical dt))
       = PyDatetime.strftime_canonical dt.
Proof.
  intros Hv. split; [|split].
  - intros Hfour. split.
    + now apply strptime_strftime.
    + now apply fromisoformat_strftime.
  - intros Hshort. split.
    + now apply strptime_short_year.
    + now apply fromisoformat_short_year.
  - intros cy. now apply print_unchanged.
Qed.

Lemma canonical_round_trip_witness :
  PyDatetime.strptime (PyDatetime.strftime_canonical sample_time) canonical_format
  = Some sample_time.
Proof.
  refine (proj1 (proj1 (canonical_round_trip sample_time eq_refl) _)).
  vm_compute. intros H. discriminate H.
Defined.

(** X4: normalising twice: [parse_posting_time] applied to its own result
    returns that result, except for the empty result (of an input that
    starts with a plus sign), which becomes "N/A". *)
Theorem parse_posting_time_again (current_year : Z) (time_string : option string) :
  let r := Utils.parse_posting_time current_year time_string in
  Utils.parse_posting_time current_year (Some r)
  = if String.eqb r "" then "N/A" else r.
Proof.
  cbv zeta. destruct time_string as [s|]; [|reflexivity].
  destruct s as [|c s]; [reflexivity|].
  rewrite (parse_posting_time_parsed current_year (String c s)) by congruence.
  destruct (parsed_time current_year (String c s)) as [dt|] eqn:E.
  - pose proof (parse_datetime_valid _ _ _ E) as Hv.
    rewrite (print_unchanged current_year dt Hv).
    destruct (PyDatetime.strftime_canonical dt) eqn:Ep; [|reflexivity].
    pose proof (strftime_length dt) as Hlen. rewrite Ep in Hlen. simpl in Hlen. lia.
  - destruct (cut_at_plus (String c s)) as [|c' s'] eqn:Ec; [reflexivity|].
    cbn [String.eqb]. unfold parsed_time in E. rewrite Ec in E.
    apply parse_posting_time_unparsed; [reflexivity| |exact E].
    rewrite <- Ec. apply cut_at_plus_no_plus.
Qed.

(** X5: from the page to the row.  The listing that the scraper builds
    from a result carries the start of the scrape as its [scraped_at],
    and [add_listings] stores exactly that time (the year of the clock
    has four digits).  When [parse_posting_time] reads a datetime in
    the [datetime] attribute of the page, [add_listings] stores that
    datetime as the posting time if its year is 1000 or later, and no
    posting time at all if it is earlier: the listing then carries a
    print that [add_listings] cannot read.  Without an attribute the
    posting time of the listing is the current date, never "N/A", and
    [add_listings] stores no posting time. *)
Theorem scraped_times_are_stored
    (existing_urls : gset string) (filter_keywords : list string)
    (current_time today : PyDatetime.datetime) (current_year : Z) (r : Scraper.result)
    (d : listing_dict) (now : PyDatetime.datetime) :
  Scraper.listing existing_urls filter_keywords current_time today current_year r = Some d ->
  valid_datetime current_time = true ->
  1000 <= PyDatetime.year current_time ->
  scraped_at_of now d = current_time
  /\ (forall v dt, Scraper.datetime_value r = Some v ->
                   parsed_time current_year v = Some dt ->
                   d !! "posting_time" = Some (Some (PyDatetime.strftime_canonical dt))
                   /\ posting_time_of d
                      = if 1000 <=? PyDatetime.year dt then Some dt else None)
  /\ (Scraper.datetime_value r = None ->
      d !! "posting_time" = Some (Some (PyDatetime.strftime_date today))
      /\ posting_time_of d = None).
Proof.
  intros Hd Hvalid Hclock.
  destruct (scraped_entries _ _ _ _ _ _ _ Hd) as (_ & _ & _ & _ & _ & Hp & Hs).
  split; [|split].
  - unfold scraped_at_of, get. rewrite Hs.
    destruct (strftime_canonical_not_na current_time) as [-> ->]. cbn [andb negb].
    now rewrite strptime_strftime.
  - intros v dt Hv Hparsed.
    assert (Hne : v <> "") by (intros ->; rewrite parsed_time_empty in Hparsed; discriminate).
    assert (Ht : Scraper.posting_time current_year today (Scraper.datetime_value r)
                 = PyDatetime.strftime_canonical dt).
    { unfold Scraper.posting_time. rewrite Hv.
      rewrite (parse_posting_time_parsed _ _ Hne), Hparsed.
      now rewrite (proj1 (strftime_canonical_not_na dt)). }
    rewrite Ht in Hp. split; [exact Hp|].
    unfold posting_time_of, get. rewrite Hp.
    destruct (strftime_canonical_not_na dt) as [-> ->]. cbn [andb negb].
    pose proof (parse_datetime_valid _ _ _ Hparsed) as Hdt.
    destruct (1000 <=? PyDatetime.year dt) eqn:E.
    + apply Z.leb_le in E. now apply strptime_strftime.
    + apply Z.leb_gt in E. now apply strptime_short_year.
  - intros Hnone. unfold posting_time_of, get. rewrite Hp.
    unfold Scraper.posting_time. rewrite Hnone.
    change (String.eqb "N/A" "N/A") with true. cbv iota.
    split; [reflexivity|].
    destruct (strftime_date_not_na today) as (-> & -> & _). cbn [andb negb].
    apply strptime_no_space, strftime_date_no_space.
Qed.

Lemma scraped_times_are_stored_witness :
  scraped_at_of sample_time scraped_sample = sample_time.
Proof.
  refine (proj1 (scraped_times_are_stored ∅ ["salvage"] sample_time sample_time 2024
                   sample_result scraped_sample sample_time _ eq_refl _)).
  - vm_compute. reflexivity.
  - vm_compute. intros H. discriminate H.
Defined.

(* ===================================================================== *)
(** ** The order of a scraped batch *)
(* ===================================================================== *)

Section DatetimeOrder.

Lemma compare_fields_ge_trans (a : list Z) :
  forall b c,
    PyDatetime.compare_fields a b <> Lt -> PyDatetime.compare_fields b c <> Lt ->
    PyDatetime.compare_fields a c <> Lt.
Proof.
  induction a as [|x a IH]; intros [|y b] [|z c]; simpl; try congruence.
  destruct (Z.compare_spec x y), (Z.compare_spec y z), (Z.compare_spec x z);
    try congruence; try lia; intros; eauto.
Qed.

Lemma compare_fields_antisym (a : list Z) :
  forall b, PyDatetime.compare_fields b a = CompOpp (PyDatetime.compare_fields a b).
Proof.
  induction a as [|x a IH]; intros [|y b]; simpl; try reflexivity.
  rewrite (Z.compare_antisym x y). destruct (x ?= y); simpl; auto.
Qed.

Lemma datetime_ge_trans (a b c : PyDatetime.datetime) :
  PyDatetime.ltb a b = false -> PyDatetime.ltb b c = false -> PyDatetime.ltb a c = false.
Proof.
  unfold PyDatetime.ltb, PyDatetime.compare. intros H1 H2.
  pose proof (compare_fields_ge_trans (PyDatetime.fields a) (PyDatetime.fields b)
                (PyDatetime.fields c)) as H.
  destruct (PyDatetime.compare_fields (PyDatetime.fields a) (PyDatetime.fields b));
    destruct (PyDatetime.compare_fields (PyDatetime.fields b) (PyDatetime.fields c));
    destruct (PyDatetime.compare_fields (PyDatetime.fields a) (PyDatetime.fields c));
    try reflexivity; try discriminate; exfalso; apply H; congruence.
Qed.

Lemma datetime_lt_ge (a b : PyDatetime.datetime) :
  PyDatetime.ltb a b = true -> PyDatetime.ltb b a = false.
Proof.
  unfold PyDatetime.ltb, PyDatetime.compare.
  rewrite (compare_fields_antisym (PyDatetime.fields a) (PyDatetime.fields b)).
  destruct (PyDatetime.compare_fields _ _); simpl; congruence.
Qed.

End DatetimeOrder.

Section SortedBatch.

Let keyed_listing : Type := (PyDatetime.datetime * listing_dict)%type.

(** The first keyed listing is not older than the second one. *)
Let ge (x y : keyed_listing) : Prop := PyDatetime.ltb (fst x) (fst y) = false.

Lemma insert_desc_perm (x : keyed_listing) (l : list keyed_listing) :
  Permutation (MainDb.insert_desc x l) (x :: l).
Proof.
  induction l as [|y r IH]; simpl; [reflexivity|].
  destruct (PyDatetime.ltb (fst y) (fst x)); [reflexivity|].
  rewrite IH. apply perm_swap.
Qed.

Lemma sorted_desc_from_perm (l acc : list keyed_listing) :
  Permutation (fold_left (fun acc x => MainDb.insert_desc x acc) l acc) (l ++ acc).
Proof.
  revert acc. induction l as [|x l IH]; intros acc; simpl; [reflexivity|].
  rewrite IH, insert_desc_perm. symmetry. apply Permutation_middle.
Qed.

Lemma sorted_desc_perm (l : list keyed_listing) : Permutation (MainDb.sorted_desc l) l.
Proof. unfold MainDb.sorted_desc. rewrite sorted_desc_from_perm. now rewrite app_nil_r. Qed.

Lemma insert_desc_sorted (x : keyed_listing) (l : list keyed_listing) :
  StronglySorted ge l -> StronglySorted ge (MainDb.insert_desc x l).
Proof.
  induction l as [|y r IH]; intros Hs; simpl.
  - constructor; constructor.
  - inversion Hs as [|? ? Hr Hy]; subst.
    destruct (PyDatetime.ltb (fst y) (fst x)) eqn:E.
    + constructor; [exact Hs|]. constructor.
      * now apply datetime_lt_ge.
      * apply List.Forall_forall. intros z Hz.
        rewrite List.Forall_forall in Hy.
        apply (datetime_ge_trans _ (fst y)); [now apply datetime_lt_ge | now apply Hy].
    + constructor; [now apply IH|].
      apply List.Forall_forall. intros z Hz.
      apply (Permutation_in _ (insert_desc_perm x r)) in Hz.
      destruct Hz as [<-|Hz]; [exact E|].
      rewrite List.Forall_forall in Hy. now apply Hy.
Qed.

Lemma sorted_desc_from_sorted (l acc : list keyed_listing) :
  StronglySorted ge acc ->
  StronglySorted ge (fold_left (fun acc x => MainDb.insert_desc x acc) l acc).
Proof.
  revert acc. induction l as [|x l IH]; intros acc Hs; simpl; [exact Hs|].
  apply IH. now apply insert_desc_sorted.
Qed.

Lemma keyed_some (l : list listing_dict) (kl : list keyed_listing) :
  MainDb.keyed l = Some kl ->
  map snd kl = l /\ Forall (fun kx => MainDb.sort_key (snd kx) = Some (fst kx)) kl.
Proof.
  revert kl. induction l as [|x l IH]; intros kl H; simpl in H.
  - injection H as <-. split; [reflexivity | constructor].
  - destruct (MainDb.sort_key x) as [k|] eqn:Ek; [|discriminate].
    destruct (MainDb.keyed l) as [kr|]; [|discriminate].
    injection H as <-. destruct (IH kr eq_refl) as [Hm Hf].
    split; [simpl; now rewrite Hm | constructor; [exact Ek | exact Hf]].
Qed.

Lemma keyed_none (l : list listing_dict) :
  MainDb.keyed l = None <-> exists x, In x l /\ MainDb.sort_key x = None.
Proof.
  induction l as [|x l IH]; simpl.
  - split; [discriminate | intros (x & [] & _)].
  - destruct (MainDb.sort_key x) as [k|] eqn:Ek.
    + destruct (MainDb.keyed l) as [kr|].
      * split; [discriminate|]. intros (y & [<-|Hy] & Hn); [congruence|].
        assert (Hex : exists x, In x l /\ MainDb.sort_key x = None) by eauto.
        apply IH in Hex. discriminate.
      * split; [|reflexivity]. intros _.
        destruct (proj1 IH eq_refl) as (y & Hy & Hn). exists y. split; [now right | exact Hn].
    + split; [|reflexivity]. intros _. exists x. split; [now left | exact Ek].
Qed.

Lemma sorted_listings (kl : list keyed_listing) :
  Forall (fun kx => MainDb.sort_key (snd kx) = Some (fst kx)) kl ->
  StronglySorted ge kl -> StronglySorted not_older (map snd kl).
Proof.
  induction kl as [|x kl IH]; intros Hf Hs; simpl; [constructor|].
  inversion Hf as [|? ? Hx Hf']; subst. inversion Hs as [|? ? Hs' Hx']; subst.
  constructor; [now apply IH|].
  apply List.Forall_forall. intros y Hy. apply in_map_iff in Hy as (ky & <- & Hky).
  rewrite List.Forall_forall in Hf', Hx'.
  unfold not_older. rewrite Hx, (Hf' ky Hky). now apply Hx'.
Qed.

End SortedBatch.

(** X6: the batch that [main] stores holds the scraped listings, each once:
    the sort loses and repeats nothing.  When every listing has a key
    (a canonical posting time, "N/A" or a text shorter than ten
    characters), the batch goes from the newest to the oldest; when the
    key of one listing raises, the batch is stored in the order of the
    page. *)
Theorem ordered_newest_first (new_listings : list listing_dict) :
  Permutation (MainDb.ordered new_listings) new_listings
  /\ ((forall x, In x new_listings -> MainDb.sort_key x <> None) ->
      StronglySorted not_older (MainDb.ordered new_listings))
  /\ ((exists x, In x new_listings /\ MainDb.sort_key x = None) ->
      MainDb.ordered new_listings = new_listings).
Proof.
  unfold MainDb.ordered. split; [|split].
  - destruct (MainDb.keyed new_listings) as [kl|] eqn:E; [|reflexivity].
    destruct (keyed_some _ _ E) as [Hm _].
    rewrite <- Hm. apply Permutation_map, sorted_desc_perm.
  - intros Hall. destruct (MainDb.keyed new_listings) as [kl|] eqn:E.
    + destruct (keyed_some _ _ E) as [_ Hf].
      apply sorted_listings.
      * apply List.Forall_forall. intros kx Hkx.
        rewrite List.Forall_forall in Hf. apply Hf.
        now apply (Permutation_in _ (sorted_desc_perm kl)).
      * apply sorted_desc_from_sorted. constructor.
    + apply keyed_none in E as (x & Hx & Hn). now destruct (Hall x Hx).
  - intros Hex. apply keyed_none in Hex. now rewrite Hex.
Qed.

Lemma ordered_newest_first_witness :
  StronglySorted not_older (MainDb.ordered [scraped_sample; scraped_sample]).
Proof.
  apply (proj1 (proj2 (ordered_newest_first [scraped_sample; scraped_sample]))).
  intros x [<-|[<-|[]]]; vm_compute; intros H; discriminate H.
Defined.

(** X7: A posting time without white space, such as the date that the
    scraper puts in when the page gives no time, is not a canonical
    timestamp: [add_listings] stores no posting time for it, and when it
    has ten characters or more the sort of [main] raises on it, so that
    the whole batch is stored in the order of the page. *)
Theorem date_only_time_is_dropped
    (batch : list listing_dict) (d : listing_dict) (s : string) :
  In d batch -> d !! "posting_time" = Some (Some s) -> no_space s = true ->
  posting_time_of d = None
  /\ (10 <= PyStr.len s -> MainDb.sort_key d = None /\ MainDb.ordered batch = batch)
  /\ forall today,
       no_space (PyDatetime.strftime_date today) = true
       /\ PyStr.len (PyDatetime.strftime_date today) = 10.
Proof.
  intros Hin Hp Hs.
  assert (Hkey : 10 <= PyStr.len s -> MainDb.sort_key d = None).
  { intros Hlen. unfold MainDb.sort_key. rewrite Hp.
    destruct (negb (String.eqb s "N/A")) eqn:Ena.
    - apply Z.leb_le in Hlen. rewrite Hlen. cbn [andb]. now apply strptime_no_space.
    - apply negb_false_iff, String.eqb_eq in Ena. subst. vm_compute in Hlen.
      now destruct Hlen. }
  split; [|split].
  - unfold posting_time_of, get. rewrite Hp.
    destruct (_ && _); [now apply strptime_no_space | reflexivity].
  - intros Hlen. split; [now apply Hkey|].
    unfold MainDb.ordered.
    assert (Hn : MainDb.keyed batch = None).
    { apply keyed_none. exists d. split; [exact Hin | now apply Hkey]. }
    now rewrite Hn.
  - intros today. split; [apply strftime_date_no_space | reflexivity].
Qed.

Lemma date_only_time_is_dropped_witness :
  posting_time_of scraped_without_time = None.
Proof.
  refine (proj1 (date_only_time_is_dropped [scraped_without_time] scraped_without_time
                   "2024-03-01" _ _ _)).
  - now left.
  - vm_compute. reflexivity.
  - reflexivity.
Defined.

(* ===================================================================== *)
(** ** What [add_listings] keeps and what it adds *)
(* ===================================================================== *)

Section AddListingsInvariants.

Variable faults : nat -> bool.
Variable now : PyDatetime.datetime.

Lemma find_url_none (u : string) (rows : list CarListing.t) :
  List.find (fun l => String.eqb (CarListing.url l) u) rows = None <-> ~ In u (urls rows).
Proof.
  induction rows as [|r rows IH]; simpl; [tauto|].
  destruct (String.eqb_spec (CarListing.url r) u) as [E|E].
  - split; [discriminate|]. intros H. exfalso. apply H. now left.
  - rewrite IH. split.
    + intros H [H1|H1]; [congruence | now apply H].
    + intros H H1. apply H. now right.
Qed.

Lemma urls_app (a b : list CarListing.t) : urls (a ++ b) = (urls a ++ urls b)%list.
Proof. apply map_app. Qed.

(** What one turn of the loop does to the session, whatever its
    outcome: the store stays, at most one row is staged, and that row is
    made from the listing and has a link that no row has yet. *)
Lemma add_one_facts (d : listing_dict) (w w' : Session.world) (r : Session.outcome unit) :
  add_one faults now d w = (r, w') ->
  Session.store w' = Session.store w
  /\ (Session.pending w' = Session.pending w
      \/ exists title url,
           get_default d "title" "" = Some title
           /\ get_default d "url" "" = Some url /\ url <> ""
           /\ ~ In url (urls (car_listings (Session.store w) ++ Session.pending w))
           /\ r = Session.Returns tt
           /\ Session.pending w' = (Session.pending w ++ [row_of now d title url])%list).
Proof.
  unfold add_one.
  destruct (get_default d "url" "") as [u|] eqn:Eu; cbn [PyStr.otruthy negb];
    [|intros [= _ <-]; auto].
  destruct (PyStr.truthy u) eqn:Et; cbn [negb]; [|intros [= _ <-]; auto].
  unfold Session.bind, Session.first_by_url, Session.round_trip, Session.bind.
  destruct (faults (Session.trips w)); [intros [= _ <-]; auto|].
  cbn [Session.store Session.pending default].
  destruct (find _ _) eqn:Ef; [intros [= _ <-]; auto|].
  destruct (get_default d "title" "") as [title|]; [|intros [= _ <-]; auto].
  intros [= <- <-]. split; [reflexivity|]. right. exists title, u.
  repeat split; auto.
  - intros ->. discriminate.
  - now apply find_url_none.
Qed.

Lemma add_all_facts (listings : list listing_dict) :
  forall (w w' : Session.world) (r : Session.outcome unit),
    add_all faults now listings w = (r, w') ->
    Session.store w' = Session.store w
    /\ exists rows,
         Session.pending w' = (Session.pending w ++ rows)%list
         /\ Forall (made_from now listings) rows
         /\ (List.NoDup (urls (car_listings (Session.store w) ++ Session.pending w)) ->
             List.NoDup (urls (car_listings (Session.store w) ++ Session.pending w ++ rows))).
Proof.
  induction listings as [|d ls IH]; intros w w' r H; simpl in H.
  - injection H as _ <-. split; [reflexivity|]. exists [].
    rewrite !app_nil_r. repeat split; auto.
  - unfold Session.bind in H.
    destruct (add_one faults now d w) as [r1 w1] eqn:E1.
    destruct (add_one_facts _ _ _ _ E1) as [Hs1 Hp1].
    assert (Hstep : exists rows1,
               Session.pending w1 = (Session.pending w ++ rows1)%list
               /\ Forall (made_from now (d :: ls)) rows1
               /\ (List.NoDup (urls (car_listings (Session.store w) ++ Session.pending w)) ->
                   List.NoDup (urls (car_listings (Session.store w)
                                     ++ Session.pending w ++ rows1)))).
    { destruct Hp1 as [Hp1|(title & url & Ht & Hu & Hne & Hnew & _ & Hp1)].
      - exists []. rewrite !app_nil_r. repeat split; auto.
      - exists [row_of now d title url]. split; [exact Hp1|]. split.
        + constructor; [|constructor]. exists d, title, url. repeat split; auto. now left.
        + intros Hnd. rewrite app_assoc, urls_app. cbn [urls map CarListing.url row_of].
          apply List.NoDup_app; [exact Hnd | repeat constructor; intros [] |].
          intros x Hx [<-|[]]. now apply Hnew. }
    destruct Hstep as (rows1 & Hp & Hf1 & Hn1).
    destruct r1 as [[]|e].
    + destruct (IH _ _ _ H) as (Hs2 & rows2 & Hp2 & Hf2 & Hn2).
      split; [congruence|]. exists (rows1 ++ rows2)%list. split; [|split].
      * rewrite Hp2, Hp. now rewrite app_assoc.
      * apply Forall_app. split; [exact Hf1|].
        eapply List.Forall_impl; [|exact Hf2].
        intros row (d' & t & u & Hin & ?). exists d', t, u. split; [now right | assumption].
      * intros Hnd. rewrite Hs1, Hp in Hn2. rewrite app_assoc.
        rewrite <- app_assoc in Hn2. rewrite <- !app_assoc in *.
        apply Hn2, Hn1, Hnd.
    + injection H as _ <-. split; [exact Hs1|]. exists rows1. auto.
Qed.

Lemma add_listings_facts (listings : list listing_dict) (w : Session.world) :
  Session.pending w = [] ->
  let w' := snd (add_listings faults now listings w) in
  fst (add_listings faults now listings w) = Session.Returns tt
  /\ Session.pending w' = []
  /\ market_analysis (Session.store w') = market_analysis (Session.store w)
  /\ exists rows,
       car_listings (Session.store w') = (car_listings (Session.store w) ++ rows)%list
       /\ Forall (made_from now listings) rows
       /\ (List.NoDup (urls (car_listings (Session.store w))) ->
           List.NoDup (urls (car_listings (Session.store w'))))
       /\ (rows = []
           \/ exists w1, add_listings_try faults now listings w = (Session.Returns tt, w1)).
Proof.
  intros Hp. cbv zeta. destruct listings as [|d ls].
  - cbn. repeat split; auto. exists []. rewrite app_nil_r. repeat split; auto.
  - unfold add_listings, Session.try_except, add_listings_try, Session.bind.
    destruct (add_all faults now (d :: ls) w) as [r1 w1] eqn:E1.
    destruct (add_all_facts _ _ _ _ E1) as (Hs & rows & Hp1 & Hf & Hn).
    rewrite Hp in Hp1, Hn. cbn [app] in Hp1, Hn. rewrite app_nil_r in Hn.
    destruct r1 as [[]|e].
    + unfold Session.commit, Session.bind, Session.round_trip.
      destruct (faults (Session.trips w1)); cbn.
      * rewrite Hs. repeat split; auto. exists []. rewrite app_nil_r. repeat split; auto.
      * rewrite Hs, Hp1. repeat split; auto. exists rows. repeat split; eauto.
    + cbn. rewrite Hs. repeat split; auto. exists []. rewrite app_nil_r.
      repeat split; auto.
Qed.

End AddListingsInvariants.

Section KnownLinks.

Variable faults : nat -> bool.
Variable now : PyDatetime.datetime.

(** The listing has the link [u], which is not empty. *)
Let has_link (d : listing_dict) (u : string) : Prop :=
  get_default d "url" "" = Some u /\ u <> "".

Lemma find_url_some (u : string) (rows : list CarListing.t) (row : CarListing.t) :
  List.find (fun l => String.eqb (CarListing.url l) u) rows = Some row -> In u (urls rows).
Proof.
  intros H. apply find_some in H as [Hin He]. apply String.eqb_eq in He. subst u.
  now apply in_map.
Qed.

(** After a turn of the loop that returns, the link of the listing is
    the link of a row, stored or staged. *)
Lemma add_one_covers (d : listing_dict) (w w' : Session.world) (u : string) :
  add_one faults now d w = (Session.Returns tt, w') -> has_link d u ->
  In u (urls (car_listings (Session.store w') ++ Session.pending w')).
Proof.
  unfold add_one. intros H [Hu Hne]. rewrite Hu in H.
  assert (Ht : PyStr.truthy u = true) by (destruct u; [congruence | reflexivity]).
  cbn [PyStr.otruthy default] in H. rewrite Ht in H. cbn [negb] in H.
  unfold Session.bind, Session.first_by_url, Session.round_trip, Session.bind in H.
  destruct (faults (Session.trips w)); [discriminate|].
  cbn [Session.store Session.pending] in H.
  destruct (find _ _) eqn:Ef.
  - injection H as <-. cbn. eapply find_url_some; eauto.
  - destruct (get_default d "title" "") as [title|]; [|discriminate].
    injection H as <-. cbn. rewrite app_assoc, urls_app. apply in_or_app. right.
    now left.
Qed.

Lemma add_all_covers (listings : list listing_dict) :
  forall (w w' : Session.world),
    add_all faults now listings w = (Session.Returns tt, w') ->
    forall d u, In d listings -> has_link d u ->
                In u (urls (car_listings (Session.store w') ++ Session.pending w')).
Proof.
  induction listings as [|d0 ls IH]; intros w w' H d u Hin Hl; [destruct Hin|].
  simpl in H. unfold Session.bind in H.
  destruct (add_one faults now d0 w) as [[[]|e] w1] eqn:E1; [|discriminate].
  destruct Hin as [<-|Hin]; [|eapply IH; eauto].
  pose proof (add_one_covers _ _ _ _ E1 Hl) as Hc.
  destruct (add_all_facts faults now _ _ _ _ H) as (Hs & rows & Hp & _).
  rewrite Hs, Hp, app_assoc, urls_app. apply in_or_app. now left.
Qed.

(** A turn of the loop on a listing whose link is known stages nothing. *)
Lemma add_one_known (d : listing_dict) (w w' : Session.world) (r : Session.outcome unit) :
  (forall u, has_link d u ->
             In u (urls (car_listings (Session.store w) ++ Session.pending w))) ->
  add_one faults now d w = (r, w') ->
  Session.store w' = Session.store w /\ Session.pending w' = Session.pending w.
Proof.
  intros Hknown H. destruct (add_one_facts faults now _ _ _ _ H) as [Hs Hp].
  split; [exact Hs|].
  destruct Hp as [Hp|(title & url & _ & Hu & Hne & Hnew & _)]; [exact Hp|].
  exfalso. apply Hnew, Hknown. now split.
Qed.

Lemma add_all_known (listings : list listing_dict) :
  forall (w w' : Session.world) (r : Session.outcome unit),
    (forall d u, In d listings -> has_link d u ->
                 In u (urls (car_listings (Session.store w) ++ Session.pending w))) ->
    add_all faults now listings w = (r, w') ->
    Session.store w' = Session.store w /\ Session.pending w' = Session.pending w.
Proof.
  induction listings as [|d0 ls IH]; intros w w' r Hknown H; simpl in H.
  - injection H as _ <-. auto.
  - unfold Session.bind in H.
    destruct (add_one faults now d0 w) as [r1 w1] eqn:E1.
    destruct (add_one_known d0 w w1 r1) as [Hs1 Hp1]; auto.
    { intros u Hu. apply (Hknown d0); [now left | exact Hu]. }
    destruct r1 as [[]|e].
    + destruct (IH w1 w' r) as [Hs2 Hp2]; auto; [|split; congruence].
      intros d u Hin Hu. rewrite Hs1, Hp1. apply (Hknown d); [now right | exact Hu].
    + injection H as _ <-. auto.
Qed.

End KnownLinks.

(** X8: whatever the batch and whatever fails, [add_listings] returns
    normally with nothing left staged; it leaves the analysis table and
    the rows that were stored as they are, and the rows it adds after
    them all come from listings of the batch that have a title and a
    link, with the year, make and model read from the title.  No link
    is ever stored twice: links that were pairwise distinct before the
    call are so after it. *)
Theorem add_listings_appends_new_links
    (faults : nat -> bool) (now : PyDatetime.datetime)
    (listings : list listing_dict) (w : Session.world) :
  Session.pending w = [] ->
  let w' := snd (add_listings faults now listings w) in
  fst (add_listings faults now listings w) = Session.Returns tt
  /\ Session.pending w' = []
  /\ market_analysis (Session.store w') = market_analysis (Session.store w)
  /\ exists rows,
       car_listings (Session.store w') = (car_listings (Session.store w) ++ rows)%list
       /\ Forall (made_from now listings) rows
       /\ (List.NoDup (urls (car_listings (Session.store w))) ->
           List.NoDup (urls (car_listings (Session.store w')))).
Proof.
  intros Hp. destruct (add_listings_facts faults now listings w Hp)
    as (H1 & H2 & H3 & rows & H4 & H5 & H6 & _).
  repeat split; auto. exists rows. auto.
Qed.

Lemma add_listings_appends_new_links_witness :
  fst (add_listings (fun k => Nat.eqb k 1) sample_time batch_of_two
         (Session.mk_world (mk_database three_camrys []) [] 0))
  = Session.Returns tt.
Proof.
  exact (proj1 (add_listings_appends_new_links (fun k => Nat.eqb k 1) sample_time
                  batch_of_two (Session.mk_world (mk_database three_camrys []) [] 0)
                  eq_refl)).
Defined.

(** X9: storing a batch a second time: once [add_listings] has committed a
    batch, a further call with the same batch changes nothing in the
    store, at whatever time it runs and whatever fails in it. *)
Theorem add_listings_again
    (faults : nat -> bool) (now : PyDatetime.datetime)
    (listings : list listing_dict) (w w1 : Session.world) :
  Session.pending w = [] ->
  add_listings_try faults now listings w = (Session.Returns tt, w1) ->
  forall (faults' : nat -> bool) (now' : PyDatetime.datetime),
    let w2 := snd (add_listings faults' now' listings w1) in
    Session.store w2 = Session.store w1 /\ Session.pending w2 = [].
Proof.
  intros Hp Htry faults' now'. cbv zeta.
  unfold add_listings_try, Session.bind in Htry.
  destruct (add_all faults now listings w) as [[[]|e] wa] eqn:Ea; [|discriminate].
  pose proof (add_all_covers faults now _ _ _ Ea) as Hcov.
  unfold Session.commit, Session.bind, Session.round_trip in Htry.
  destruct (faults (Session.trips wa)); [discriminate|].
  injection Htry as <-. cbn [Session.store Session.pending car_listings] in *.
  destruct listings as [|d ls]; [auto|].
  unfold add_listings, Session.try_except, add_listings_try, Session.bind.
  destruct (add_all faults' now' (d :: ls) _) as [r2 wb] eqn:Eb.
  apply add_all_known in Eb as [Hs2 Hp2].
  2:{ intros d' u Hin Hl. cbn. rewrite app_nil_r. eauto. }
  cbn in Hs2, Hp2.
  destruct r2 as [[]|e2].
  - unfold Session.commit, Session.bind, Session.round_trip.
    destruct (faults' (Session.trips wb)); cbn; rewrite ?Hs2, ?Hp2; cbn;
      rewrite ?app_nil_r; auto.
  - cbn. auto.
Qed.

Lemma add_listings_again_witness :
  let w := Session.mk_world (mk_database three_camrys []) [] 0 in
  let w1 := snd (add_listings_try (fun _ => false) sample_time batch_of_two w) in
  Session.store (snd (add_listings (fun k => Nat.eqb k 5) sample_time batch_of_two w1))
  = Session.store w1.
Proof.
  refine (proj1 (add_listings_again (fun _ => false) sample_time batch_of_two
                   (Session.mk_world (mk_database three_camrys []) [] 0) _ _ _
                   (fun k => Nat.eqb k 5) sample_time)).
  - reflexivity.
  - vm_compute. reflexivity.
Defined.

(** X10: from one run to the next: once [add_listings] has committed a batch,
    [get_existing_urls] returns a set that holds the link of every
    listing of the batch, provided its query succeeds, and the scraper
    then skips every result with such a link; when the query fails the
    set is empty. *)
Theorem stored_links_are_known
    (faults : nat -> bool) (now : PyDatetime.datetime)
    (listings : list listing_dict) (w w1 : Session.world) (faults' : nat -> bool) :
  Session.pending w = [] ->
  add_listings_try faults now listings w = (Session.Returns tt, w1) ->
  exists existing_urls,
    fst (get_existing_urls faults' w1) = Session.Returns existing_urls
    /\ (faults' (Session.trips w1) = true -> existing_urls = ∅)
    /\ (faults' (Session.trips w1) = false ->
        forall d u, In d listings -> get_default d "url" "" = Some u -> u <> "" ->
          u ∈ existing_urls
          /\ forall title filter_keywords,
               Scraper.skipped title (Some u) existing_urls filter_keywords = true).
Proof.
  intros Hp Htry.
  unfold add_listings_try, Session.bind in Htry.
  destruct (add_all faults now listings w) as [[[]|e] wa] eqn:Ea; [|discriminate].
  pose proof (add_all_covers faults now _ _ _ Ea) as Hcov.
  unfold Session.commit, Session.bind, Session.round_trip in Htry.
  destruct (faults (Session.trips wa)); [discriminate|].
  assert (Hst : car_listings (Session.store w1)
                = (car_listings (Session.store wa) ++ Session.pending wa)%list
                /\ Session.pending w1 = []) by (injection Htry as <-; auto).
  destruct Hst as [Hst Hp1]. clear Htry.
  unfold get_existing_urls, Session.try_except, Session.bind, Session.round_trip.
  destruct (faults' (Session.trips w1)).
  - exists ∅. cbn. split; [reflexivity|]. split; [reflexivity|].
    intros H. discriminate H.
  - eexists. cbn. split; [reflexivity|]. split; [intros H; discriminate H|].
    intros _ d u Hin Hu Hne.
    assert (Hel : u ∈ (list_to_set
                   (map CarListing.url (car_listings (Session.store w1) ++ Session.pending w1))
                   : gset string)).
    { apply elem_of_list_to_set, list_elem_of_In. rewrite Hst, Hp1, app_nil_r.
      apply (Hcov d u Hin). now split. }
    split; [exact Hel|]. intros title kw. unfold Scraper.skipped.
    destruct (negb (PyStr.otruthy title) || negb (PyStr.otruthy (Some u))); [reflexivity|].
    cbn [default]. now rewrite bool_decide_eq_true_2.
Qed.

Lemma stored_links_are_known_witness :
  let w := Session.mk_world (mk_database three_camrys []) [] 0 in
  let w1 := snd (add_listings_try (fun _ => false) sample_time batch_of_two w) in
  exists existing_urls,
    fst (get_existing_urls (fun _ => false) w1) = Session.Returns existing_urls
    /\ "https://example.org/7.html" ∈ existing_urls.
Proof.
  cbv zeta.
  destruct (stored_links_are_known (fun _ => false) sample_time batch_of_two
              (Session.mk_world (mk_database three_camrys []) [] 0)
              (snd (add_listings_try (fun _ => false) sample_time batch_of_two
                      (Session.mk_world (mk_database three_camrys []) [] 0)))
              (fun _ => false) eq_refl ltac:(vm_compute; reflexivity))
    as (urls & Hret & _ & Hin).
  exists urls. split; [exact Hret|].
  refine (proj1 (Hin eq_refl (nth 0 batch_of_two ∅) "https://example.org/7.html" _ _ _)).
  - now left.
  - vm_compute. reflexivity.
  - discriminate.
Defined.

(* ===================================================================== *)
(** ** Running the market analysis again *)
(* ===================================================================== *)

Section UpsertAlgebra.

Let keys (table : list MarketAnalysis.t) : list (string * string) := map row_key table.

Lemma upsert_keys_in (a : MarketAnalysis.t) (table : list MarketAnalysis.t) (k : string * string) :
  In k (keys table) -> In k (keys (upsert a table)).
Proof.
  induction table as [|r rest IH]; simpl; [tauto|].
  destruct (_ && _) eqn:E.
  - apply same_key_eq in E. simpl. rewrite E. tauto.
  - simpl. intros [H|H]; auto.
Qed.

Lemma upsert_key_in (a : MarketAnalysis.t) (table : list MarketAnalysis.t) :
  In (row_key a) (keys (upsert a table)).
Proof. apply in_map, upsert_in. Qed.

Lemma upsert_all_keys_in (rows : list MarketAnalysis.t) :
  forall table k, In k (keys table) -> In k (keys (upsert_all rows table)).
Proof.
  induction rows as [|a rows IH]; intros table k H; simpl; [exact H|].
  apply IH, upsert_keys_in, H.
Qed.

Lemma upsert_all_key_in (rows : list MarketAnalysis.t) :
  forall table a, In a rows -> In (row_key a) (keys (upsert_all rows table)).
Proof.
  induction rows as [|b rows IH]; intros table a H; [destruct H|].
  destruct H as [<-|H]; simpl.
  - apply upsert_all_keys_in, upsert_key_in.
  - now apply IH.
Qed.

Lemma same_key_congr (r a b : MarketAnalysis.t) :
  row_key a = row_key b ->
  String.eqb (MarketAnalysis.make r) (MarketAnalysis.make a)
  && String.eqb (MarketAnalysis.model r) (MarketAnalysis.model a)
  = String.eqb (MarketAnalysis.make r) (MarketAnalysis.make b)
    && String.eqb (MarketAnalysis.model r) (MarketAnalysis.model b).
Proof. unfold row_key. intros [= -> ->]. reflexivity. Qed.

Lemma same_key_false (a b : MarketAnalysis.t) :
  row_key a <> row_key b ->
  String.eqb (MarketAnalysis.make a) (MarketAnalysis.make b)
  && String.eqb (MarketAnalysis.model a) (MarketAnalysis.model b) = false.
Proof.
  intros H. destruct (_ && _) eqn:E; [|reflexivity]. now apply same_key_eq in E.
Qed.

(** A second row of the same key replaces the first one. *)
Lemma upsert_absorb (a b : MarketAnalysis.t) (table : list MarketAnalysis.t) :
  row_key a = row_key b -> upsert b (upsert a table) = upsert b table.
Proof.
  intros Hk. induction table as [|r rest IH]; simpl.
  - rewrite (proj2 (same_key_eq a b) Hk). reflexivity.
  - destruct (String.eqb (MarketAnalysis.make r) (MarketAnalysis.make a)
              && String.eqb (MarketAnalysis.model r) (MarketAnalysis.model a)) eqn:Ea.
    + apply same_key_eq in Ea. simpl.
      rewrite (proj2 (same_key_eq a b) Hk).
      rewrite (proj2 (same_key_eq r b)) by congruence. reflexivity.
    + simpl. rewrite <- (same_key_congr r a b Hk), Ea. now rewrite IH.
Qed.

(** Rows of different keys can be written in either order when the
    second key has a row already. *)
Lemma upsert_commute (a b : MarketAnalysis.t) (table : list MarketAnalysis.t) :
  row_key a <> row_key b -> In (row_key b) (keys table) ->
  upsert a (upsert b table) = upsert b (upsert a table).
Proof.
  intros Hk. induction table as [|r rest IH]; simpl; [tauto|]. intros Hin.
  destruct (String.eqb (MarketAnalysis.make r) (MarketAnalysis.make b)
            && String.eqb (MarketAnalysis.model r) (MarketAnalysis.model b)) eqn:Eb;
    destruct (String.eqb (MarketAnalysis.make r) (MarketAnalysis.make a)
              && String.eqb (MarketAnalysis.model r) (MarketAnalysis.model a)) eqn:Ea.
  - apply same_key_eq in Ea, Eb. congruence.
  - simpl. rewrite Eb. rewrite same_key_false by congruence. reflexivity.
  - simpl. rewrite Ea. rewrite same_key_false by congruence. reflexivity.
  - simpl. rewrite Ea, Eb. f_equal. apply IH.
    destruct Hin as [Hin|Hin]; [|exact Hin].
    exfalso. apply (proj2 (same_key_eq r b)) in Hin. congruence.
Qed.

Lemma upsert_all_commute (rows : list MarketAnalysis.t) (a : MarketAnalysis.t) :
  forall table,
    (forall b, In b rows -> row_key a <> row_key b /\ In (row_key b) (keys table)) ->
    upsert_all rows (upsert a table) = upsert a (upsert_all rows table).
Proof.
  induction rows as [|b rows IH]; intros table H; simpl; [reflexivity|].
  destruct (H b (or_introl eq_refl)) as [Hk Hin].
  rewrite <- (upsert_commute a b table Hk Hin). apply IH.
  intros c Hc. destruct (H c (or_intror Hc)) as [Hkc Hinc].
  split; [exact Hkc | now apply upsert_keys_in].
Qed.

Lemma upsert_all_app (r1 r2 table : list MarketAnalysis.t) :
  upsert_all (r1 ++ r2) table = upsert_all r2 (upsert_all r1 table).
Proof. apply fold_left_app. Qed.

(** Writing the rows of a run and then rows of the same keys again
    leaves the table that the second rows alone give. *)
Lemma upsert_all_twice (f : MarketAnalysis.t -> MarketAnalysis.t) (rows : list MarketAnalysis.t) :
  (forall a, row_key (f a) = row_key a) ->
  List.NoDup (keys rows) ->
  forall table,
    upsert_all (map f rows) (upsert_all rows table) = upsert_all (map f rows) table.
Proof.
  intros Hf. induction rows as [|a rows IH] using rev_ind; intros Hnd table; [reflexivity|].
  unfold keys in Hnd. rewrite map_app in Hnd. cbn [map] in Hnd.
  assert (Hnd' : List.NoDup (keys rows)) by (eapply NoDup_app_remove_r; eauto).
  assert (Hfresh : ~ In (row_key a) (keys rows)).
  { intros Hin. apply NoDup_remove_2 in Hnd. apply Hnd. rewrite app_nil_r. exact Hin. }
  rewrite map_app, !upsert_all_app. cbn [map upsert_all fold_left].
  change (fold_left (fun table a => upsert a table) ?r ?t) with (upsert_all r t).
  rewrite upsert_all_commute.
  - rewrite upsert_absorb by (symmetry; apply Hf). now rewrite IH.
  - intros b Hb. apply in_map_iff in Hb as (b0 & <- & Hb0). rewrite Hf. split.
    + intros E. apply Hfresh. rewrite E. now apply in_map.
    + now apply upsert_all_key_in.
Qed.

Lemma upsert_keys_nodup (a : MarketAnalysis.t) (table : list MarketAnalysis.t) :
  List.NoDup (keys table) -> List.NoDup (keys (upsert a table)).
Proof.
  induction table as [|r rest IH]; simpl; intros Hnd.
  - repeat constructor. intros [].
  - destruct (_ && _) eqn:E.
    + apply same_key_eq in E. simpl. rewrite <- E. exact Hnd.
    + inversion Hnd as [|? ? Hr Hrest]; subst. simpl. constructor; [|now apply IH].
      intros Hin. apply in_map_iff in Hin as (x & Hx & Hin).
      assert (Hcases : x = a \/ In x rest).
      { clear -Hin. induction rest as [|y rest IH]; simpl in Hin.
        - destruct Hin as [<-|[]]. now left.
        - destruct (_ && _); destruct Hin as [<-|Hin]; auto.
          + right. now right.
          + right. now left.
          + destruct (IH Hin); auto. right. now right. }
      destruct Hcases as [->|Hx'].
      * symmetry in Hx. apply (proj2 (same_key_eq r a)) in Hx. congruence.
      * apply Hr. rewrite <- Hx. now apply in_map.
Qed.

Lemma upsert_length (a : MarketAnalysis.t) (table : list MarketAnalysis.t) :
  (length table <= length (upsert a table))%nat.
Proof.
  induction table as [|r rest IH]; simpl; [lia|]. destruct (_ && _); simpl; lia.
Qed.

End UpsertAlgebra.

Section Restamp.

Variable ls : list CarListing.t.

Lemma omap_option_map {A B C : Type} (h : A -> option B) (f : B -> C) (l : list A) :
  omap (fun x => option_map f (h x)) l = map f (omap h l).
Proof.
  induction l as [|x l IH]; [reflexivity|].
  rewrite !omap_cons. destruct (h x); simpl; now rewrite IH.
Qed.

Lemma omap_ext {A B : Type} (f g : A -> option B) (l : list A) :
  (forall x, f x = g x) -> omap f l = omap g l.
Proof.
  intros H. induction l as [|x l IH]; [reflexivity|].
  now rewrite !omap_cons, H, IH.
Qed.

(** The rows of a run depend on the time of the run by their time stamp
    only. *)
Lemma rows_written_restamp (now1 now2 : PyDatetime.datetime) :
  rows_written now2 ls = map (restamp now2) (rows_written now1 ls).
Proof.
  unfold rows_written. rewrite <- omap_option_map. apply omap_ext.
  intros [[make model] n]. unfold analyse_group.
  destruct (_ || _); [reflexivity|]. unfold analyse.
  destruct (_ <? 3); reflexivity.
Qed.

Lemma map_cons_eq {A B : Type} (f : A -> B) (a b : A) (l m : list A) :
  map f (a :: l) = map f (b :: m) -> f a = f b /\ map f l = map f m.
Proof. cbn [map]. intros H. split; congruence. Qed.

Lemma statistics_key (a b : MarketAnalysis.t) :
  statistics a = statistics b ->
  MarketAnalysis.make a = MarketAnalysis.make b
  /\ MarketAnalysis.model a = MarketAnalysis.model b.
Proof. unfold statistics. intros H. inversion H. auto. Qed.

(** A row written with another time stamp leaves the same aggregates
    in the table. *)
Lemma upsert_statistics (a b : MarketAnalysis.t) (t1 t2 : list MarketAnalysis.t) :
  statistics a = statistics b -> map statistics t1 = map statistics t2 ->
  map statistics (upsert a t1) = map statistics (upsert b t2).
Proof.
  intros Hab. revert t2. induction t1 as [|r1 t1 IH]; intros [|r2 t2] Ht; try discriminate.
  - cbn [upsert map]. now rewrite Hab.
  - apply map_cons_eq in Ht as [Hr Ht]. cbn [upsert].
    assert (Ek : String.eqb (MarketAnalysis.make r1) (MarketAnalysis.make a)
                 && String.eqb (MarketAnalysis.model r1) (MarketAnalysis.model a)
                 = String.eqb (MarketAnalysis.make r2) (MarketAnalysis.make b)
                   && String.eqb (MarketAnalysis.model r2) (MarketAnalysis.model b)).
    { destruct (statistics_key _ _ Hab) as [-> ->].
      destruct (statistics_key _ _ Hr) as [-> ->]. reflexivity. }
    rewrite Ek. clear Ek. destruct (_ && _); cbn [map].
    + now rewrite Hab, Ht.
    + now rewrite Hr, (IH t2 Ht).
Qed.

Lemma upsert_all_statistics (f : MarketAnalysis.t -> MarketAnalysis.t)
    (rows : list MarketAnalysis.t) :
  (forall a, statistics (f a) = statistics a) ->
  forall t1 t2, map statistics t1 = map statistics t2 ->
    map statistics (upsert_all (map f rows) t1) = map statistics (upsert_all rows t2).
Proof.
  intros Hf. induction rows as [|a rows IH]; intros t1 t2 Ht; [exact Ht|].
  simpl. apply IH. now apply upsert_statistics.
Qed.

(** The row found for a make and model shows the aggregate found in the
    list of the aggregates. *)
Lemma find_row_statistics (make model : string) (t1 t2 : list MarketAnalysis.t) :
  map statistics t1 = map statistics t2 ->
  option_map statistics (find_row make model t1)
  = option_map statistics (find_row make model t2).
Proof.
  revert t2. induction t1 as [|r1 t1 IH]; intros [|r2 t2] Ht; try discriminate;
    [reflexivity|].
  apply map_cons_eq in Ht as [Hr Ht]. unfold find_row. cbn [find].
  assert (Ek : String.eqb (MarketAnalysis.make r1) make
               && String.eqb (MarketAnalysis.model r1) model
               = String.eqb (MarketAnalysis.make r2) make
                 && String.eqb (MarketAnalysis.model r2) model).
  { destruct (statistics_key _ _ Hr) as [-> ->]. reflexivity. }
  rewrite Ek. clear Ek. destruct (_ && _); [cbn [option_map]; now rewrite Hr | now apply IH].
Qed.

(** After a run, a second run on the same listings leaves every
    aggregate as it is. *)
Lemma second_run_statistics (now1 now2 : PyDatetime.datetime) (table : list MarketAnalysis.t) :
  map statistics (upsert_all (rows_written now2 ls) (upsert_all (rows_written now1 ls) table))
  = map statistics (upsert_all (rows_written now1 ls) table).
Proof.
  rewrite (rows_written_restamp now1 now2).
  rewrite (upsert_all_twice (restamp now2)); [|reflexivity|apply rows_written_nodup].
  now apply upsert_all_statistics.
Qed.

End Restamp.

(** X11: running the analysis twice.  On a table with one row at most per
    make and model and an unchanged corpus, a second run changes no
    aggregate: the row found for any make and model after the second
    run has the same make, model, years, prices and sample size as the
    row found after the first, the time stamp [created_at] apart; the
    second run adds no row, the rows stay one per make and model, and
    no run touches the listings. *)
Theorem update_market_analysis_twice (now1 now2 : PyDatetime.datetime) (d : database) :
  List.NoDup (map row_key (market_analysis d)) ->
  let d1 := update_market_analysis now1 d in
  let d2 := update_market_analysis now2 d1 in
  car_listings d2 = car_listings d
  /\ List.NoDup (map row_key (market_analysis d2))
  /\ length (market_analysis d2) = length (market_analysis d1)
  /\ forall make model,
       option_map statistics (find_row make model (market_analysis d2))
       = option_map statistics (find_row make model (market_analysis d1)).
Proof.
  intros Hnd. cbv zeta. unfold update_market_analysis. cbn [car_listings market_analysis].
  change (fold_left (fun table a => upsert a table) ?r ?t) with (upsert_all r t).
  pose proof (second_run_statistics (car_listings d) now1 now2 (market_analysis d)) as Hs.
  split; [reflexivity|]. split; [|split].
  - assert (Hkeep : forall rows table,
              List.NoDup (map row_key table) ->
              List.NoDup (map row_key (upsert_all rows table))).
    { induction rows as [|a rows IH]; intros table H; [exact H|].
      simpl. apply IH. now apply upsert_keys_nodup. }
    now apply Hkeep, Hkeep.
  - apply (f_equal (@length _)) in Hs. now rewrite !length_map in Hs.
  - intros make model. now apply find_row_statistics.
Qed.

Lemma update_market_analysis_twice_witness :
  length (market_analysis
            (update_market_analysis sample_time
               (update_market_analysis sample_time (mk_database three_camrys []))))
  = length (market_analysis (update_market_analysis sample_time
                               (mk_database three_camrys []))).
Proof.
  refine (proj1 (proj2 (proj2 (update_market_analysis_twice sample_time sample_time
                                 (mk_database three_camrys []) _)))).
  constructor.
Defined.

(** X12: what a run leaves alone: the listings; every row of the table whose
    make and model the run does not write, so that the aggregate of a
    group that has fallen under three priced listings stays as it was;
    and the keys: every make and model that had a row has one after the
    run, the table never gets shorter, and when no two rows had the same
    make and model before the run, none have after it. *)
Theorem update_market_analysis_keeps
    (now : PyDatetime.datetime) (d : database) :
  let d' := update_market_analysis now d in
  car_listings d' = car_listings d
  /\ (forall r, In r (market_analysis d) ->
                (forall a, In a (rows_written now (car_listings d)) -> row_key r <> row_key a) ->
                In r (market_analysis d'))
  /\ (forall k, In k (map row_key (market_analysis d)) ->
                In k (map row_key (market_analysis d')))
  /\ (length (market_analysis d) <= length (market_analysis d'))%nat
  /\ (List.NoDup (map row_key (market_analysis d)) ->
      List.NoDup (map row_key (market_analysis d'))).
Proof.
  cbv zeta. unfold update_market_analysis. cbn [car_listings market_analysis].
  split; [reflexivity|]. split; [|split; [|split]].
  - intros r Hr Hother. now apply upsert_all_keeps.
  - intros k Hk. now apply (upsert_all_keys_in (rows_written now (car_listings d))).
  - generalize (market_analysis d). induction (rows_written now (car_listings d)) as [|a rows IH];
      intros table; simpl; [lia|].
    specialize (IH (upsert a table)). pose proof (upsert_length a table). lia.
  - generalize (market_analysis d). induction (rows_written now (car_listings d)) as [|a rows IH];
      intros table Hnd; simpl; [exact Hnd|].
    apply IH. now apply upsert_keys_nodup.
Qed.

Lemma update_market_analysis_keeps_witness :
  let stale := MarketAnalysis.mk "Honda" "Civic" (Some 2012) (Some 2014)
                 (PyFloat.of_Z 6000) (PyFloat.of_Z 6000) (PyFloat.of_Z 5000)
                 (PyFloat.of_Z 7000) 3 sample_time in
  In stale (market_analysis
              (update_market_analysis sample_time (mk_database three_camrys [stale]))).
Proof.
  cbv zeta.
  refine (proj1 (proj2 (update_market_analysis_keeps sample_time
                          (mk_database three_camrys [_]))) _ _ _).
  - now left.
  - intros a Ha. vm_compute in Ha. destruct Ha as [<-|[]]. vm_compute. intros H. discriminate H.
Defined.

Section PriceStatistics.

Import PyFloat.

Lemma min_bounds (r : list float) :
  forall x, no_nan (x :: r) ->
    let m := fold_left (fun m y => if ltb y m then y else m) r x in
    In m (x :: r) /\ forall p, In p (x :: r) -> leb m p = true.
Proof.
  induction r as [|y r IH]; intros x Hn; cbn [fold_left].
  - inversion Hn; subst. split; [now left|]. intros p [<-|[]]. now apply leb_refl.
  - inversion Hn as [|? ? Hx Hn']; subst. inversion Hn' as [|? ? Hy Hr]; subst.
    set (x' := if ltb y x then y else x).
    assert (Hx' : is_nan x' = false) by (subst x'; destruct (ltb y x); assumption).
    destruct (IH x' ltac:(constructor; assumption)) as [Hin Hle]. cbv zeta in Hin, Hle.
    assert (Hxx : leb x' x = true /\ leb x' y = true).
    { subst x'. destruct (ltb y x) eqn:E.
      - split; [now apply ltb_leb | now apply leb_refl].
      - split; [now apply leb_refl | now apply ltb_false_leb]. }
    split.
    + destruct Hin as [Hin|Hin]; [|now right; right].
      rewrite <- Hin. subst x'. destruct (ltb y x); [right; now left | now left].
    + intros p [<-|[<-|Hp]].
      * eapply leb_trans; [apply Hle; now left | apply Hxx].
      * eapply leb_trans; [apply Hle; now left | apply Hxx].
      * apply Hle. now right.
Qed.

Lemma max_bounds (r : list float) :
  forall x, no_nan (x :: r) ->
    let m := fold_left (fun m y => if ltb m y then y else m) r x in
    In m (x :: r) /\ forall p, In p (x :: r) -> leb p m = true.
Proof.
  induction r as [|y r IH]; intros x Hn; cbn [fold_left].
  - inversion Hn; subst. split; [now left|]. intros p [<-|[]]. now apply leb_refl.
  - inversion Hn as [|? ? Hx Hn']; subst. inversion Hn' as [|? ? Hy Hr]; subst.
    set (x' := if ltb x y then y else x).
    assert (Hx' : is_nan x' = false) by (subst x'; destruct (ltb x y); assumption).
    destruct (IH x' ltac:(constructor; assumption)) as [Hin Hle]. cbv zeta in Hin, Hle.
    assert (Hxx : leb x x' = true /\ leb y x' = true).
    { subst x'. destruct (ltb x y) eqn:E.
      - split; [now apply ltb_leb | now apply leb_refl].
      - split; [now apply leb_refl | now apply ltb_false_leb]. }
    split.
    + destruct Hin as [Hin|Hin]; [|now right; right].
      rewrite <- Hin. subst x'. destruct (ltb x y); [right; now left | now left].
    + intros p [<-|[<-|Hp]].
      * eapply leb_trans; [apply Hxx | apply Hle; now left].
      * eapply leb_trans; [apply Hxx | apply Hle; now left].
      * apply Hle. now right.
Qed.

End PriceStatistics.

(** X13: the statistics of a row: in every row that a run writes, the
    minimum, the maximum and the median are prices of listings of the
    group; when no price of the group is a NaN, every price of the group
    is between the minimum and the maximum, and so is the median. *)
Theorem price_statistics_bounds
    (now : PyDatetime.datetime) (ls : list CarListing.t) (a : MarketAnalysis.t) :
  In a (rows_written now ls) ->
  let prices := valid_prices ls (MarketAnalysis.make a) (MarketAnalysis.model a) in
  In (MarketAnalysis.min_price a) prices
  /\ In (MarketAnalysis.max_price a) prices
  /\ In (MarketAnalysis.median_price a) prices
  /\ (no_nan prices ->
      (forall p, In p prices ->
         PyFloat.leb (MarketAnalysis.min_price a) p = true
         /\ PyFloat.leb p (MarketAnalysis.max_price a) = true)
      /\ PyFloat.leb (MarketAnalysis.min_price a) (MarketAnalysis.median_price a) = true
      /\ PyFloat.leb (MarketAnalysis.median_price a) (MarketAnalysis.max_price a) = true).
Proof.
  intros Ha. apply rows_written_in in Ha as (mk & md & _ & _ & _ & _ & Han).
  apply analyse_some in Han as [Hlen ->]. cbn in *.
  rewrite parse_prices_priced in *.
  set (prices := valid_prices ls mk md) in *.
  assert (Hmed : In (nth (length prices / 2) (PyFloat.sorted prices) S754_nan) prices).
  { apply (Permutation_in _ (sorted_perm prices)). apply nth_In.
    rewrite sorted_length. apply Nat.div_lt; lia. }
  destruct prices as [|x r] eqn:Ep; [simpl in Hlen; lia|].
  cbn [PyFloat.min PyFloat.max default].
  assert (Hmin : In (fold_left (fun m y => if PyFloat.ltb y m then y else m) r x) (x :: r)).
  { clear. revert x. induction r as [|y r IH]; intros x; cbn [fold_left]; [now left|].
    destruct (IH (if PyFloat.ltb y x then y else x)) as [H|H]; [|now right; right].
    rewrite <- H. destruct (PyFloat.ltb y x); [right; now left | now left]. }
  assert (Hmax : In (fold_left (fun m y => if PyFloat.ltb m y then y else m) r x) (x :: r)).
  { clear. revert x. induction r as [|y r IH]; intros x; cbn [fold_left]; [now left|].
    destruct (IH (if PyFloat.ltb x y then y else x)) as [H|H]; [|now right; right].
    rewrite <- H. destruct (PyFloat.ltb x y); [right; now left | now left]. }
  repeat split; auto.
  - apply (proj2 (min_bounds r x H)); assumption.
  - apply (proj2 (max_bounds r x H)); assumption.
  - apply (proj2 (min_bounds r x H)); assumption.
  - apply (proj2 (max_bounds r x H)); assumption.
Qed.

Lemma price_statistics_bounds_witness :
  let a := MarketAnalysis.mk "Toyota" "Camry" (Some 2015) (Some 2016)
             (PyFloat.of_Z 13000) (PyFloat.of_Z 14000) (PyFloat.of_Z 10000)
             (PyFloat.of_Z 16000) 4 sample_time in
  PyFloat.leb (MarketAnalysis.min_price a) (MarketAnalysis.median_price a) = true.
Proof.
  cbv zeta.
  refine (proj1 (proj2 (proj2 (proj2 (proj2 (price_statistics_bounds sample_time four_camrys
            (MarketAnalysis.mk "Toyota" "Camry" (Some 2015) (Some 2016)
               (PyFloat.of_Z 13000) (PyFloat.of_Z 14000) (PyFloat.of_Z 10000)
               (PyFloat.of_Z 16000) 4 sample_time) _))) _))).
  - vm_compute. left. reflexivity.
  - vm_compute. repeat constructor.
Defined.

(* ===================================================================== *)
(** ** The market analysis against the session *)
(* ===================================================================== *)

Section UpdateAgainstSession.

Variable faults : nat -> bool.
Variable now : PyDatetime.datetime.
Variable ls : list CarListing.t.

(** The loop changes nothing in the store; when it returns, it returns
    the table with the rows of the groups written into it. *)
Lemma update_groups_returns (groups : list (option string * option string * Z)) :
  forall (table : list MarketAnalysis.t) (w w' : Session.world)
         (r : Session.outcome (list MarketAnalysis.t)),
    update_groups faults now ls groups table w = (r, w') ->
    Session.store w' = Session.store w /\ Session.pending w' = Session.pending w
    /\ match r with
       | Session.Returns t => t = upsert_all (omap (analyse_group now ls) groups) table
       | Session.Raises _ => True
       end.
Proof.
  induction groups as [|[[make model] n] groups IH]; intros table w w' r H.
  - injection H as <- <-. auto.
  - rewrite omap_cons. cbn [update_groups] in H. unfold analyse_group.
    destruct (negb (PyStr.otruthy make) || negb (PyStr.otruthy model)); [now apply IH|].
    unfold Session.bind at 1, Session.round_trip at 1 in H.
    destruct (faults (Session.trips w)); [injection H as <- <-; auto|].
    destruct (analyse now _ _ _) as [a|].
    + unfold Session.bind at 1, Session.round_trip at 1 in H.
      cbn [Session.trips] in H.
      destruct (faults (S (Session.trips w))); [injection H as <- <-; auto|].
      destruct (IH _ _ _ _ H) as (Hs & Hp & Hr). auto.
    + destruct (IH _ _ _ _ H) as (Hs & Hp & Hr). auto.
Qed.

(** When the database answers, the loop returns. *)
Lemma update_groups_answers (groups : list (option string * option string * Z)) :
  (forall k, faults k = false) ->
  forall (table : list MarketAnalysis.t) (w : Session.world),
    exists t w', update_groups faults now ls groups table w = (Session.Returns t, w').
Proof.
  intros Hf. induction groups as [|[[make model] n] groups IH]; intros table w.
  - eexists _, _. reflexivity.
  - cbn [update_groups].
    destruct (negb (PyStr.otruthy make) || negb (PyStr.otruthy model)); [apply IH|].
    unfold Session.bind at 1, Session.round_trip at 1. rewrite Hf.
    destruct (analyse now _ _ _) as [a|]; [|apply IH].
    unfold Session.bind at 1, Session.round_trip at 1. rewrite Hf. apply IH.
Qed.

End UpdateAgainstSession.

Section UpdateTry.

Variable faults : nat -> bool.
Variable now : PyDatetime.datetime.

Lemma update_try_outcome (w w1 : Session.world) (r : Session.outcome unit) :
  update_market_analysis_try faults now w = (r, w1) ->
  match r with
  | Session.Returns _ => Session.store w1 = update_market_analysis now (Session.store w)
  | Session.Raises _ => Session.store w1 = Session.store w
  end.
Proof.
  unfold update_market_analysis_try.
  unfold Session.bind at 1, Session.round_trip at 1.
  destruct (faults (Session.trips w)); [intros [= <- <-]; reflexivity|].
  cbn [Session.store Session.pending Session.trips].
  unfold Session.bind at 1.
  destruct (update_groups faults now (car_listings (Session.store w)) _ _ _) as [r1 w2] eqn:E1.
  pose proof (update_groups_returns faults now _ _ _ _ _ _ E1) as (Hs & Hp & Hr).
  cbn [Session.store Session.pending] in Hs, Hp.
  destruct r1 as [t|e]; [|intros [= <- <-]; exact Hs].
  unfold Session.bind, Session.round_trip.
  destruct (faults (Session.trips w2)); [intros [= <- <-]; exact Hs|].
  intros [= <- <-]. cbn. rewrite Hs, Hr. reflexivity.
Qed.

Lemma update_try_answers (w : Session.world) :
  (forall k, faults k = false) ->
  exists w1, update_market_analysis_try faults now w = (Session.Returns tt, w1).
Proof.
  intros Hf. unfold update_market_analysis_try.
  unfold Session.bind at 1, Session.round_trip at 1. rewrite Hf.
  cbn [Session.store Session.pending Session.trips].
  unfold Session.bind at 1.
  destruct (update_groups_answers faults now (car_listings (Session.store w))
              (make_model_counts (car_listings (Session.store w))) Hf
              (market_analysis (Session.store w))
              (Session.mk_world (Session.store w) (Session.pending w)
                 (S (Session.trips w)))) as (t & w2 & ->).
  unfold Session.bind, Session.round_trip. rewrite Hf. eexists. reflexivity.
Qed.

End UpdateTry.

(** X14: the analysis is all or nothing: [update_market_analysis] always
    returns normally and never touches the listings; the store it leaves
    is either the store as it was, when a round trip to the database
    failed, or the store with every row of the run written; and it is
    the latter whenever the database answers. *)
Theorem update_market_analysis_atomic
    (faults : nat -> bool) (now : PyDatetime.datetime) (w : Session.world) :
  let r := update_market_analysis_session faults now w in
  fst r = Session.Returns tt
  /\ car_listings (Session.store (snd r)) = car_listings (Session.store w)
  /\ (Session.store (snd r) = Session.store w
      \/ Session.store (snd r) = update_market_analysis now (Session.store w))
  /\ ((forall k, faults k = false) ->
      Session.store (snd r) = update_market_analysis now (Session.store w))
  /\ (forall e w1, update_market_analysis_try faults now w = (Session.Raises e, w1) ->
                   Session.store (snd r) = Session.store w).
Proof.
  cbv zeta. unfold update_market_analysis_session, Session.try_except.
  destruct (update_market_analysis_try faults now w) as [r1 w1] eqn:E.
  pose proof (update_try_outcome faults now _ _ _ E) as Ho.
  destruct r1 as [[]|e]; cbn.
  - rewrite Ho. repeat split; auto. intros e w2 H. discriminate H.
  - rewrite Ho. repeat split; auto. intros Hf.
    destruct (update_try_answers faults now w Hf) as [w2 E2]. congruence.
Qed.

(* ===================================================================== *)
(** ** What the extractors return *)
(* ===================================================================== *)

Section YearComplete.

Lemma int_of_four_digits (c1 c2 c3 c4 : ascii) :
  int_of_digits (String c1 (String c2 (String c3 (String c4 EmptyString))))
  = num4 c1 c2 c3 c4.
Proof. unfold int_of_digits, num4. simpl. lia. Qed.

Lemma digit_val_char (c : ascii) (k : Z) :
  PyStr.is_digit c = true -> digit_val c = k -> c = PyDatetime.digit_char k.
Proof. intros Hc <-. symmetry. now apply digit_char_val. Qed.

Lemma in_range_of_val (lo hi c : ascii) :
  PyStr.is_digit c = true ->
  digit_val lo <= digit_val c <= digit_val hi -> Re.in_range lo hi c = true.
Proof.
  unfold Re.in_range, digit_val. intros _ H.
  apply andb_true_iff. split; apply Nat.leb_le; lia.
Qed.

(** Four digits that spell a year of the window match the pattern;
    [a] is the first decade digit of the window. *)
Lemma year_digits_complete (a c1 c2 c3 c4 : ascii) :
  PyStr.is_digit a = true ->
  PyStr.is_digit c1 = true -> PyStr.is_digit c2 = true ->
  PyStr.is_digit c3 = true -> PyStr.is_digit c4 = true ->
  1900 + 10 * digit_val a <= num4 c1 c2 c3 c4 <= 2029 ->
  Re.year_digits a c1 c2 c3 c4 = true.
Proof.
  intros Ha H1 H2 H3 H4 Hr. unfold num4 in Hr.
  pose proof (is_digit_val _ Ha).
  pose proof (is_digit_val _ H1). pose proof (is_digit_val _ H2).
  pose proof (is_digit_val _ H3). pose proof (is_digit_val _ H4).
  assert (Hc : (digit_val c1 = 1 /\ digit_val c2 = 9 /\ digit_val a <= digit_val c3 <= 9)
               \/ (digit_val c1 = 2 /\ digit_val c2 = 0 /\ 0 <= digit_val c3 <= 2)) by lia.
  unfold Re.year_digits. rewrite H4.
  destruct Hc as [(E1 & E2 & E3)|(E1 & E2 & E3)].
  - rewrite (digit_val_char c1 1 H1 E1), (digit_val_char c2 9 H2 E2).
    rewrite (in_range_of_val a "9" c3 H3) by exact E3. reflexivity.
  - rewrite (digit_val_char c1 2 H1 E1), (digit_val_char c2 0 H2 E2).
    rewrite (in_range_of_val "0" "2" c3 H3) by exact E3. cbn. reflexivity.
Qed.

(** A year that stands on its own in the text is found, or another one
    before it is. *)
Lemma search_year_complete (a : ascii) (g post : string) :
  PyStr.is_digit a = true ->
  String.length g = 4%nat -> all_digits g = true ->
  1900 + 10 * digit_val a <= int_of_digits g <= 2029 -> starts_on_word post = false ->
  forall (pre : string) (prev : bool),
    ends_on_word prev pre = false ->
    Re.search_year_from a prev (pre ++ g ++ post) <> None.
Proof.
  intros Ha Hlen Hall Hr Hpost.
  destruct g as [|c1 [|c2 [|c3 [|c4 [|? ?]]]]]; try discriminate.
  simpl in Hall. repeat (apply andb_true_iff in Hall as [? Hall]).
  rewrite int_of_four_digits in Hr.
  induction pre as [|c pre IH]; intros prev Hpre.
  - simpl in Hpre. subst prev.
    change (Re.search_year_from a false
              (String c1 (String c2 (String c3 (String c4 post)))) <> None).
    cbn [Re.search_year_from Re.year_here negb andb].
    rewrite year_digits_complete by assumption.
    destruct post as [|x post']; [discriminate|].
    simpl in Hpost. rewrite Hpost. discriminate.
  - change (Re.search_year_from a prev
              (String c (pre ++ String c1 (String c2 (String c3 (String c4 EmptyString)))
                         ++ post)) <> None).
    cbn [Re.search_year_from].
    destruct (negb prev && _); [discriminate|]. apply IH. exact Hpre.
Qed.

End YearComplete.

(** X15: [_extract_year] finds a year exactly when the title holds one: it
    returns [None] if and only if no four digits that spell a year from
    1970 to 2029 stand on their own in the title, and the year it returns
    is spelt by such four digits. *)
Theorem extract_year_iff (title : string) :
  (forall y, _extract_year title = Some y ->
     exists pre g post,
       title = pre ++ g ++ post
       /\ String.length g = 4%nat /\ all_digits g = true /\ int_of_digits g = y
       /\ 1970 <= y <= 2029
       /\ ends_on_word false pre = false /\ starts_on_word post = false)
  /\ (_extract_year title = None <-> ~ has_year 1970 2029 title).
Proof.
  unfold _extract_year, Re.search_year. split.
  - intros y Hy.
    destruct (Re.search_year_from "7" false title) as [g|] eqn:Eg; [|discriminate].
    injection Hy as <-.
    destruct (search_year_from_sound "7" title eq_refl false g Eg)
      as (pre & post & Ht & Hlen & Hall & Hwin & Hpre & Hpost).
    exists pre, g, post. repeat split; auto; apply Hwin.
  - split.
    + intros Hnone (pre & g & post & -> & Hlen & Hall & Hr & Hpre & Hpost).
      apply (search_year_complete "7" g post eq_refl Hlen Hall Hr Hpost pre false Hpre).
      now destruct (Re.search_year_from "7" false (pre ++ g ++ post)).
    + intros Hno.
      destruct (Re.search_year_from "7" false title) as [g|] eqn:Eg; [|reflexivity].
      exfalso. apply Hno.
      destruct (search_year_from_sound "7" title eq_refl false g Eg)
        as (pre & post & Ht & Hlen & Hall & Hwin & Hpre & Hpost).
      exists pre, g, post. repeat split; auto; apply Hwin.
Qed.

(** X16: [_extract_make] returns one of sixteen names, never "Chevy" or "VW",
    and the name it returns stands for a listed make that occurs in the
    title, in any case; it returns [None] exactly when no listed make
    occurs. *)
Theorem extract_make_canonical (title : string) :
  match _extract_make title with
  | Some make =>
      In make canonical_makes
      /\ exists listed, In listed common_makes /\ make = normalize_make listed
                        /\ PyStr.contains (PyStr.lower listed) (PyStr.lower title) = true
  | None =>
      forall listed, In listed common_makes ->
                     PyStr.contains (PyStr.lower listed) (PyStr.lower title) = false
  end.
Proof.
  unfold _extract_make.
  destruct (first_make (PyStr.lower title) common_makes) as [make|] eqn:E.
  - destruct (first_make_sound _ _ _ E) as (listed & Hin & -> & Hc).
    split; [|eauto].
    simpl in Hin.
    repeat (destruct Hin as [<-|Hin]; [vm_compute; tauto|]). destruct Hin.
  - now apply first_make_none.
Qed.

Section TitleCase.

Lemma lower_upper_char (c : ascii) :
  PyStr.lower_char (PyStr.upper_char c) = PyStr.lower_char c.
Proof. destruct c as [[] [] [] [] [] [] [] []]; reflexivity. Qed.

Lemma lower_lower_char (c : ascii) :
  PyStr.lower_char (PyStr.lower_char c) = PyStr.lower_char c.
Proof. destruct c as [[] [] [] [] [] [] [] []]; reflexivity. Qed.

Lemma upper_lower_char (c : ascii) :
  PyStr.upper_char (PyStr.lower_char c) = PyStr.upper_char c.
Proof. destruct c as [[] [] [] [] [] [] [] []]; reflexivity. Qed.

Lemma is_alpha_lower_char (c : ascii) :
  PyStr.is_alpha (PyStr.lower_char c) = PyStr.is_alpha c.
Proof. destruct c as [[] [] [] [] [] [] [] []]; reflexivity. Qed.

Lemma lower_title_go (s : string) :
  forall b, PyStr.lower (PyStr.title_go b s) = PyStr.lower s.
Proof.
  induction s as [|c s IH]; intros b; simpl; [reflexivity|].
  rewrite IH. destruct b; now rewrite ?lower_lower_char, ?lower_upper_char.
Qed.

Lemma title_go_lower (s : string) :
  forall b, PyStr.title_go b (PyStr.lower s) = PyStr.title_go b s.
Proof.
  induction s as [|c s IH]; intros b; simpl; [reflexivity|].
  rewrite is_alpha_lower_char, IH.
  destruct b; now rewrite ?lower_lower_char, ?upper_lower_char.
Qed.

(** A title-cased text is given by its lower-case form. *)
Lemma title_lower_title (s : string) :
  PyStr.title (PyStr.lower (PyStr.title s)) = PyStr.title s.
Proof.
  unfold PyStr.title. now rewrite lower_title_go, title_go_lower.
Qed.

Lemma title_go_length (s : string) :
  forall b, String.length (PyStr.title_go b s) = String.length s.
Proof. induction s as [|c s IH]; intros b; simpl; [reflexivity | now rewrite IH]. Qed.

Lemma lower_append (a b : string) :
  PyStr.lower (a ++ b) = PyStr.lower a ++ PyStr.lower b.
Proof.
  induction a as [|c a IH]; [reflexivity|].
  rewrite append_cons. simpl. now rewrite IH.
Qed.

End TitleCase.

Section ModelShape.

Lemma first_model_title (title_lower : string) (models : list string) (m : string) :
  first_model title_lower models = Some m ->
  exists keyword, In keyword models /\ m = PyStr.title keyword.
Proof.
  induction models as [|k ks IH]; simpl; [discriminate|].
  destruct (PyStr.contains (PyStr.lower k) title_lower).
  - intros [= <-]. exists k. split; [now left | reflexivity].
  - intros H. destruct (IH H) as (k' & Hin & ->). exists k'. split; [now right | reflexivity].
Qed.

(** Every keyword of the dictionary has two characters or more. *)
Lemma keyword_length (make_lower : string) (models : list string) (keyword : string) :
  model_dict !! make_lower = Some models -> In keyword models ->
  (2 <= String.length keyword)%nat.
Proof.
  intros Hm Hk. unfold model_dict in Hm. apply elem_of_list_to_map_2 in Hm.
  apply list_elem_of_In in Hm. simpl in Hm.
  repeat (destruct Hm as [[= <- <-]|Hm];
          [simpl in Hk; repeat (destruct Hk as [<-|Hk]; [simpl; lia|]); destruct Hk|]).
  destruct Hm.
Qed.

(** A model is a title-cased text of two characters or more. *)
Lemma extract_model_title (title : string) (make : option string) (model : string) :
  _extract_model title make = Some model ->
  PyStr.otruthy make = true
  /\ (2 <= String.length model)%nat
  /\ exists s, model = PyStr.title s.
Proof.
  unfold _extract_model. destruct (PyStr.otruthy make); [|discriminate]. cbn [negb].
  intros H. split; [reflexivity|].
  destruct (model_dict !! PyStr.lower (default "" make)) as [models|] eqn:Em.
  - destruct (first_model (PyStr.lower title) models) as [m|] eqn:Ef.
    + injection H as <-. destruct (first_model_title _ _ _ Ef) as (k & Hk & ->).
      split; [|eauto]. unfold PyStr.title. rewrite title_go_length.
      eapply keyword_length; eauto.
    + revert H. unfold model_after_make. destruct (0 <=? _); [|discriminate].
      destruct (PyStr.split _) as [|w ws]; [discriminate|].
      destruct (PyStr.truthy (PyStr.strip w) && (1 <? PyStr.len (PyStr.strip w))) eqn:E;
        [|discriminate].
      intros [= <-]. split; [|eauto]. unfold PyStr.title. rewrite title_go_length.
      apply andb_true_iff in E as [_ E]. apply Z.ltb_lt in E. unfold PyStr.len in E. lia.
  - revert H. unfold model_after_make. destruct (0 <=? _); [|discriminate].
    destruct (PyStr.split _) as [|w ws]; [discriminate|].
    destruct (PyStr.truthy (PyStr.strip w) && (1 <? PyStr.len (PyStr.strip w))) eqn:E;
      [|discriminate].
    intros [= <-]. split; [|eauto]. unfold PyStr.title. rewrite title_go_length.
    apply andb_true_iff in E as [_ E]. apply Z.ltb_lt in E. unfold PyStr.len in E. lia.
Qed.

End ModelShape.

(** What is read from an ASCII title is ASCII. *)
Section AsciiTitles.

Lemma ascii_lower_char (c : ascii) : ascii_char (PyStr.lower_char c) = ascii_char c.
Proof. destruct c as [[] [] [] [] [] [] [] []]; reflexivity. Qed.

Lemma ascii_upper_char (c : ascii) : ascii_char (PyStr.upper_char c) = ascii_char c.
Proof. destruct c as [[] [] [] [] [] [] [] []]; reflexivity. Qed.

Lemma isascii_lower (s : string) : isascii (PyStr.lower s) = isascii s.
Proof.
  unfold isascii. induction s as [|c s IH]; [reflexivity|]. simpl.
  now rewrite ascii_lower_char, IH.
Qed.

Lemma isascii_title_go (s : string) :
  forall b, isascii (PyStr.title_go b s) = isascii s.
Proof.
  unfold isascii. induction s as [|c s IH]; intros b; [reflexivity|]. simpl.
  rewrite IH. destruct b; now rewrite ?ascii_lower_char, ?ascii_upper_char.
Qed.

Lemma isascii_drop (n : nat) :
  forall s, isascii s = true -> isascii (PyStr.drop n s) = true.
Proof.
  unfold isascii. induction n as [|n IH]; intros s H; [exact H|].
  destruct s as [|c s]; [reflexivity|]. simpl in H |- *.
  apply andb_true_iff in H as [_ H]. now apply IH.
Qed.

Lemma isascii_lstrip (s : string) : isascii s = true -> isascii (PyStr.lstrip s) = true.
Proof.
  unfold isascii. induction s as [|c s IH]; [reflexivity|]. simpl. intros H.
  destruct (PyStr.is_space c); [|exact H].
  apply andb_true_iff in H as [_ H]. now apply IH.
Qed.

Lemma isascii_rstrip (s : string) : isascii s = true -> isascii (PyStr.rstrip s) = true.
Proof.
  unfold isascii. induction s as [|c s IH]; [reflexivity|]. simpl. intros H.
  apply andb_true_iff in H as [Hc H]. specialize (IH H).
  destruct (PyStr.rstrip s) as [|c' r'].
  - destruct (PyStr.is_space c); [reflexivity|]. simpl. now rewrite Hc.
  - cbn [all_chars] in IH |- *. now rewrite Hc.
Qed.

Lemma isascii_strip (s : string) : isascii s = true -> isascii (PyStr.strip s) = true.
Proof. intros H. unfold PyStr.strip. now apply isascii_rstrip, isascii_lstrip. Qed.

Lemma isascii_of_list (l : list ascii) :
  isascii (string_of_list_ascii l) = forallb ascii_char l.
Proof.
  unfold isascii. induction l as [|c l IH]; [reflexivity|]. simpl. now rewrite IH.
Qed.

Lemma forallb_rev {A : Type} (p : A -> bool) (l : list A) :
  forallb p (rev l) = forallb p l.
Proof.
  induction l as [|x l IH]; [reflexivity|]. simpl.
  rewrite forallb_app, IH. simpl. rewrite andb_true_r. apply andb_comm.
Qed.

Lemma isascii_split_go (s : string) :
  forall cur, forallb ascii_char cur = true -> isascii s = true ->
    forall w, In w (PyStr.split_go cur s) -> isascii w = true.
Proof.
  induction s as [|c s IH]; intros cur Hcur Hs w Hw.
  - simpl in Hw. destruct cur as [|x cur]; [destruct Hw|].
    destruct Hw as [<-|[]]. rewrite isascii_of_list, forallb_rev. exact Hcur.
  - unfold isascii in Hs. simpl in Hs. apply andb_true_iff in Hs as [Hc Hs].
    cbn [PyStr.split_go] in Hw. destruct (PyStr.is_space c).
    + apply in_app_or in Hw as [Hw|Hw].
      * destruct cur as [|x cur]; [destruct Hw|].
        destruct Hw as [<-|[]]. rewrite isascii_of_list, forallb_rev. exact Hcur.
      * now apply (IH [] eq_refl Hs).
    + apply (IH (c :: cur)); [simpl; now rewrite Hc | exact Hs | exact Hw].
Qed.

(** The keywords of the dictionary are ASCII. *)
Lemma keyword_ascii (make_lower : string) (models : list string) (keyword : string) :
  model_dict !! make_lower = Some models -> In keyword models ->
  isascii (PyStr.title keyword) = true.
Proof.
  intros Hm Hk. unfold model_dict in Hm. apply elem_of_list_to_map_2 in Hm.
  apply list_elem_of_In in Hm. simpl in Hm.
  repeat (destruct Hm as [[= <- <-]|Hm];
          [simpl in Hk; repeat (destruct Hk as [<-|Hk]; [reflexivity|]); destruct Hk|]).
  destruct Hm.
Qed.

Lemma model_after_make_ascii (title_lower make_lower model : string) :
  isascii title_lower = true ->
  model_after_make title_lower make_lower = Some model -> isascii model = true.
Proof.
  intros Ht. unfold model_after_make. destruct (0 <=? _); [|discriminate].
  destruct (PyStr.split _) as [|w ws] eqn:Es; [discriminate|].
  destruct (_ && _); [|discriminate]. intros [= <-].
  unfold PyStr.title. rewrite isascii_title_go. apply isascii_strip.
  unfold PyStr.split, PyStr.slice_from in Es.
  eapply (isascii_split_go _ [] eq_refl); [|rewrite Es; now left].
  now apply isascii_strip, isascii_drop.
Qed.

(** The model read from an ASCII title is ASCII. *)
Lemma extract_model_ascii (title : string) (make : option string) (model : string) :
  isascii title = true -> _extract_model title make = Some model ->
  isascii model = true.
Proof.
  intros Ht. rewrite <- isascii_lower in Ht.
  unfold _extract_model. destruct (PyStr.otruthy make); [|discriminate]. cbn [negb].
  destruct (model_dict !! PyStr.lower (default "" make)) as [models|] eqn:Em.
  - destruct (first_model (PyStr.lower title) models) as [m|] eqn:Ef.
    + intros [= <-]. destruct (first_model_title _ _ _ Ef) as (k & Hk & ->).
      eapply keyword_ascii; eauto.
    + now apply model_after_make_ascii.
  - now apply model_after_make_ascii.
Qed.

Lemma isascii_append (a b : string) : isascii (a ++ b) = isascii a && isascii b.
Proof. apply all_chars_append. Qed.

End AsciiTitles.

Section Keys.

(** No underscore in the text. *)
Let plain (s : string) : Prop := PyStr.contains "_" s = false.

Lemma plain_tail (c : ascii) (s : string) :
  plain (String c s) -> Ascii.eqb c "_" = false /\ plain s.
Proof.
  unfold plain. cbn [PyStr.contains PyStr.startswith].
  rewrite (Ascii.eqb_sym "_" c). destruct (Ascii.eqb c "_"); simpl; [discriminate|auto].
Qed.

(** Two keys are equal only when their parts before the first
    underscore and their parts after it are. *)
Lemma underscore_split (a : string) :
  forall b x y, plain a -> plain b ->
    a ++ "_" ++ x = b ++ "_" ++ y -> a = b /\ x = y.
Proof.
  induction a as [|c a IH]; intros [|d b] x y Ha Hb H.
  - change (String "_" x = String "_" y) in H. injection H as ->. auto.
  - apply plain_tail in Hb as [Hd _].
    change (String "_" x = String d (b ++ "_" ++ y)) in H.
    injection H as E _. subst d. discriminate.
  - apply plain_tail in Ha as [Hc _].
    change (String c (a ++ "_" ++ x) = String "_" y) in H.
    injection H as E _. subst c. discriminate.
  - apply plain_tail in Ha as [_ Ha]. apply plain_tail in Hb as [_ Hb].
    rewrite !append_cons in H. injection H as -> H.
    destruct (IH b x y Ha Hb H) as [-> ->]. auto.
Qed.

Lemma canonical_make_plain (make : string) :
  In make canonical_makes -> plain (PyStr.lower make).
Proof.
  intros H. simpl in H.
  repeat (destruct H as [<-|H]; [reflexivity|]). destruct H.
Qed.

Lemma canonical_make_lower (m1 m2 : string) :
  In m1 canonical_makes -> In m2 canonical_makes ->
  PyStr.lower m1 = PyStr.lower m2 -> m1 = m2.
Proof.
  intros H1 H2. simpl in H1, H2.
  repeat (destruct H1 as [<-|H1];
          [repeat (destruct H2 as [<-|H2];
                   [vm_compute; intros E; first [reflexivity | discriminate E]|]);
           destruct H2|]).
  destruct H1.
Qed.

End Keys.

(** X17: the key of the deal comparison tells the groups apart.  For two
    listings with ASCII titles whose make and model were read from the
    titles by [_extract_make] and [_extract_model], the lower-cased key
    make_model is the same only if they have the same make and the same
    model.  A model read from an ASCII title is an ASCII text in title
    case of two characters or more, so is the key an ASCII text, and
    there is no model without a make. *)
Theorem key_identifies_group (t1 t2 make1 model1 make2 model2 : string) :
  isascii t1 = true -> isascii t2 = true ->
  _extract_make t1 = Some make1 -> _extract_model t1 (Some make1) = Some model1 ->
  _extract_make t2 = Some make2 -> _extract_model t2 (Some make2) = Some model2 ->
  (AppDb.key make1 model1 = AppDb.key make2 model2 -> make1 = make2 /\ model1 = model2)
  /\ isascii model1 = true
  /\ isascii (AppDb.key make1 model1) = true
  /\ PyStr.title (PyStr.lower model1) = model1
  /\ (2 <= String.length model1)%nat
  /\ _extract_model t1 None = None.
Proof.
  intros Ha1 Ha2 Hk1 Hm1 Hk2 Hm2.
  pose proof (extract_model_ascii _ _ _ Ha1 Hm1) as Hascii.
  destruct (extract_model_title _ _ _ Hm1) as (_ & Hlen1 & s1 & ->).
  destruct (extract_model_title _ _ _ Hm2) as (_ & _ & s2 & ->).
  assert (Hc1 : In make1 canonical_makes).
  { unfold _extract_make in Hk1.
    destruct (first_make_sound _ _ _ Hk1) as (listed & Hin & -> & _). simpl in Hin.
    repeat (destruct Hin as [<-|Hin]; [vm_compute; tauto|]). destruct Hin. }
  assert (Hc2 : In make2 canonical_makes).
  { unfold _extract_make in Hk2.
    destruct (first_make_sound _ _ _ Hk2) as (listed & Hin & -> & _). simpl in Hin.
    repeat (destruct Hin as [<-|Hin]; [vm_compute; tauto|]). destruct Hin. }
  split; [|split; [exact Hascii | split; [|split; [apply title_lower_title
                                                  | split; [exact Hlen1 | reflexivity]]]]].
  - unfold AppDb.key. rewrite !lower_append. change (PyStr.lower "_") with "_".
    intros H.
    apply underscore_split in H as [Hmk Hmd];
      [|now apply canonical_make_plain|now apply canonical_make_plain].
    split; [now apply canonical_make_lower|].
    rewrite <- (title_lower_title s1), <- (title_lower_title s2). now rewrite Hmd.
  - unfold AppDb.key. rewrite isascii_lower, !isascii_append, Hascii.
    simpl in Hc1.
    repeat (destruct Hc1 as [<-|Hc1]; [reflexivity|]). destruct Hc1.
Qed.

Lemma key_identifies_group_witness :
  PyStr.title (PyStr.lower "Camry") = "Camry".
Proof.
  exact (proj1 (proj2 (proj2 (proj2
           (key_identifies_group "2015 Toyota Camry LE" "2016 toyota CAMRY"
              "Toyota" "Camry" "Toyota" "Camry"
              eq_refl eq_refl eq_refl eq_refl eq_refl eq_refl))))).
Defined.

(* ===================================================================== *)
(** ** The deal status once the analysis has run *)
(* ===================================================================== *)

Section AnalysisDict.

Let row_dict_key (a : MarketAnalysis.t) : string :=
  AppDb.key (MarketAnalysis.make a) (MarketAnalysis.model a).

Lemma analysis_dict_snoc (table : list MarketAnalysis.t) (a : MarketAnalysis.t) :
  AppDb.analysis_dict (table ++ [a])
  = <[ row_dict_key a := a ]> (AppDb.analysis_dict table).
Proof. unfold AppDb.analysis_dict. now rewrite fold_left_app. Qed.

(** A key of the dictionary leads to a row of the table with that key. *)
Lemma analysis_dict_some (table : list MarketAnalysis.t) (k : string) (a : MarketAnalysis.t) :
  AppDb.analysis_dict table !! k = Some a -> In a table /\ row_dict_key a = k.
Proof.
  induction table as [|b table IH] using rev_ind.
  - unfold AppDb.analysis_dict. cbn. rewrite lookup_empty. discriminate.
  - rewrite analysis_dict_snoc. destruct (decide (row_dict_key b = k)) as [E|E].
    + rewrite <- E, lookup_insert_eq. intros [= <-].
      split; [apply in_or_app; right; now left | reflexivity].
    + rewrite lookup_insert_ne by exact E. intros H. destruct (IH H) as [Hin Hk].
      split; [apply in_or_app; now left | exact Hk].
Qed.

(** Every key of a row of the table is a key of the dictionary. *)
Lemma analysis_dict_covers (table : list MarketAnalysis.t) (a : MarketAnalysis.t) :
  In a table -> exists a', AppDb.analysis_dict table !! row_dict_key a = Some a'.
Proof.
  induction table as [|b table IH] using rev_ind; [intros []|].
  intros Hin. rewrite analysis_dict_snoc.
  destruct (decide (row_dict_key b = row_dict_key a)) as [E|E].
  - rewrite <- E, lookup_insert_eq. eauto.
  - rewrite lookup_insert_ne by exact E. apply IH.
    apply in_app_or in Hin as [Hin|[<-|[]]]; [exact Hin | congruence].
Qed.

End AnalysisDict.

(** X18: once a run of the analysis has seen three valid prices or more in
    the group of a make and model, every listing of that make and model
    is rated against a stored average: its status is never "Unknown"; it
    is "Price Unknown" when the price of the listing is missing or
    unreadable, and else the band of its price against the average of a
    row of the table with the key of the listing. *)
Theorem rated_after_analysis
    (now : PyDatetime.datetime) (d : database) (listing : CarListing.t)
    (make model : string) :
  CarListing.make listing = Some make -> make <> "" ->
  CarListing.model listing = Some model -> model <> "" ->
  (3 <= length (valid_prices (car_listings d) make model))%nat ->
  let table := market_analysis (update_market_analysis now d) in
  exists analysis,
    In analysis table
    /\ AppDb.key (MarketAnalysis.make analysis) (MarketAnalysis.model analysis)
       = AppDb.key make model
    /\ AppDb.deal (AppDb.analysis_dict table) listing
       = match parsed_price listing with
         | Some price =>
             AppDb.compare_to_average price (MarketAnalysis.avg_price analysis)
         | None => ("Price Unknown", "")
         end
    /\ AppDb.deal_status (AppDb.analysis_dict table) listing <> "Unknown".
Proof.
  intros Hmk Hmkne Hmd Hmdne Hn. cbv zeta.
  destruct (analyse_is_some now make model (priced_listings (car_listings d) make model))
    as [a Ha]; [now rewrite parse_prices_priced|].
  assert (Hw : In a (rows_written now (car_listings d))).
  { apply rows_written_in. exists make, model. repeat split; auto.
    - apply valid_prices_member. intros E. rewrite E in Hn. simpl in Hn. lia.
    - pose proof (valid_prices_count (car_listings d) make model). lia. }
  assert (Hkey : row_key a = (make, model)).
  { apply analyse_some in Ha as [_ ->]. reflexivity. }
  pose proof (rows_written_stored now (car_listings d) (market_analysis d) a Hw) as Hst.
  assert (Hd : mk_database (car_listings d) (market_analysis d) = d) by now destruct d.
  rewrite Hd in Hst.
  destruct (analysis_dict_covers _ a Hst) as [a' Ha'].
  unfold row_key in Hkey. injection Hkey as Emk Emd. rewrite Emk, Emd in Ha'.
  destruct (analysis_dict_some _ _ _ Ha') as [Hin' Hk'].
  exists a'. split; [exact Hin'|]. split; [exact Hk'|].
  assert (Hdeal : AppDb.deal
                    (AppDb.analysis_dict (market_analysis (update_market_analysis now d)))
                    listing
                  = match parsed_price listing with
                    | Some price =>
                        AppDb.compare_to_average price (MarketAnalysis.avg_price a')
                    | None => ("Price Unknown", "")
                    end).
  { unfold AppDb.deal, parsed_price. rewrite Hmk, Hmd. cbn [PyStr.otruthy default].
    destruct make; [congruence|]. destruct model; [congruence|]. cbn [PyStr.truthy andb].
    unfold id. rewrite Ha'. destruct (CarListing.price listing); reflexivity. }
  split; [exact Hdeal|]. unfold AppDb.deal_status. rewrite Hdeal.
  destruct (parsed_price listing) as [p|]; [|discriminate].
  rewrite compare_to_average_status. cbv zeta.
  repeat (destruct (PyFloat.ltb _ _); [discriminate|]). discriminate.
Qed.

Lemma rated_after_analysis_witness :
  exists analysis,
    In analysis (market_analysis
                   (update_market_analysis sample_time (mk_database three_camrys [])))
    /\ AppDb.key (MarketAnalysis.make analysis) (MarketAnalysis.model analysis)
       = AppDb.key "Toyota" "Camry".
Proof.
  destruct (rated_after_analysis sample_time (mk_database three_camrys [])
              (camry "https://example.org/1.html" (Some "9000") "2015")
              "Toyota" "Camry") as (a & Hin & Hk & _).
  - vm_compute. reflexivity.
  - discriminate.
  - vm_compute. reflexivity.
  - discriminate.
  - vm_compute. lia.
  - exists a. split; [exact Hin | exact Hk].
Defined.

(* ===================================================================== *)
(** ** The characters of a lookup URL *)
(* ===================================================================== *)

Section UrlCharacters.

(** The two hexadecimal digits of a byte are digits or capital letters. *)
Lemma hex_digits_safe (c : ascii) :
  url_char (SheetsManager.hex_digit (nat_of_ascii c / 16)) = true
  /\ url_char (SheetsManager.hex_digit (nat_of_ascii c mod 16)) = true.
Proof. destruct c as [[] [] [] [] [] [] [] []]; split; reflexivity. Qed.

Lemma quote_bytes_chars (s : string) :
  all_chars url_char (SheetsManager.quote_from_bytes s) = true.
Proof.
  induction s as [|c s IH]; [reflexivity|]. cbn [SheetsManager.quote_from_bytes].
  destruct (SheetsManager.is_safe c) eqn:E; cbn [all_chars].
  - unfold url_char at 1. now rewrite E, IH.
  - destruct (hex_digits_safe c) as [-> ->]. now rewrite IH.
Qed.

Lemma quote_chars (s q : string) :
  SheetsManager.quote s = Some q -> all_chars url_char q = true.
Proof.
  unfold SheetsManager.quote. destruct (PyStr.has_surrogate s); [discriminate|].
  intros [= <-]. apply quote_bytes_chars.
Qed.

Lemma url_chars_no_space (s : string) : all_chars url_char s = true -> no_space s = true.
Proof.
  induction s as [|c s IH]; [reflexivity|]. simpl. intros Hc.
  apply andb_true_iff in Hc as [Hc Hs]. rewrite (IH Hs), andb_true_r.
  destruct c as [[] [] [] [] [] [] [] []]; try reflexivity; discriminate.
Qed.

Lemma kbb_url_chars (title url : string) :
  SheetsManager.generate_kbb_lookup_url title = Some url ->
  all_chars url_char url = true.
Proof.
  unfold SheetsManager.generate_kbb_lookup_url, SheetsManager.generate_kbb_lookup_url_try.
  destruct (SheetsManager.find_model title _) as [model|].
  - destruct (PyStr.truthy _ && PyStr.truthy _); [destruct (PyStr.truthy model)|];
      repeat match goal with
             | |- context [match SheetsManager.quote ?x with _ => _ end] =>
                 let E := fresh "E" in
                 destruct (SheetsManager.quote x) eqn:E;
                 [apply quote_chars in E|]
             end;
      intros [= <-]; rewrite !all_chars_append;
      repeat match goal with
             | E : all_chars url_char _ = true |- _ => rewrite E; clear E
             end;
      reflexivity.
  - destruct (SheetsManager.quote title) eqn:E; intros [= <-].
    apply quote_chars in E. rewrite all_chars_append, E. reflexivity.
Qed.

End UrlCharacters.

(** X19: [generate_kbb_lookup_url] returns a URL for every title that holds
    no surrogate, and fails (with the error of [quote] in its handler)
    only on a title that holds one.  Every URL it returns begins with
    the address of the site and is made of letters, digits and the
    marks [_ . - ~ / : ? = %] only: it holds no blank, no quote and no
    character of the title that a URL cannot carry. *)
Theorem kbb_url_characters (title : string) :
  (PyStr.has_surrogate title = false ->
   exists url, SheetsManager.generate_kbb_lookup_url title = Some url)
  /\ (SheetsManager.generate_kbb_lookup_url title = None ->
      PyStr.has_surrogate title = true)
  /\ (forall url, SheetsManager.generate_kbb_lookup_url title = Some url ->
        PyStr.startswith "https://www.kbb.com/" url = true
        /\ all_chars url_char url = true
        /\ no_space url = true).
Proof.
  split; [apply kbb_url_returns|]. split.
  - intros Hnone. destruct (PyStr.has_surrogate title) eqn:E; [reflexivity|].
    destruct (kbb_url_returns title E) as [url Hurl]. congruence.
  - intros url Hurl. split; [eapply kbb_url_prefix; eauto|].
    pose proof (kbb_url_chars _ _ Hurl) as H. split; [exact H|].
    now apply url_chars_no_space.
Qed.

Section StructuredUrl.

Lemma find_make_cases (title_lower : string) (makes : list string) :
  (SheetsManager.find_make title_lower makes = ""
   /\ forall make, In make makes -> PyStr.contains (PyStr.lower make) title_lower = false)
  \/ exists make, In make makes
                  /\ PyStr.contains (PyStr.lower make) title_lower = true
                  /\ SheetsManager.find_make title_lower makes = normalize_make make.
Proof.
  induction makes as [|m ms IH]; simpl.
  - left. split; [reflexivity | intros ? []].
  - destruct (PyStr.contains (PyStr.lower m) title_lower) eqn:E.
    + right. exists m. repeat split; auto.
    + destruct IH as [[Hn Hall]|(make & Hin & Hc & Hf)].
      * left. split; [exact Hn|]. intros make [<-|Hin]; auto.
      * right. exists make. repeat split; auto.
Qed.

Lemma normalized_canonical (make : string) :
  In make SheetsManager.common_makes -> In (normalize_make make) canonical_makes.
Proof.
  intros Hin. simpl in Hin.
  repeat (destruct Hin as [<-|Hin]; [vm_compute; tauto|]). destruct Hin.
Qed.

Lemma canonical_make_quoted (make : string) :
  In make canonical_makes ->
  make <> "" /\ SheetsManager.quote (PyStr.lower make) = Some (PyStr.lower make).
Proof.
  intros Hin. simpl in Hin.
  repeat (destruct Hin as [<-|Hin]; [split; [discriminate | reflexivity]|]). destruct Hin.
Qed.

Lemma digit_safe (c : ascii) : PyStr.is_digit c = true -> SheetsManager.is_safe c = true.
Proof. destruct c as [[] [] [] [] [] [] [] []]; try discriminate; reflexivity. Qed.

Lemma digit_code (c : ascii) : PyStr.is_digit c = true -> (PyStr.code c =? 237)%nat = false.
Proof. destruct c as [[] [] [] [] [] [] [] []]; try discriminate; reflexivity. Qed.

Lemma digits_no_surrogate (s : string) :
  all_digits s = true -> PyStr.has_surrogate s = false.
Proof.
  induction s as [|c s IH]; [reflexivity|]. simpl. intros H.
  apply andb_true_iff in H as [Hc Hs]. now rewrite (digit_code c Hc), (IH Hs).
Qed.

Lemma quote_digits (s : string) : all_digits s = true -> SheetsManager.quote s = Some s.
Proof.
  intros H. rewrite (quote_returns s (digits_no_surrogate s H)). f_equal.
  induction s as [|c s IH]; [reflexivity|]. simpl in H |- *.
  apply andb_true_iff in H as [Hc Hs]. now rewrite (digit_safe c Hc), (IH Hs).
Qed.

(** What [generate_kbb_lookup_url] does with a year, a make and a model
    in hand. *)
Lemma kbb_url_with (title year make model : string) :
  Re.search_year "9" title = Some year -> all_digits year = true -> year <> "" ->
  SheetsManager.find_make (PyStr.lower title) SheetsManager.common_makes = make ->
  In make canonical_makes ->
  SheetsManager.find_model title make = Some model ->
  SheetsManager.generate_kbb_lookup_url title
  = if PyStr.truthy model then
      match SheetsManager.quote (PyStr.lower model) with
      | Some q => Some ("https://www.kbb.com/cars-for-sale/year-" ++ year
                        ++ "/make-" ++ PyStr.lower make ++ "/model-" ++ q ++ "/")
      | None => option_map (String.append SheetsManager.search_url)
                           (SheetsManager.quote title)
      end
    else Some ("https://www.kbb.com/cars-for-sale/year-" ++ year
               ++ "/make-" ++ PyStr.lower make ++ "/").
Proof.
  intros Ey Hall Hne Hf Hcan Hm.
  destruct (canonical_make_quoted _ Hcan) as [Hmk Hq].
  unfold SheetsManager.generate_kbb_lookup_url, SheetsManager.generate_kbb_lookup_url_try.
  rewrite Ey, Hf, Hm. cbn [default]. unfold id.
  assert (Hty : PyStr.truthy year = true) by (destruct year; [congruence | reflexivity]).
  assert (Htm : PyStr.truthy make = true) by (destruct make; [congruence | reflexivity]).
  rewrite Hty, Htm, Hq, (quote_digits year Hall). cbn [andb].
  destruct (PyStr.truthy model); [|reflexivity].
  destruct (SheetsManager.quote (PyStr.lower model)); [reflexivity|].
  destruct (SheetsManager.quote title); reflexivity.
Qed.

End StructuredUrl.

(** X23: the lookup URL names the year and the make only when the title
    has them: a URL that begins with ".../cars-for-sale/year-" comes
    from a title that holds a four-digit year from 1990 to 2029 standing
    on its own and one of the known makes.  For such a title the URL is
    built from the leftmost such year and from the first listed make
    that occurs, in lower case and with Chevy and VW spelt out, followed
    by the quoted model when one is found; when the model holds a
    surrogate and cannot be quoted, the handler takes over: it quotes
    the raw title, and fails if that holds a surrogate too. *)
Theorem kbb_url_structured (title : string) :
  (forall url,
     SheetsManager.generate_kbb_lookup_url title = Some url ->
     PyStr.startswith "https://www.kbb.com/cars-for-sale/year-" url = true ->
     has_year 1990 2029 title /\ has_known_make title)
  /\ (has_year 1990 2029 title /\ has_known_make title ->
      exists year make model,
        Re.search_year "9" title = Some year
        /\ SheetsManager.find_make (PyStr.lower title) SheetsManager.common_makes = make
        /\ In make canonical_makes
        /\ SheetsManager.find_model title make = Some model
        /\ (model = "" ->
            SheetsManager.generate_kbb_lookup_url title
            = Some ("https://www.kbb.com/cars-for-sale/year-" ++ year
                    ++ "/make-" ++ PyStr.lower make ++ "/"))
        /\ (model <> "" ->
            forall q, SheetsManager.quote (PyStr.lower model) = Some q ->
              SheetsManager.generate_kbb_lookup_url title
              = Some ("https://www.kbb.com/cars-for-sale/year-" ++ year
                      ++ "/make-" ++ PyStr.lower make ++ "/model-" ++ q ++ "/"))
        /\ (SheetsManager.quote (PyStr.lower model) = None ->
            SheetsManager.generate_kbb_lookup_url title
            = option_map (String.append SheetsManager.search_url)
                         (SheetsManager.quote title)))
  /\ SheetsManager.generate_kbb_lookup_url model_with_surrogate = None.
Proof.
  split; [|split; [|vm_compute; reflexivity]].
  - intros url Hurl Hs.
    destruct (Re.search_year "9" title) as [year|] eqn:Ey.
    + destruct (find_make_cases (PyStr.lower title) SheetsManager.common_makes)
        as [[Hn _]|(make & Hin & Hc & _)].
      * exfalso. revert Hurl Hs.
        unfold SheetsManager.generate_kbb_lookup_url,
          SheetsManager.generate_kbb_lookup_url_try.
        rewrite Hn. destruct (SheetsManager.find_model title "") as [model|];
          rewrite ?andb_false_r;
          repeat match goal with
                 | |- context [match SheetsManager.quote ?x with _ => _ end] =>
                     destruct (SheetsManager.quote x)
                 end;
          intros [= <-]; discriminate.
      * split.
        -- destruct (search_year_from_sound "9" title eq_refl false year Ey)
             as (pre & post & ? & ? & ? & ? & ? & ?).
           exists pre, year, post. auto 10.
        -- exists make. auto.
    + exfalso. revert Hurl Hs.
      unfold SheetsManager.generate_kbb_lookup_url,
        SheetsManager.generate_kbb_lookup_url_try.
      rewrite Ey. cbn [default from_option PyStr.truthy andb].
      destruct (SheetsManager.find_model title _) as [model|];
        repeat match goal with
               | |- context [match SheetsManager.quote ?x with _ => _ end] =>
                   destruct (SheetsManager.quote x)
               end;
        intros [= <-]; discriminate.
  - intros [(pre & g & post & -> & Hlen & Hall & Hr & Hpre & Hpost) (listed & Hl & Hc)].
    pose proof (search_year_complete "9" g post eq_refl Hlen Hall Hr Hpost pre false Hpre)
      as Hsome.
    destruct (Re.search_year "9" (pre ++ g ++ post)) as [year|] eqn:Ey;
      [clear Hsome | now destruct Hsome].
    destruct (search_year_from_sound "9" _ eq_refl false year Ey)
      as (pre' & post' & _ & Hlen' & Hall' & _).
    destruct (find_make_cases (PyStr.lower (pre ++ g ++ post)) SheetsManager.common_makes)
      as [[_ Hnone]|(make & Hin & _ & Hf)]; [rewrite (Hnone listed Hl) in Hc; discriminate|].
    pose proof (normalized_canonical make Hin) as Hcan.
    destruct (find_model_returns (pre ++ g ++ post) (normalize_make make)) as [model Hm].
    assert (Hne : year <> "") by (intros ->; discriminate Hlen').
    pose proof (kbb_url_with _ _ _ _ Ey Hall' Hne Hf Hcan Hm) as Hurl.
    exists year, (normalize_make make), model.
    split; [reflexivity|]. split; [exact Hf|]. split; [exact Hcan|]. split; [exact Hm|].
    split; [|split].
    + intros ->. exact Hurl.
    + intros Hmodel q Hq. rewrite Hurl, Hq.
      destruct model; [congruence | reflexivity].
    + intros Hq. rewrite Hurl, Hq.
      destruct model; [discriminate Hq | reflexivity].
Qed.

Lemma kbb_url_structured_witness :
  exists year make model,
    Re.search_year "9" "2015 Toyota Camry LE" = Some year
    /\ SheetsManager.find_make (PyStr.lower "2015 Toyota Camry LE")
         SheetsManager.common_makes = make
    /\ In make canonical_makes
    /\ SheetsManager.find_model "2015 Toyota Camry LE" make = Some model.
Proof.
  destruct (proj1 (proj2 (kbb_url_structured "2015 Toyota Camry LE")))
    as (year & make & model & H1 & H2 & H3 & H4 & _).
  - split.
    + exists "", "2015", " Toyota Camry LE". repeat split; try reflexivity.
      all: vm_compute; intros H; discriminate H.
    + exists "Toyota". split; [now left | reflexivity].
  - exists year, make, model. auto.
Defined.

(* ===================================================================== *)
(** ** The batches that reach [add_listings] *)
(* ===================================================================== *)

Section Batches.

Lemma skipped_false (title url : option string) (existing_urls : gset string)
    (filter_keywords : list string) :
  Scraper.skipped title url existing_urls filter_keywords = false ->
  exists t u,
    title = Some t /\ url = Some u /\ t <> "" /\ u <> "" /\ (u ∉ existing_urls)
    /\ forall keyword, In keyword filter_keywords ->
                       PyStr.contains (PyStr.lower keyword) (PyStr.lower t) = false.
Proof.
  unfold Scraper.skipped.
  destruct title as [t|]; [|discriminate]. destruct url as [u|];
    [|rewrite orb_true_r; discriminate].
  destruct t as [|c t]; [discriminate|]. destruct u as [|c' u]; [discriminate|].
  cbn [PyStr.otruthy PyStr.truthy negb orb default].
  unfold id.
  destruct (bool_decide (String c' u ∈ existing_urls)) eqn:Hk; [discriminate|].
  apply bool_decide_eq_false in Hk.
  destruct (existsb _ filter_keywords) eqn:Hf; [discriminate|]. intros _.
  exists (String c t), (String c' u). repeat split; auto; try discriminate.
  intros keyword Hin.
  destruct (PyStr.contains (PyStr.lower keyword) (PyStr.lower (String c t))) eqn:E;
    [|reflexivity].
  assert (existsb (fun keyword =>
            PyStr.contains (PyStr.lower keyword) (PyStr.lower (String c t)))
            filter_keywords = true) by (apply existsb_exists; eauto).
  congruence.
Qed.

Variable faults : nat -> bool.
Variable now : PyDatetime.datetime.




End Batches.

(** X20: what the scraper promises of every listing it returns: a title and a
    link, both not empty; a link that is not among the known ones and a
    title without any of the excluded keywords; a price that is either
    missing or a string of digits that the analysis reads as a number
    which is not negative; and a posting time that is never "N/A". *)
Theorem scraped_listing_shape
    (existing_urls : gset string) (filter_keywords : list string)
    (current_time today : PyDatetime.datetime) (current_year : Z) (r : Scraper.result)
    (d : listing_dict) :
  Scraper.listing existing_urls filter_keywords current_time today current_year r = Some d ->
  (exists title url,
     d !! "title" = Some (Some title) /\ d !! "url" = Some (Some url)
     /\ title <> "" /\ url <> "" /\ (url ∉ existing_urls)
     /\ forall keyword, In keyword filter_keywords ->
                        PyStr.contains (PyStr.lower keyword) (PyStr.lower title) = false)
  /\ match get d "price" with
     | None => True
     | Some price =>
         price <> "" /\ all_digits price = true
         /\ exists x, price_number price = Some x /\ not_negative x = true
     end
  /\ (exists posting_time, get d "posting_time" = Some posting_time /\ posting_time <> "N/A").
Proof.
  intros Hd.
  destruct (scraped_entries _ _ _ _ _ _ _ Hd) as (Hsk & Ht & Hp & Hu & _ & Hpt & _).
  destruct (skipped_false _ _ _ _ Hsk) as (t & u & Et & Eu & Hne & Hune & Hnew & Hkw).
  rewrite Et in Ht. rewrite Eu in Hu. cbn in Ht, Hu.
  split; [|split].
  - exists t, u. auto 10.
  - unfold get. rewrite Hp.
    destruct (Scraper.price_text r) as [text|]; [|exact I].
    destruct (Utils.clean_price (Some text)) as [p|] eqn:Ec; [|exact I].
    destruct (clean_price_digits text p Ec) as (_ & Hne' & Hall).
    destruct (price_number_digits p Hne' Hall) as [Hnum Hsign].
    repeat split; auto. eauto.
  - unfold get. rewrite Hpt. eexists. split; [reflexivity|].
    unfold Scraper.posting_time.
    destruct (String.eqb_spec
                match Scraper.datetime_value r with
                | Some v => Utils.parse_posting_time current_year (Some v)
                | None => "N/A"
                end "N/A") as [E|E]; [|exact E].
    intros E'. apply (f_equal String.length) in E'. vm_compute in E'. discriminate.
Qed.

Lemma scraped_listing_shape_witness :
  exists posting_time,
    get scraped_sample "posting_time" = Some posting_time /\ posting_time <> "N/A".
Proof.
  refine (proj2 (proj2 (scraped_listing_shape ∅ ["salvage"] sample_time sample_time 2024
                          sample_result scraped_sample _))).
  vm_compute. reflexivity.
Defined.


Section Migration.


End Migration.



Lemma omap_length {A B : Type} (f : A -> option B) (l : list A) :
  (length (omap f l) <= length l)%nat.
Proof.
  induction l as [|x l IH]; [reflexivity|]. rewrite omap_cons.
  destruct (f x); simpl; lia.
Qed.

Section TwoScrapers.

Variable existing_urls : gset string.
Variable filter_keywords : list string.
Variables current_time today : PyDatetime.datetime.
Variable current_year : Z.

Lemma browser_entries (r : PlaywrightScraper.result) (d : listing_dict) :
  PlaywrightScraper.listing existing_urls filter_keywords current_time today current_year r
  = Some d ->
  PlaywrightScraper.skipped (PlaywrightScraper.title r) (PlaywrightScraper.url r)
    existing_urls filter_keywords = false
  /\ exists p,
      PlaywrightScraper.visit r = Some p
      /\ d !! "title" = Some (Some (default "N/A" (PlaywrightScraper.title r)))
      /\ d !! "price" = Some (PlaywrightScraper.price (PlaywrightScraper.price_text r))
      /\ d !! "url" = Some (Some (default "" (PlaywrightScraper.url r)))
      /\ d !! "location"
         = Some (Some (default "N/A" (PlaywrightScraper.location_text r)))
      /\ d !! "posting_time"
         = Some (Some (PlaywrightScraper.posting_time current_year today p))
      /\ d !! "scraped_at" = Some (Some (PyDatetime.strftime_canonical current_time)).
Proof.
  unfold PlaywrightScraper.listing. intros Hd.
  destruct (PlaywrightScraper.skipped _ _ _ _); [discriminate|].
  destruct (PlaywrightScraper.visit r) as [p|]; [|discriminate]. injection Hd as <-.
  split; [reflexivity|]. exists p. split; [reflexivity|].
  exact (listing_entries _ _ _ _ _ _).
Qed.

(** On a result with a title, the two scrapers take the same
    [continue] statements. *)
Lemma skipped_titled (title url : option string) :
  PyStr.otruthy title = true ->
  PlaywrightScraper.skipped title url existing_urls filter_keywords
  = Scraper.skipped title url existing_urls filter_keywords.
Proof.
  intros Ht. unfold PlaywrightScraper.skipped, Scraper.skipped. rewrite Ht.
  destruct title as [t|]; [|discriminate]. cbn [negb orb default].
  destruct (negb (PyStr.otruthy url)); [reflexivity|].
  destruct (bool_decide _); [reflexivity|].
  unfold id. now destruct (existsb _ _).
Qed.

Lemma classic_none (r : Scraper.result) :
  Scraper.listing existing_urls filter_keywords current_time today current_year r = None
  <-> Scraper.skipped (Scraper.title r) (Scraper.url r) existing_urls filter_keywords = true.
Proof.
  unfold Scraper.listing. destruct (Scraper.skipped _ _ _ _); split; congruence.
Qed.

Lemma browser_none (r : PlaywrightScraper.result) :
  PlaywrightScraper.listing existing_urls filter_keywords current_time today current_year r
  = None
  <-> PlaywrightScraper.skipped (PlaywrightScraper.title r) (PlaywrightScraper.url r)
        existing_urls filter_keywords = true
      \/ PlaywrightScraper.visit r = None.
Proof.
  unfold PlaywrightScraper.listing. destruct (PlaywrightScraper.skipped _ _ _ _).
  - split; auto.
  - destruct (PlaywrightScraper.visit r); split; auto; try discriminate.
    intros [H|H]; discriminate H.
Qed.

(** The posting times of the two scrapers are the same, unless the
    attribute of the posting information parses to "N/A". *)
Lemma posting_time_same (p : PlaywrightScraper.page) :
  (PyStr.otruthy (PlaywrightScraper.posting_info p) = true ->
   Utils.parse_posting_time current_year (PlaywrightScraper.posting_info p) <> "N/A") ->
  PlaywrightScraper.posting_time current_year today p
  = Scraper.posting_time current_year today (found_datetime p).
Proof.
  intros H. unfold PlaywrightScraper.posting_time, Scraper.posting_time, found_datetime.
  destruct (PyStr.otruthy (PlaywrightScraper.posting_info p)) eqn:Et.
  - specialize (H eq_refl).
    destruct (PlaywrightScraper.posting_info p) as [v|]; [|discriminate].
    destruct (String.eqb_spec (Utils.parse_posting_time current_year (Some v)) "N/A")
      as [E|E]; [congruence|].
    destruct (String.eqb_spec (Utils.parse_posting_time current_year (Some v)) "N/A");
      [congruence | reflexivity].
  - change (String.eqb "N/A" "N/A") with true. cbv iota.
    destruct (PlaywrightScraper.first_datetime _) as [v|]; reflexivity.
Qed.

End TwoScrapers.

(** X24: the two scrapers on the same result, that is with the same texts
    of the link, the title, the price and the location, and the same
    page of the listing.  When the visit of that page raises, the
    Playwright scraper drops the result in the handler of its turn,
    while [scrape_craigslist], which catches the error of the visit on
    its own, keeps the result with the current date.  On a result with
    a title the Playwright scraper appends nothing exactly when
    [scrape_craigslist] appends nothing or the visit raises.  A result
    without a title is always skipped by [scrape_craigslist]; the
    Playwright scraper gives it the title "N/A".  When both append a
    listing, the two listings have the same title, price, link and
    [scraped_at]; the location is the raw text in the one and the text
    without its parentheses in the other; the posting times are the
    same unless the attribute of the posting information parses to
    "N/A".  The Playwright scraper returns fifty listings at most. *)
Theorem scrapers_agree
    (existing_urls : gset string) (filter_keywords : list string)
    (current_time today : PyDatetime.datetime) (current_year : Z)
    (r : PlaywrightScraper.result) :
  let classic :=
    Scraper.listing existing_urls filter_keywords current_time today current_year
      (classic_result r) in
  let browser :=
    PlaywrightScraper.listing existing_urls filter_keywords current_time today
      current_year r in
  (PlaywrightScraper.visit r = None ->
   browser = None
   /\ (Scraper.skipped (PlaywrightScraper.title r) (PlaywrightScraper.url r)
         existing_urls filter_keywords = false ->
       exists d, classic = Some d
                 /\ d !! "posting_time" = Some (Some (PyDatetime.strftime_date today))))
  /\ (PyStr.otruthy (PlaywrightScraper.title r) = true ->
      (browser = None <-> classic = None \/ PlaywrightScraper.visit r = None))
  /\ (PyStr.otruthy (PlaywrightScraper.title r) = false -> classic = None)
  /\ (forall d', PlaywrightScraper.title r = None -> browser = Some d' ->
                 d' !! "title" = Some (Some "N/A"))
  /\ (forall d d' p,
        classic = Some d -> browser = Some d' -> PlaywrightScraper.visit r = Some p ->
        d' !! "title" = d !! "title" /\ d' !! "price" = d !! "price"
        /\ d' !! "url" = d !! "url" /\ d' !! "scraped_at" = d !! "scraped_at"
        /\ d' !! "location"
           = Some (Some (default "N/A" (PlaywrightScraper.location_text r)))
        /\ d !! "location"
           = Some (Some (match PlaywrightScraper.location_text r with
                         | Some t => PyStr.strip_chars "()" t
                         | None => "N/A"
                         end))
        /\ ((PyStr.otruthy (PlaywrightScraper.posting_info p) = true ->
             Utils.parse_posting_time current_year (PlaywrightScraper.posting_info p)
             <> "N/A") ->
            d' !! "posting_time" = d !! "posting_time"))
  /\ forall listings_results,
       (length (PlaywrightScraper.listings existing_urls filter_keywords current_time
                  today current_year listings_results) <= 50)%nat.
Proof.
  cbv zeta. split; [|split; [|split; [|split; [|split]]]].
  - intros Hv. split; [apply browser_none; now right|].
    intros Hs. unfold Scraper.listing, classic_result.
    cbn [Scraper.title Scraper.url Scraper.price_text Scraper.location_text
         Scraper.datetime_value].
    rewrite Hs, Hv. eexists. split; [reflexivity|].
    exact (proj1 (proj2 (proj2 (proj2 (proj2 (listing_entries _ _ _ _ _ _)))))).
  - intros Ht. rewrite browser_none, classic_none.
    cbn [classic_result Scraper.title Scraper.url].
    now rewrite (skipped_titled _ _ _ _ Ht).
  - intros Ht. apply classic_none. cbn [classic_result Scraper.title Scraper.url].
    unfold Scraper.skipped. now rewrite Ht.
  - intros d' Ht Hb.
    destruct (browser_entries _ _ _ _ _ _ _ Hb) as (_ & p & _ & H & _).
    now rewrite Ht in H.
  - intros d d' p Hc Hb Hv.
    destruct (browser_entries _ _ _ _ _ _ _ Hb)
      as (_ & p' & Hv' & Bt & Bp & Bu & Bl & Bpt & Bs).
    assert (p' = p) by congruence. subst p'.
    destruct (scraped_entries _ _ _ _ _ _ _ Hc) as (Hs & Ct & Cp & Cu & Cl & Cpt & Cs).
    cbn [classic_result Scraper.title Scraper.url Scraper.price_text
         Scraper.location_text Scraper.datetime_value] in Hs, Ct, Cp, Cu, Cl, Cpt, Cs.
    destruct (skipped_false _ _ _ _ Hs) as (t & u & Et & _).
    rewrite Bt, Ct, Bp, Cp, Bu, Cu, Bs, Cs, Bl, Cl, Bpt, Cpt, Hv.
    repeat split.
    + now rewrite Et.
    + unfold PlaywrightScraper.price. now destruct (PlaywrightScraper.price_text r).
    + intros H. now rewrite (posting_time_same _ _ _ H).
  - intros results. unfold PlaywrightScraper.listings.
    etransitivity; [apply omap_length|].
    unfold PlaywrightScraper.processed. rewrite length_firstn. lia.
Qed.

Lemma scrapers_agree_witness :
  PlaywrightScraper.listing ∅ ["salvage"] sample_time sample_time 2024 dropped_result = None.
Proof.
  exact (proj1 (proj1 (scrapers_agree ∅ ["salvage"] sample_time sample_time 2024
                         dropped_result) eq_refl)).
Defined.
